(** * VoiceAgent: the booking backend (server/app) in Rocq

    A shallow embedding of the three Python modules of the service:

    - [Config]  : server/app/config.py  (environment settings, [validate_config]);
    - [Models]  : server/app/models.py  ([AppointmentDetails] and its validators);
    - [Main]    : server/app/main.py    ([create_google_calendar_event] and the
                  tool endpoint [book_appointment_tool]).

    Python values, exceptions and the few dynamic operations the handler uses
    ([in], [x[k]], [x.get(k, d)], truthiness) live in module [Py].  Calls into
    third-party libraries (json, pydantic, datetime, pytz, the Google client)
    are fields of the record [Lib.Externals]: every theorem is stated for all
    of them, and [Sample] gives one concrete choice on which the definitions
    can be run. *)

From Stdlib Require Import ZArith String Ascii List Bool Lia PrimFloat FloatOps SpecFloat.
From stdpp Require Import base gmap strings list pretty.

Set Warnings "-register-all".

Local Open Scope Z_scope.

(* ===================================================================== *)
(** * Python values, exceptions and dynamic operations                    *)
(* ===================================================================== *)

Module Py.

(** ** Text

    A Python [str] is kept as its UTF-8 bytes.  [len] counts code points, that
    is the bytes that are not continuation bytes (10xxxxxx).  A lone
    surrogate, which [json.loads] makes of an escape such as [\ud800], is
    kept as the three bytes that the same scheme gives it: 0xED, a byte from
    0xA0 on, and a continuation byte. *)

Definition is_continuation (a : ascii) : bool :=
  let n := Z.of_nat (nat_of_ascii a) in (128 <=? n) && (n <? 192).

Fixpoint str_len (s : string) : Z :=
  match s with
  | EmptyString => 0
  | String a t => (if is_continuation a then 0 else 1) + str_len t
  end.

(** The text holds a surrogate, so that [s.encode("utf-8")] raises
    [UnicodeEncodeError]. *)
Fixpoint has_surrogate (s : string) : bool :=
  match s with
  | EmptyString => false
  | String a t =>
      ((nat_of_ascii a =? 237)%nat
       && match t with
          | String b _ => (160 <=? nat_of_ascii b)%nat
          | EmptyString => false
          end)
      || has_surrogate t
  end.

(** [needle in hay] for two strings. *)
Fixpoint str_contains (needle hay : string) : bool :=
  if String.prefix needle hay then true
  else match hay with
       | EmptyString => false
       | String _ t => str_contains needle t
       end.

Definition lower_ascii (a : ascii) : ascii :=
  let n := nat_of_ascii a in
  if (65 <=? n)%nat && (n <=? 90)%nat then ascii_of_nat (n + 32) else a.

(** [s.lower()] on the ASCII letters; other bytes are kept. *)
Fixpoint str_lower (s : string) : string :=
  match s with
  | EmptyString => EmptyString
  | String a t => String (lower_ascii a) (str_lower t)
  end.

(** The continuation bytes a string starts with. *)
Fixpoint leading_continuation (s : string) : string :=
  match s with
  | String a t => if is_continuation a then String a (leading_continuation t) else EmptyString
  | EmptyString => EmptyString
  end.

(** [sep.join(items)]. *)
Definition join (sep : string) (items : list string) : string := String.concat sep items.

(** ** Values

    What [json.loads] can produce, which is also all the handler ever holds:
    [None], booleans, integers, floats, text, lists and dicts with text keys.
    A dict is its list of items in insertion order; [json.loads] never
    produces two items with one key, and lookup takes the first. *)

Inductive value : Type :=
| PNone
| PBool (b : bool)
| PInt (z : Z)
| PFloat (f : float)
| PStr (s : string)
| PList (items : list value)
| PDict (items : list (string * value)).

Fixpoint assoc {A : Type} (k : string) (items : list (string * A)) : option A :=
  match items with
  | [] => None
  | (k', v) :: rest => if String.eqb k k' then Some v else assoc k rest
  end.

Definition of_option (o : option string) : value :=
  match o with Some s => PStr s | None => PNone end.

(** [type(v).__name__]. *)
Definition type_name (v : value) : string :=
  match v with
  | PNone => "NoneType"
  | PBool _ => "bool"
  | PInt _ => "int"
  | PFloat _ => "float"
  | PStr _ => "str"
  | PList _ => "list"
  | PDict _ => "dict"
  end.

(** The integer that a float without a fractional part stands for; [None]
    for a float with a fractional part, an infinity or a NaN. *)
Definition float_to_Z (f : float) : option Z :=
  match Prim2SF f with
  | S754_zero _ => Some 0
  | S754_finite negative m e =>
      let magnitude :=
        if 0 <=? e then Some (Z.pos m * 2 ^ e)
        else if Z.pos m mod 2 ^ (- e) =? 0 then Some (Z.pos m / 2 ^ (- e))
        else None in
      match magnitude with
      | Some n => Some (if negative then - n else n)
      | None => None
      end
  | S754_infinity _ | S754_nan => None
  end.

(** [json.dumps(v, ensure_ascii=False, allow_nan=False).encode("utf-8")]
    succeeds: no float in [v] is an infinity or a NaN, and no text or key in
    [v] holds a surrogate.  ([json.loads] accepts the words [NaN], [Infinity]
    and [-Infinity], and escapes of lone surrogates.) *)
Fixpoint json_compliant (v : value) : bool :=
  match v with
  | PFloat f => is_finite f
  | PStr s => negb (has_surrogate s)
  | PList items => forallb json_compliant items
  | PDict items =>
      forallb (fun item => let '(k, w) := item in negb (has_surrogate k) && json_compliant w)
        items
  | _ => true
  end.

(** ** Exceptions

    One constructor per class the code raises or tells apart.  [JSONDecodeError],
    [UnicodeDecodeError] and pydantic's [ValidationError] are subclasses of
    [ValueError]; [OtherError] stands for any further subclass of [Exception]
    that is none of the classes named in an [except] clause of the service. *)

(** What pydantic reports for one field, by its error type. *)
Inductive field_error : Type :=
| missing
| string_type
| too_short (min_length : Z)
| too_long (max_length : Z)
| greater_than_equal (ge : Z)
| less_than_equal (le : Z)
| value_error (msg : string)
| frozen_instance
| other_error (type msg : string).

Inductive exn : Type :=
| TypeError (msg : string)
| AttributeError (msg : string)
| KeyError (key : string)
| IndexError (msg : string)
| UnboundLocalError (name : string)
| ValueError (msg : string)
| JSONDecodeError (msg : string)
| UnicodeDecodeError (msg : string)
| ValidationError (model : string) (errors : list (string * field_error))
| HTTPException (status_code : Z) (detail : string)
| HttpError (text : string)
| OtherError (cls msg : string).

(** [isinstance(e, ValueError)]. *)
Definition is_ValueError (e : exn) : bool :=
  match e with
  | ValueError _ | JSONDecodeError _ | UnicodeDecodeError _ | ValidationError _ _ => true
  | _ => false
  end.

Definition result (A : Type) : Type := exn + A.

Definition ok {A : Type} (a : A) : result A := inr a.
Definition throw {A : Type} (e : exn) : result A := inl e.

Definition rbind {A B : Type} (r : result A) (k : A -> result B) : result B :=
  match r with
  | inl e => inl e
  | inr a => k a
  end.

(** ** Dynamic operations *)

(** [bool(v)]. *)
Definition truthy (v : value) : bool :=
  match v with
  | PNone => false
  | PBool b => b
  | PInt z => negb (z =? 0)
  | PFloat f => negb (PrimFloat.eqb f 0%float)
  | PStr s => negb (String.eqb s "")
  | PList items => match items with [] => false | _ => true end
  | PDict items => match items with [] => false | _ => true end
  end.

Definition is_text (k : string) (v : value) : bool :=
  match v with PStr s => String.eqb k s | _ => false end.

(** [k in c] for a text [k]: a key of a dict, an element of a list, a
    substring of a text; the other values are not containers. *)
Definition py_in (k : string) (c : value) : result bool :=
  match c with
  | PDict items => ok (match assoc k items with Some _ => true | None => false end)
  | PList items => ok (existsb (is_text k) items)
  | PStr s => ok (str_contains k s)
  | _ => throw (TypeError ("argument of type '" +:+ type_name c +:+ "' is not iterable"))
  end.

(** [c[k]] for a text [k]. *)
Definition getitem (c : value) (k : string) : result value :=
  match c with
  | PDict items => match assoc k items with
                   | Some v => ok v
                   | None => throw (KeyError k)
                   end
  | PList _ => throw (TypeError "list indices must be integers or slices, not str")
  | PStr _ => throw (TypeError "string indices must be integers, not 'str'")
  | _ => throw (TypeError ("'" +:+ type_name c +:+ "' object is not subscriptable"))
  end.

(** [c[0]]: the first element of a list, the first character of a text; a
    dict from JSON has no key [0]. *)
Definition getitem0 (c : value) : result value :=
  match c with
  | PList (x :: _) => ok x
  | PList [] => throw (IndexError "list index out of range")
  | PStr (String a t) => ok (PStr (String a (leading_continuation t)))
  | PStr EmptyString => throw (IndexError "string index out of range")
  | PDict _ => throw (KeyError "0")
  | _ => throw (TypeError ("'" +:+ type_name c +:+ "' object is not subscriptable"))
  end.

(** [c.get(k, default)]: only a dict has the method. *)
Definition get (c : value) (k : string) (default : value) : result value :=
  match c with
  | PDict items => ok (match assoc k items with Some v => v | None => default end)
  | _ => throw (AttributeError ("'" +:+ type_name c +:+ "' object has no attribute 'get'"))
  end.

(** ** State and exceptions

    A computation over a state [St] either returns or raises, and hands back
    the state it reached in both cases (an [except] clause sees the
    assignments made before the [raise]). *)

Definition M (St A : Type) : Type := St -> result A * St.

Definition ret {St A : Type} (a : A) : M St A := fun s => (inr a, s).
Definition raise {St A : Type} (e : exn) : M St A := fun s => (inl e, s).
Definition bind {St A B : Type} (c : M St A) (k : A -> M St B) : M St B :=
  fun s => match c s with
           | (inr a, s') => k a s'
           | (inl e, s') => (inl e, s')
           end.
Definition lift {St A : Type} (r : result A) : M St A := fun s => (r, s).
Definition read {St : Type} : M St St := fun s => (inr s, s).
Definition write {St : Type} (s : St) : M St unit := fun _ => (inr tt, s).

(** [try: body  except ...: handler e]. *)
Definition try_except {St A : Type} (body : M St A) (handler : exn -> M St A) : M St A :=
  fun s => match body s with
           | (inr a, s') => (inr a, s')
           | (inl e, s') => handler e s'
           end.

(** Run a computation on the first or on the second component of a pair. *)
Definition on_fst {S1 S2 A : Type} (c : M S1 A) : M (S1 * S2) A :=
  fun s => let '(r, s1) := c (fst s) in (r, (s1, snd s)).
Definition on_snd {S1 S2 A : Type} (c : M S2 A) : M (S1 * S2) A :=
  fun s => let '(r, s2) := c (snd s) in (r, (fst s, s2)).

End Py.

Import Py.

Notation "'let*' x ':=' c 'in' k" := (bind c (fun x => k))
  (at level 10, x name, c at level 100, k at level 200).
Notation "c1 ';;' c2" := (bind c1 (fun _ => c2))
  (at level 100, c2 at level 200, right associativity).
Notation "'let?' x ':=' c 'in' k" := (rbind c (fun x => k))
  (at level 10, x name, c at level 100, k at level 200).

(* ===================================================================== *)
(** * server/app/config.py                                                *)
(* ===================================================================== *)

Module Config.

(** The process environment after [load_dotenv()]: a finite map from
    variable names to text. *)
Abbreviation environ := (gmap string string).

(** [os.getenv(name)] and [os.getenv(name, default)]. *)
Definition getenv (env : environ) (name : string) : option string := env !! name.
Definition getenv_or (env : environ) (name default : string) : string :=
  match env !! name with Some v => v | None => default end.

(** The module-level settings that [validate_config] and main.py read. *)
Record settings : Type := {
  ENVIRONMENT : string;
  VAPI_API_KEY : option string;
  VAPI_API_PUBLIC_KEY : option string;
  GOOGLE_CLIENT_ID : option string;
  GOOGLE_CLIENT_SECRET : option string;
  GOOGLE_REDIRECT_URI : option string;
  BACKEND_URL : string;
  YOUR_EMAIL : option string;
  DEFAULT_TIMEZONE : string;
}.

Definition load (env : environ) : settings := {|
  ENVIRONMENT := getenv_or env "ENVIRONMENT" "development";
  VAPI_API_KEY := getenv env "VAPI_API_KEY";
  VAPI_API_PUBLIC_KEY := getenv env "VAPI_API_PUBLIC_KEY";
  GOOGLE_CLIENT_ID := getenv env "GOOGLE_CLIENT_ID";
  GOOGLE_CLIENT_SECRET := getenv env "GOOGLE_CLIENT_SECRET";
  GOOGLE_REDIRECT_URI := getenv env "GOOGLE_REDIRECT_URI";
  BACKEND_URL := getenv_or env "BACKEND_URL" "http://localhost:8000";
  YOUR_EMAIL := getenv env "YOUR_EMAIL";
  DEFAULT_TIMEZONE := getenv_or env "DEFAULT_TIMEZONE" "America/Los_Angeles";
|}.

(** [not var_value] for a setting: unset ([None]) or empty text. *)
Definition unset (v : option string) : bool :=
  match v with
  | None => true
  | Some s => String.eqb s ""
  end.

Definition required_vars (c : settings) : list (string * option string) :=
  [ ("VAPI_API_KEY", VAPI_API_KEY c);
    ("VAPI_API_PUBLIC_KEY", VAPI_API_PUBLIC_KEY c);
    ("GOOGLE_CLIENT_ID", GOOGLE_CLIENT_ID c);
    ("GOOGLE_CLIENT_SECRET", GOOGLE_CLIENT_SECRET c);
    ("GOOGLE_REDIRECT_URI", GOOGLE_REDIRECT_URI c);
    ("YOUR_EMAIL", YOUR_EMAIL c);
    ("BACKEND_URL", Some (BACKEND_URL c)) ].

Definition missing_line (var_name : string) : string :=
  "Missing required environment variable: " +:+ var_name.

(** The [for var_name, var_value in required_vars] loop, appending to [errors]. *)
Fixpoint check_required (vars : list (string * option string)) (errors : list string)
  : list string :=
  match vars with
  | [] => errors
  | (var_name, var_value) :: rest =>
      check_required rest
        (if unset var_value then errors ++ [missing_line var_name] else errors)
  end.

Definition newline : string := String (ascii_of_nat 10) EmptyString.

Definition failure_message (errors : list string) : string :=
  "Configuration validation failed:" +:+ newline +:+ join newline errors.

Definition validate_config (c : settings) : result unit :=
  let errors := [] in
  let errors :=
    if String.eqb (ENVIRONMENT c) "production"
    then check_required (required_vars c) errors
    else errors in
  match errors with
  | [] => ok tt
  | _ => throw (ValueError (failure_message errors))
  end.

(** The last two lines of the module: [if ENVIRONMENT: validate_config()]. *)
Definition validate_on_import (c : settings) : result unit :=
  if negb (String.eqb (ENVIRONMENT c) "") then validate_config c else ok tt.

End Config.

(* ===================================================================== *)
(** * Third-party libraries                                               *)
(* ===================================================================== *)

Module Lib.

(** A [datetime.date]; dates compare as the triples (year, month, day). *)
Record calendar_date : Type := { year : Z; month : Z; day : Z }.

Definition date_ltb (a b : calendar_date) : bool :=
  (year a <? year b)
  || ((year a =? year b)
      && ((month a <? month b) || ((month a =? month b) && (day a <? day b)))).

(** A value of the annotation [str | int]. *)
Inductive str_or_int : Type :=
| Text (s : string)
| Int (z : Z).

(** [str(v)]. *)
Definition str_of (v : str_or_int) : string :=
  match v with
  | Text s => s
  | Int z => pretty z
  end.

(** How the validation of one field ends: with the validated value, with an
    error that pydantic collects into its [ValidationError], or with an
    exception that is no validation error and leaves the constructor at
    once. *)
Inductive outcome (A : Type) : Type :=
| Valid (a : A)
| Invalid (err : field_error)
| Raises (e : exn).
Arguments Valid {A} a.
Arguments Invalid {A} err.
Arguments Raises {A} e.

(** The library calls the service makes, as functions of their arguments.
    Nothing is assumed about them. *)
Record Externals : Type := {
  (** [raw_body.decode()] succeeds. *)
  utf8_decodes : string -> bool;
  (** [json.loads(b)] on the bytes of a request body. *)
  json_loads : string -> result value;
  (** [json.loads(s)] on a text. *)
  json_loads_str : string -> result value;
  (** [re.match(r"^[\d\s\-\+\(\)]{10,20}$", s)] finds a match. *)
  phone_pattern_matches : string -> bool;
  (** [datetime.strptime(s, "%Y-%m-%d").date()]; [None] when it raises [ValueError]. *)
  strptime_date : string -> option calendar_date;
  (** [datetime.strptime(s, "%H:%M")] succeeds. *)
  strptime_time : string -> bool;
  (** [pytz.timezone(s)] succeeds ([UnknownTimeZoneError] otherwise). *)
  pytz_timezone : string -> bool;
  (** [datetime.now().date()]. *)
  today : calendar_date;
  (** [EmailStr]: the normalised address, [None] when the text is no address. *)
  validate_email : string -> option string;
  (** The reason that the email validator gives for refusing a text. *)
  email_reason : string -> string;
  (** pydantic on [phone] when the input is not text: the [int] branch of
      the union, on which the length bounds have no meaning. *)
  phone_not_text : value -> outcome str_or_int;
  (** The union [str | int] of [duration_minutes] on an input that is
      neither an integer, nor a text, nor a float that stands for an integer:
      what it makes of the input, before the bounds of the field are applied. *)
  duration_not_int : value -> outcome str_or_int;
  (** [str(e)] of a pydantic [ValidationError]. *)
  validation_error_str : string -> list (string * field_error) -> string;
  (** The [Credentials] made of the stored token, then [build("calendar", "v3", ...)]. *)
  build_service : value -> result unit;
  (** Zone-aware instants. *)
  datetime : Type;
  (** [pytz.timezone(zone).localize(datetime.strptime(text, "%Y-%m-%dT%H:%M:%S"))]. *)
  localize : string -> string -> result datetime;
  (** [dt + timedelta(minutes=m)]. *)
  add_minutes : datetime -> str_or_int -> result datetime;
  (** [dt.isoformat()]. *)
  isoformat : datetime -> string;
  (** [service.events().insert(calendarId="primary", body=..., sendUpdates="all").execute()]
      with the credentials of the service. *)
  events_insert : value -> value -> result value;
  (** [datetime.utcnow().isoformat()]. *)
  utcnow_isoformat : string;
}.

(** [str(e)]. *)
Definition exn_str (X : Externals) (e : exn) : string :=
  match e with
  | TypeError m | AttributeError m | IndexError m | ValueError m
  | JSONDecodeError m | UnicodeDecodeError m | HttpError m | OtherError _ m => m
  | KeyError k => "'" +:+ k +:+ "'"
  | UnboundLocalError n =>
      "cannot access local variable '" +:+ n +:+ "' where it is not associated with a value"
  | ValidationError model errors => validation_error_str X model errors
  | HTTPException status_code detail => pretty status_code +:+ ": " +:+ detail
  end.

End Lib.

(* ===================================================================== *)
(** * server/app/models.py                                                *)
(* ===================================================================== *)

Module Models.
Import Lib.

Record AppointmentDetails : Type := {
  name : string;
  phone : str_or_int;
  email : string;
  date : string;
  time : string;
  purpose : option string;
  timezone : string;
  duration_minutes : str_or_int;
}.

(** The keyword arguments of a call [AppointmentDetails(...)]; [None] is an
    argument that is not passed. *)
Record kwargs : Type := {
  kw_name : option value;
  kw_phone : option value;
  kw_email : option value;
  kw_date : option value;
  kw_time : option value;
  kw_purpose : option value;
  kw_timezone : option value;
  kw_duration_minutes : option value;
}.

(** [class Config] of the model sets [json_schema_extra] only, so the
    settings that govern assignment keep pydantic's defaults. *)
Record ConfigDict : Type := { frozen : bool }.
Definition model_config : ConfigDict := {| frozen := false |}.

Section Validation.
Variable X : Externals.
Variable cfg : Config.settings.

(** ** The validators of the class *)

Definition validate_phone (v : str_or_int) : result str_or_int :=
  if negb (phone_pattern_matches X (str_of v))
  then throw (ValueError "Invalid phone format")
  else ok v.

(** [try: ... except ValueError: raise ValueError(...)] around a body that
    has no state. *)
Definition except_ValueError {A : Type} (body : result A) (handler : result A) : result A :=
  match body with
  | inr a => inr a
  | inl e => if is_ValueError e then handler else inl e
  end.

Definition validate_date (v : string) : result string :=
  except_ValueError
    (let? date_obj :=
       match strptime_date X v with
       | Some d => ok d
       | None => throw (ValueError "time data does not match format '%Y-%m-%d'")
       end in
     if date_ltb date_obj (today X)
     then throw (ValueError "Date must be in the future")
     else ok v)
    (throw (ValueError "Date must be in YYYY-MM-DD format")).

Definition validate_time (v : string) : result string :=
  except_ValueError
    (if strptime_time X v then ok v
     else throw (ValueError "time data does not match format '%H:%M'"))
    (throw (ValueError "Time must be in HH:MM format (24-hour)")).

Definition validate_timezone (v : string) : result string :=
  if pytz_timezone X v then ok v
  else throw (ValueError ("Invalid timezone: " +:+ v)).

(** ** The fields *)

(** A validator of the class runs after the field's own checks; pydantic
    turns its [ValueError] into an error of the field. *)
Definition after {A : Type} (r : result A) : outcome A :=
  match r with
  | inr a => Valid a
  | inl e => if is_ValueError e then Invalid (value_error (exn_str X e)) else Raises e
  end.

Definition then_validate {A : Type} (o : outcome A) (validator : A -> result A) : outcome A :=
  match o with
  | Valid a => after (validator a)
  | _ => o
  end.

(** [name: str = Field(..., min_length=2, max_length=100)]. *)
Definition field_name (v : option value) : outcome string :=
  match v with
  | None => Invalid missing
  | Some (PStr s) =>
      if str_len s <? 2 then Invalid (too_short 2)
      else if 100 <? str_len s then Invalid (too_long 100)
      else Valid s
  | Some _ => Invalid string_type
  end.

(** [phone: str | int = Field(..., min_length=5, max_length=20)], then [validate_phone]. *)
Definition field_phone (v : option value) : outcome str_or_int :=
  match v with
  | None => Invalid missing
  | Some (PStr s) =>
      then_validate
        (if str_len s <? 5 then Invalid (too_short 5)
         else if 20 <? str_len s then Invalid (too_long 20)
         else Valid (Text s))
        validate_phone
  | Some other => then_validate (phone_not_text X other) validate_phone
  end.

(** [email: EmailStr = Field(...)]. *)
Definition field_email (v : option value) : outcome string :=
  match v with
  | None => Invalid missing
  | Some (PStr s) =>
      match validate_email X s with
      | Some address => Valid address
      | None =>
          Invalid (other_error "value_error"
                     ("value is not a valid email address: " +:+ email_reason X s))
      end
  | Some _ => Invalid string_type
  end.

(** A required [str] field with a validator of the class. *)
Definition field_text (validator : string -> result string) (v : option value) : outcome string :=
  match v with
  | None => Invalid missing
  | Some (PStr s) => after (validator s)
  | Some _ => Invalid string_type
  end.

(** [purpose: Optional[str] = Field(default="Discovery Session", max_length=200)]. *)
Definition field_purpose (v : option value) : outcome (option string) :=
  match v with
  | None => Valid (Some "Discovery Session")
  | Some PNone => Valid None
  | Some (PStr s) => if 200 <? str_len s then Invalid (too_long 200) else Valid (Some s)
  | Some _ => Invalid string_type
  end.

(** [timezone: str = Field(default=DEFAULT_TIMEZONE)], then [validate_timezone];
    a default is taken as it is. *)
Definition field_timezone (v : option value) : outcome string :=
  match v with
  | None => Valid (Config.DEFAULT_TIMEZONE cfg)
  | Some (PStr s) => after (validate_timezone s)
  | Some _ => Invalid string_type
  end.

(** The bounds [ge=15, le=480] of [duration_minutes].  The annotation is a
    union, so pydantic applies them as comparisons to the value that the
    union has produced, whichever branch produced it: an integer is
    compared, a text cannot be compared with an integer and the comparison
    raises [TypeError]. *)
Definition constrained (o : outcome str_or_int) : outcome str_or_int :=
  match o with
  | Valid (Int z) =>
      if z <? 15 then Invalid (greater_than_equal 15)
      else if 480 <? z then Invalid (less_than_equal 480)
      else Valid (Int z)
  | Valid (Text s) =>
      Raises (TypeError ("Unable to apply constraint 'ge' to supplied value " +:+ s))
  | other => other
  end.

(** [duration_minutes: str | int = Field(default=30, ge=15, le=480)].  The
    union keeps an integer and a text as they are, and takes a float that
    stands for an integer of 64 bits as that integer; a default is taken as
    it is. *)
Definition field_duration_minutes (v : option value) : outcome str_or_int :=
  match v with
  | None => Valid (Int 30)
  | Some (PInt z) => constrained (Valid (Int z))
  | Some (PStr s) => constrained (Valid (Text s))
  | Some (PFloat f) =>
      match float_to_Z f with
      | Some z => if Z.abs z <? 2 ^ 63
                  then constrained (Valid (Int z))
                  else constrained (duration_not_int X (PFloat f))
      | None => constrained (duration_not_int X (PFloat f))
      end
  | Some other => constrained (duration_not_int X other)
  end.

(** ** The constructor *)

Definition error_of {A : Type} (field : string) (o : outcome A) : list (string * field_error) :=
  match o with
  | Invalid err => [(field, err)]
  | _ => []
  end.

Definition raised {A : Type} (o : outcome A) : option exn :=
  match o with
  | Raises e => Some e
  | _ => None
  end.

Definition first_raised (l : list (option exn)) : option exn :=
  match List.filter (fun o => match o with Some _ => true | None => false end) l with
  | o :: _ => o
  | [] => None
  end.

(** The call [AppointmentDetails(...)]: the fields are validated in the order of
    their declaration; an exception that is no validation error leaves at
    once, otherwise all the errors are raised together. *)
Definition new (kw : kwargs) : result AppointmentDetails :=
  let o_name := field_name (kw_name kw) in
  let o_phone := field_phone (kw_phone kw) in
  let o_email := field_email (kw_email kw) in
  let o_date := field_text validate_date (kw_date kw) in
  let o_time := field_text validate_time (kw_time kw) in
  let o_purpose := field_purpose (kw_purpose kw) in
  let o_timezone := field_timezone (kw_timezone kw) in
  let o_duration := field_duration_minutes (kw_duration_minutes kw) in
  match o_name, o_phone, o_email, o_date, o_time, o_purpose, o_timezone, o_duration with
  | Valid n, Valid p, Valid e, Valid d, Valid t, Valid pu, Valid tz, Valid du =>
      ok {| name := n; phone := p; email := e; date := d; time := t;
            purpose := pu; timezone := tz; duration_minutes := du |}
  | _, _, _, _, _, _, _, _ =>
      match first_raised [raised o_name; raised o_phone; raised o_email; raised o_date;
                          raised o_time; raised o_purpose; raised o_timezone;
                          raised o_duration] with
      | Some e => throw e
      | None =>
          throw (ValidationError "AppointmentDetails"
                   (error_of "name" o_name ++ error_of "phone" o_phone
                    ++ error_of "email" o_email ++ error_of "date" o_date
                    ++ error_of "time" o_time ++ error_of "purpose" o_purpose
                    ++ error_of "timezone" o_timezone
                    ++ error_of "duration_minutes" o_duration))
      end
  end.

End Validation.

(** ** Assignment to a field

    [self.<field> = v] for a value of the field's annotated type. *)
Inductive assignment : Type :=
| set_name (v : string)
| set_phone (v : str_or_int)
| set_email (v : string)
| set_date (v : string)
| set_time (v : string)
| set_purpose (v : option string)
| set_timezone (v : string)
| set_duration_minutes (v : str_or_int).

Definition field_of (a : assignment) : string :=
  match a with
  | set_name _ => "name" | set_phone _ => "phone" | set_email _ => "email"
  | set_date _ => "date" | set_time _ => "time" | set_purpose _ => "purpose"
  | set_timezone _ => "timezone" | set_duration_minutes _ => "duration_minutes"
  end.

Definition store (a : assignment) (self : AppointmentDetails) : AppointmentDetails :=
  match a with
  | set_name v => {| name := v; phone := phone self; email := email self; date := date self;
                     time := time self; purpose := purpose self; timezone := timezone self;
                     duration_minutes := duration_minutes self |}
  | set_phone v => {| name := name self; phone := v; email := email self; date := date self;
                      time := time self; purpose := purpose self; timezone := timezone self;
                      duration_minutes := duration_minutes self |}
  | set_email v => {| name := name self; phone := phone self; email := v; date := date self;
                      time := time self; purpose := purpose self; timezone := timezone self;
                      duration_minutes := duration_minutes self |}
  | set_date v => {| name := name self; phone := phone self; email := email self; date := v;
                     time := time self; purpose := purpose self; timezone := timezone self;
                     duration_minutes := duration_minutes self |}
  | set_time v => {| name := name self; phone := phone self; email := email self;
                     date := date self; time := v; purpose := purpose self;
                     timezone := timezone self; duration_minutes := duration_minutes self |}
  | set_purpose v => {| name := name self; phone := phone self; email := email self;
                        date := date self; time := time self; purpose := v;
                        timezone := timezone self; duration_minutes := duration_minutes self |}
  | set_timezone v => {| name := name self; phone := phone self; email := email self;
                         date := date self; time := time self; purpose := purpose self;
                         timezone := v; duration_minutes := duration_minutes self |}
  | set_duration_minutes v =>
      {| name := name self; phone := phone self; email := email self; date := date self;
         time := time self; purpose := purpose self; timezone := timezone self;
         duration_minutes := v |}
  end.

(** [self.<field>], as a Python value. *)
Definition to_value (v : str_or_int) : value :=
  match v with
  | Text s => PStr s
  | Int z => PInt z
  end.

Definition getattr (self : AppointmentDetails) (field : string) : result value :=
  if String.eqb field "name" then ok (PStr (name self))
  else if String.eqb field "phone" then ok (to_value (phone self))
  else if String.eqb field "email" then ok (PStr (email self))
  else if String.eqb field "date" then ok (PStr (date self))
  else if String.eqb field "time" then ok (PStr (time self))
  else if String.eqb field "purpose" then ok (of_option (purpose self))
  else if String.eqb field "timezone" then ok (PStr (timezone self))
  else if String.eqb field "duration_minutes" then ok (to_value (duration_minutes self))
  else throw (AttributeError ("'AppointmentDetails' object has no attribute '"
                              +:+ field +:+ "'")).

(** The value an assignment stores. *)
Definition assigned (a : assignment) : value :=
  match a with
  | set_name v | set_email v | set_date v | set_time v | set_timezone v => PStr v
  | set_phone v | set_duration_minutes v => to_value v
  | set_purpose v => of_option v
  end.

(** [BaseModel.__setattr__] on a declared field: refused on a frozen model,
    stored as it is otherwise (the class does not ask for
    [validate_assignment], so the validators do not run again). *)
Definition setattr (config : ConfigDict) (self : AppointmentDetails) (a : assignment)
  : result AppointmentDetails :=
  if frozen config
  then throw (ValidationError "AppointmentDetails" [(field_of a, frozen_instance)])
  else ok (store a self).

End Models.

(* ===================================================================== *)
(** * server/app/main.py                                                  *)
(* ===================================================================== *)

Module Main.
Import Lib.

(** An entry of [booked_slots]. *)
Module BookedSlot.
Record t : Type := {
  event_id : value;
  name : string;
  email : string;
  phone : str_or_int;
  date : string;
  time : string;
  purpose : option string;
  event_link : value;
  created_at : string;
}.
End BookedSlot.

(** The requests the service sends out of its own code, in the order it
    sends them: a call of the [AppointmentDetails] constructor and a call of
    the calendar's [events().insert(...).execute()]. *)
Inductive call : Type :=
| AppointmentDetails_call (kw : Models.kwargs)
| events_insert_call (body : value).

(** The two module-level stores, and the calls made so far. *)
Record state : Type := {
  token_store : gmap string value;
  booked_slots : list BookedSlot.t;
  trace : list call;
}.

(** The local variable of the handler that its [except] clauses read;
    [None] while the name is not bound. *)
Record frame : Type := { tool_call_id : option value }.

Section Service.
Variable X : Externals.
Variable cfg : Config.settings.

Definition record_call (c : call) : M state unit :=
  fun st => (ok tt, {| token_store := token_store st;
                       booked_slots := booked_slots st;
                       trace := trace st ++ [c] |}).

Definition append_slot (slot : BookedSlot.t) : M state unit :=
  fun st => (ok tt, {| token_store := token_store st;
                       booked_slots := booked_slots st ++ [slot];
                       trace := trace st |}).

Definition get_calendar_service : M state value :=
  let* st := read in
  match token_store st !! "default" with
  | None =>
      raise (HTTPException 401 "Google Calendar not connected. Please authenticate first.")
  | Some token => lift (build_service X token) ;; ret token
  end.

Definition str_of_purpose (p : option string) : string :=
  match p with
  | Some s => s
  | None => "None"
  end.

Definition event_body (appt : Models.AppointmentDetails) (start_dt end_dt : datetime X) : value :=
  PDict
    [ ("summary", PStr ("Vikara Discovery Session — " +:+ Models.name appt));
      ("description",
        PStr ("Free Discovery Session with Vikara" +:+ Config.newline
              +:+ "vikara.ai | ask@vikara.ai | +1 510 309 6846" +:+ Config.newline
              +:+ Config.newline
              +:+ "Client:   " +:+ Models.name appt +:+ Config.newline
              +:+ "Phone:    " +:+ str_of (Models.phone appt) +:+ Config.newline
              +:+ "Email:    " +:+ Models.email appt +:+ Config.newline
              +:+ "Session:  " +:+ str_of_purpose (Models.purpose appt) +:+ Config.newline
              +:+ Config.newline
              +:+ "Offices: SF Bay Area · Bengaluru · Melbourne"));
      ("start", PDict [ ("dateTime", PStr (isoformat X start_dt));
                        ("timeZone", PStr (Models.timezone appt)) ]);
      ("end", PDict [ ("dateTime", PStr (isoformat X end_dt));
                      ("timeZone", PStr (Models.timezone appt)) ]);
      ("organizer", PDict [ ("email", of_option (Config.YOUR_EMAIL cfg));
                            ("displayName", PStr "Vikara Team");
                            ("self", PBool true) ]);
      ("attendees",
        PList [ PDict [ ("email", of_option (Config.YOUR_EMAIL cfg));
                        ("displayName", PStr "Vikara Team");
                        ("organizer", PBool true);
                        ("responseStatus", PStr "accepted") ];
                PDict [ ("email", PStr (Models.email appt));
                        ("displayName", PStr (Models.name appt));
                        ("responseStatus", PStr "needsAction") ] ]);
      ("reminders",
        PDict [ ("useDefault", PBool false);
                ("overrides",
                  PList [ PDict [ ("method", PStr "email"); ("minutes", PInt (24 * 60)) ];
                          PDict [ ("method", PStr "email"); ("minutes", PInt 60) ];
                          PDict [ ("method", PStr "popup"); ("minutes", PInt 30) ] ]) ]);
      ("guestsCanSeeOtherGuests", PBool false) ].

Definition permission_denied : value :=
  PDict [ ("success", PBool false);
          ("error", PStr "Calendar permission denied. Please re-authenticate.") ].

Definition slot_conflict : value :=
  PDict [ ("success", PBool false); ("error", PStr "Time slot conflict detected.") ].

(** The [except HttpError as e] clause of [create_google_calendar_event];
    [text] is [str(e)]. *)
Definition on_HttpError (text : string) : M state value :=
  if str_contains "403" text then ret permission_denied
  else if str_contains "409" text then ret slot_conflict
  else raise (HTTPException 500 ("Calendar error: " +:+ text)).

(** Lines 79-163: the [try] block of [create_google_calendar_event]. *)
Definition insert_event (appt : Models.AppointmentDetails) : M state value :=
  let* service := get_calendar_service in
  let dt_str := Models.date appt +:+ "T" +:+ Models.time appt +:+ ":00" in
  let* start_dt := lift (localize X (Models.timezone appt) dt_str) in
  let* end_dt := lift (add_minutes X start_dt (Models.duration_minutes appt)) in
  let body := event_body appt start_dt end_dt in
  record_call (events_insert_call body) ;;
  let* created := lift (events_insert X service body) in
  let* id := lift (get created "id" PNone) in
  let* link := lift (get created "htmlLink" PNone) in
  append_slot {| BookedSlot.event_id := id;
                 BookedSlot.name := Models.name appt;
                 BookedSlot.email := Models.email appt;
                 BookedSlot.phone := Models.phone appt;
                 BookedSlot.date := Models.date appt;
                 BookedSlot.time := Models.time appt;
                 BookedSlot.purpose := Models.purpose appt;
                 BookedSlot.event_link := link;
                 BookedSlot.created_at := utcnow_isoformat X |} ;;
  ret (PDict [ ("success", PBool true);
               ("event_id", id);
               ("event_link", link);
               ("start", PStr (isoformat X start_dt));
               ("end", PStr (isoformat X end_dt)) ]).

Definition create_google_calendar_event (appt : Models.AppointmentDetails) : M state value :=
  try_except (insert_event appt)
    (fun e => match e with
              | HttpError text => on_HttpError text
              | _ => raise e
              end).

(** ** The tool endpoint *)

Definition read_tool_call_id : M frame value :=
  fun fr => match tool_call_id fr with
            | Some v => (ok v, fr)
            | None => (throw (UnboundLocalError "tool_call_id"), fr)
            end.

Definition assign_tool_call_id (v : value) : M frame unit :=
  write {| tool_call_id := Some v |}.

(** [not current and test], where [test] is evaluated only when [current] is falsy. *)
Definition not_and (current : value) (test : result bool) : result bool :=
  if truthy current then ok false else test.

(** The envelope the voice platform expects. *)
Definition envelope (id message : value) : value :=
  PDict [ ("results", PList [ PDict [ ("toolCallId", id); ("result", message) ] ]) ].

(** Lines 352-360: the assignments to [tool_call_id]. *)
Definition extract_tool_call_id (body : value) : M frame unit :=
  assign_tool_call_id PNone ;;
  let* has_message := lift (py_in "message" body) in
  (if has_message
   then let* message := lift (getitem body "message") in
        let* tool_call_list := lift (get message "toolCallList" (PList [])) in
        if truthy tool_call_list
        then let* first := lift (getitem0 tool_call_list) in
             let* id := lift (get first "id" PNone) in
             assign_tool_call_id id
        else ret tt
   else ret tt) ;;
  let* current := read_tool_call_id in
  let* has_toolCall := lift (not_and current (py_in "toolCall" body)) in
  (if has_toolCall
   then let* toolCall := lift (getitem body "toolCall") in
        let* id := lift (get toolCall "id" PNone) in
        assign_tool_call_id id
   else ret tt) ;;
  let* current := read_tool_call_id in
  let* has_toolCallList := lift (not_and current (py_in "toolCallList" body)) in
  if has_toolCallList
  then let* toolCallList := lift (getitem body "toolCallList") in
       let* first := lift (getitem0 toolCallList) in
       let* id := lift (get first "id" PNone) in
       assign_tool_call_id id
  else ret tt.

(** Lines 381-393: the assignments to [args]. *)
Definition extract_args (body : value) : result value :=
  let args := PNone in
  let? has_message := py_in "message" body in
  let? args :=
    if has_message
    then let? message := getitem body "message" in
         let? tool_call_list := get message "toolCallList" (PList []) in
         if truthy tool_call_list
         then let? first := getitem0 tool_call_list in
              let? function := get first "function" (PDict []) in
              get function "arguments" PNone
         else ok args
    else ok args in
  let? has_toolCall := not_and args (py_in "toolCall" body) in
  let? args :=
    if has_toolCall
    then let? toolCall := getitem body "toolCall" in
         let? function := get toolCall "function" (PDict []) in
         get function "arguments" PNone
    else ok args in
  let? has_toolCallList := not_and args (py_in "toolCallList" body) in
  let? args :=
    if has_toolCallList
    then let? toolCallList := getitem body "toolCallList" in
         let? first := getitem0 toolCallList in
         let? function := get first "function" (PDict []) in
         get function "arguments" PNone
    else ok args in
  let? has_function := not_and args (py_in "function" body) in
  let? args :=
    if has_function
    then let? function := getitem body "function" in
         get function "arguments" PNone
    else ok args in
  let? whole_body :=
    not_and args (let? has_name := py_in "name" body in
                  if has_name then py_in "email" body else ok false) in
  ok (if whole_body then body else args).

Definition vapi_response (message : value) : M (frame * state) value :=
  let* id := on_fst read_tool_call_id in
  ret (envelope id message).

Definition required_fields : list string := ["name"; "phone"; "email"; "date"; "time"].

(** [[f for f in fields if not args.get(f)]]. *)
Fixpoint missing_fields (args : value) (fields : list string) : result (list string) :=
  match fields with
  | [] => ok []
  | f :: rest =>
      let? v := get args f PNone in
      let? others := missing_fields args rest in
      ok (if truthy v then others else f :: others)
  end.

(** The keyword arguments of the call at lines 415-424. *)
Definition appointment_kwargs (args : value) : result Models.kwargs :=
  let? name := get args "name" PNone in
  let? phone := get args "phone" PNone in
  let? email := get args "email" PNone in
  let? date := get args "date" PNone in
  let? time := get args "time" PNone in
  let? purpose := get args "purpose" (PStr "Discovery Session") in
  let? timezone := get args "timezone" (PStr (Config.DEFAULT_TIMEZONE cfg)) in
  let? duration_minutes := get args "duration_minutes" (PInt 60) in
  ok {| Models.kw_name := Some name;
        Models.kw_phone := Some phone;
        Models.kw_email := Some email;
        Models.kw_date := Some date;
        Models.kw_time := Some time;
        Models.kw_purpose := Some purpose;
        Models.kw_timezone := Some timezone;
        Models.kw_duration_minutes := Some duration_minutes |}.

Definition booked_message (email : string) : string :=
  "Your session is booked! A calendar invite has been sent to " +:+ email
  +:+ ". We look forward to speaking with you!".

Definition missing_message (missing : list string) : string :=
  "I'm missing " +:+ join ", " missing +:+ ". Could you provide those?".

(** Lines 409-434: from the check of the required fields to the end of the
    [try] block. *)
Definition book (args : value) : M (frame * state) value :=
  let* missing := lift (missing_fields args required_fields) in
  match missing with
  | _ :: _ => vapi_response (PStr (missing_message missing))
  | [] =>
      let* kw := lift (appointment_kwargs args) in
      on_snd (record_call (AppointmentDetails_call kw)) ;;
      let* appt := lift (Models.new X cfg kw) in
      let* result := on_snd (create_google_calendar_event appt) in
      let* success := lift (get result "success" PNone) in
      if negb (truthy success)
      then let* error :=
             lift (get result "error"
                     (PStr "Failed to create calendar event. Please try again.")) in
           vapi_response error
      else vapi_response (PStr (booked_message (Models.email appt)))
  end.

(** Lines 349-434: the body of the [try] block. *)
Definition try_body (raw_body : string) : M (frame * state) value :=
  let* body := lift (json_loads X raw_body) in
  on_fst (extract_tool_call_id body) ;;
  let* args := lift (extract_args body) in
  if negb (truthy args)
  then vapi_response (PStr "I had trouble reading the booking details. Could you try again?")
  else
    match args with
    | PStr s =>
        match json_loads_str X s with
        | inl (JSONDecodeError _) =>
            vapi_response (PStr "Invalid data format. Please try again.")
        | inl e => raise e
        | inr parsed => book parsed
        end
    | _ => book args
    end.

(** The message of the [except ValueError] clause. *)
Definition correction (e : exn) : string :=
  let error_msg := str_lower (exn_str X e) in
  if str_contains "email" error_msg
  then "Invalid email address. Could you double-check your email?"
  else if str_contains "phone" error_msg
  then "Invalid phone number. Could you provide a valid phone number?"
  else if str_contains "date" error_msg
  then "Invalid date. Please provide a future date."
  else if str_contains "time" error_msg
  then "Invalid time format. Please provide a time like 2pm or 14:00."
  else if str_contains "timezone" error_msg
  then "Invalid timezone. Defaulting to Pacific Time."
  else "Invalid input: " +:+ exn_str X e.

(** Lines 436-460: the three [except] clauses, tried in order. *)
Definition on_exception (e : exn) : M (frame * state) value :=
  if is_ValueError e
  then let msg := correction e in
       let* id := on_fst read_tool_call_id in
       ret (envelope id (PStr msg))
  else match e with
       | HTTPException _ detail =>
           let* id := on_fst read_tool_call_id in
           ret (envelope id (PStr detail))
       | _ =>
           let* id := on_fst read_tool_call_id in
           ret (envelope id (PStr "Something went wrong on our end. I'll try once more."))
       end.

(** The route [POST /vapi/tool/book-appointment] on the bytes of a request.
    The first two lines decode the body for the log, outside the [try]. *)
Definition book_appointment_tool (raw_body : string) : M state value :=
  fun st =>
    if negb (utf8_decodes X raw_body)
    then (throw (UnicodeDecodeError "'utf-8' codec can't decode"), st)
    else
      let '(r, (_, st')) :=
        try_except (try_body raw_body) on_exception ({| tool_call_id := None |}, st) in
      (r, st').

End Service.

(** What the framework answers: 200 with the returned value when it can be
    serialised (the response class encodes with [allow_nan=False] and as
    UTF-8, so that a float without a finite value raises [ValueError], a
    surrogate raises [UnicodeEncodeError], and the answer is 500), the
    status of a raised [HTTPException], 500 for any other exception. *)
Definition status_code (r : result value) : Z :=
  match r with
  | inr content => if json_compliant content then 200 else 500
  | inl (HTTPException code _) => code
  | inl _ => 500
  end.

End Main.

(* ===================================================================== *)
(** * One choice of the library functions                                 *)
(* ===================================================================== *)

(** Simple instances of the fields of [Externals], exact on the plain ASCII
    inputs of the examples below, so that the service can be run on them. *)
Module Sample.
Import Lib.

Definition digit (a : ascii) : option Z :=
  let n := Z.of_nat (nat_of_ascii a) in
  if (48 <=? n) && (n <=? 57) then Some (n - 48) else None.

Fixpoint number (s : string) (acc : Z) : option Z :=
  match s with
  | EmptyString => Some acc
  | String a t => match digit a with
                  | Some d => number t (10 * acc + d)
                  | None => None
                  end
  end.

Definition is_leap (y : Z) : bool :=
  ((y mod 4 =? 0) && negb (y mod 100 =? 0)) || (y mod 400 =? 0).

Definition days_in_month (y m : Z) : Z :=
  if m =? 2 then (if is_leap y then 29 else 28)
  else if (m =? 4) || (m =? 6) || (m =? 9) || (m =? 11) then 30
  else 31.

(** The pieces of [s] between the occurrences of [sep]. *)
Fixpoint split_on (sep : ascii) (s : string) : list string :=
  match s with
  | EmptyString => [EmptyString]
  | String a t =>
      if Ascii.eqb a sep then EmptyString :: split_on sep t
      else match split_on sep t with
           | piece :: rest => String a piece :: rest
           | [] => [String a EmptyString]
           end
  end.

(** A number written with at least [lo] and at most [hi] digits. *)
Definition digits (lo hi : nat) (s : string) : option Z :=
  if (lo <=? String.length s)%nat && (String.length s <=? hi)%nat then number s 0 else None.

(** [%Y-%m-%d]: a year of four digits, a month and a day of one or two
    digits (the day may also be a space and a digit), and a day that the
    month has. *)
Definition strptime_date (s : string) : option calendar_date :=
  match split_on "-" s with
  | [ys; ms; ds] =>
      match digits 4 4 ys, digits 1 2 ms,
            match ds with
            | String " " t => digits 1 1 t
            | _ => digits 1 2 ds
            end with
      | Some y, Some m, Some d =>
          if (1 <=? y) && (1 <=? m) && (m <=? 12) && (1 <=? d) && (d <=? days_in_month y m)
          then Some {| year := y; month := m; day := d |}
          else None
      | _, _, _ => None
      end
  | _ => None
  end.

(** [%H:%M]: an hour and a minute of one or two digits. *)
Definition strptime_time (s : string) : bool :=
  match split_on ":" s with
  | [hs; ms] =>
      match digits 1 2 hs, digits 1 2 ms with
      | Some h, Some m => (h <? 24) && (m <? 60)
      | _, _ => false
      end
  | _ => false
  end.

Definition phone_char (a : ascii) : bool :=
  match digit a with
  | Some _ => true
  | None =>
      let n := nat_of_ascii a in
      ((9 <=? n)%nat && (n <=? 13)%nat) || (n =? 32)%nat      (* white space *)
      || (n =? 45)%nat || (n =? 43)%nat || (n =? 40)%nat || (n =? 41)%nat
  end.

Fixpoint all_chars (p : ascii -> bool) (s : string) : bool :=
  match s with
  | EmptyString => true
  | String a t => p a && all_chars p t
  end.

Definition phone_pattern_matches (s : string) : bool :=
  all_chars phone_char s && (10 <=? String.length s)%nat && (String.length s <=? 20)%nat.

Definition is_ascii (a : ascii) : bool := (nat_of_ascii a <? 128)%nat.

(** An address is a non-empty local part, [@], and a domain with a dot. *)
Definition validate_email (s : string) : option string :=
  match String.index 0 "@" s with
  | Some (S n) =>
      let domain := String.substring (S (S n)) (String.length s) s in
      if str_contains "." domain && negb (str_contains "@" domain) then Some s else None
  | _ => None
  end.

Definition email_reason (s : string) : string :=
  if str_contains "@" s
  then "The part after the @-sign is not valid. It should have a period."
  else "An email address must have an @-sign.".

Definition zones : list string :=
  ["America/Los_Angeles"; "America/New_York"; "Europe/London"; "Asia/Kolkata"; "UTC"].

Definition error_type (e : field_error) : string :=
  match e with
  | missing => "Field required"
  | string_type => "Input should be a valid string"
  | too_short n => "too short, at least " +:+ pretty n
  | too_long n => "too long, at most " +:+ pretty n
  | greater_than_equal n => "Input should be greater than or equal to " +:+ pretty n
  | less_than_equal n => "Input should be less than or equal to " +:+ pretty n
  | value_error m => "Value error, " +:+ m
  | frozen_instance => "Instance is frozen"
  | other_error _ m => m
  end.

Definition validation_error_str (model : string) (errors : list (string * field_error)) : string :=
  join Config.newline
    (("validation errors for " +:+ model)
     :: map (fun fe => fst fe +:+ Config.newline +:+ "  " +:+ error_type (snd fe)) errors).

(** Replaces each single quote by a double quote, to write JSON text. *)
Fixpoint dq (s : string) : string :=
  match s with
  | EmptyString => EmptyString
  | String a t => String (if Ascii.eqb a "'" then ascii_of_nat 34 else a) (dq t)
  end.

Definition john_items : list (string * value) :=
  [ ("name", PStr "John Doe");
    ("phone", PStr "+1 (555) 123-4567");
    ("email", PStr "john@example.com");
    ("date", PStr "2026-03-15");
    ("time", PStr "14:00") ].

Definition john_arguments : value := PDict john_items.

Definition john_request : string :=
  dq "{'message': {'toolCallList': [{'id': 'call_1', 'function': {'name': 'book_appointment', 'arguments': {'name': 'John Doe', 'phone': '+1 (555) 123-4567', 'email': 'john@example.com', 'date': '2026-03-15', 'time': '14:00'}}}]}}".

Definition john_body : value :=
  PDict [ ("message",
           PDict [ ("toolCallList",
                    PList [ PDict [ ("id", PStr "call_1");
                                    ("function",
                                     PDict [ ("name", PStr "book_appointment");
                                             ("arguments", john_arguments) ]) ] ]) ]) ].

Definition no_phone_request : string :=
  dq "{'toolCall': {'id': 'call_2', 'function': {'name': 'book_appointment', 'arguments': {'name': 'John Doe', 'email': 'john@example.com', 'date': '2026-03-15', 'time': ''}}}}".

Definition no_phone_body : value :=
  PDict [ ("toolCall",
           PDict [ ("id", PStr "call_2");
                   ("function",
                    PDict [ ("name", PStr "book_appointment");
                            ("arguments",
                             PDict [ ("name", PStr "John Doe");
                                     ("email", PStr "john@example.com");
                                     ("date", PStr "2026-03-15");
                                     ("time", PStr "") ]) ]) ]) ].

(** A body that has arguments in two places. *)
Definition two_places_items : list (string * value) :=
        [ ("toolCall",
           PDict [ ("id", PStr "call_b");
                   ("function", PDict [ ("arguments", PDict [ ("name", PStr "B") ]) ]) ]);
          ("message",
           PDict [ ("toolCallList",
                    PList [ PDict [ ("id", PStr "call_a");
                                    ("function",
                                     PDict [ ("arguments",
                                              PDict [ ("name", PStr "A") ]) ]) ] ]) ]) ].

Definition two_places_body : value := PDict two_places_items.

Definition webhook_request : string := dq "{'type': 'status-update', 'toolCall': {'id': 'call_3'}}".

Definition webhook_body : value :=
  PDict [ ("type", PStr "status-update"); ("toolCall", PDict [ ("id", PStr "call_3") ]) ].

(** [json.loads] on the request texts above; any other text is refused with
    the message Python gives for an empty document. *)
Definition json_loads (s : string) : result value :=
  match assoc s [ (john_request, john_body);
                  (no_phone_request, no_phone_body);
                  (webhook_request, webhook_body) ] with
  | Some v => ok v
  | None => throw (JSONDecodeError "Expecting value: line 1 column 1 (char 0)")
  end.

Definition created_event : value :=
  PDict [ ("id", PStr "evt_1");
          ("htmlLink", PStr "https://www.google.com/calendar/event?eid=evt_1") ].

(** The externals, given the answer of the calendar provider to an insert. *)
Definition externals (insert_answer : result value) : Externals := {|
  Lib.utf8_decodes := all_chars is_ascii;
  Lib.json_loads := json_loads;
  Lib.json_loads_str := json_loads;
  Lib.phone_pattern_matches := phone_pattern_matches;
  Lib.strptime_date := strptime_date;
  Lib.strptime_time := strptime_time;
  Lib.pytz_timezone := fun zone => existsb (String.eqb zone) zones;
  Lib.today := {| year := 2026; month := 3; day := 1 |};
  Lib.validate_email := validate_email;
  Lib.email_reason := email_reason;
  Lib.phone_not_text := fun _ => Raises (TypeError "Unable to apply constraint 'min_length'");
  Lib.duration_not_int := fun v =>
    match v with
    | PBool b => Valid (Int (if b then 1 else 0))
    | PFloat _ => Invalid (other_error "int_from_float"
                             "Input should be a valid integer, got a number with a fractional part")
    | _ => Invalid string_type
    end;
  Lib.validation_error_str := validation_error_str;
  Lib.build_service := fun _ => ok tt;
  Lib.datetime := string;
  Lib.localize := fun zone text => ok (text +:+ "[" +:+ zone +:+ "]");
  Lib.add_minutes := fun dt m =>
    match m with
    | Int z => ok (dt +:+ "+PT" +:+ pretty z +:+ "M")
    | Text _ => throw (TypeError "unsupported type for timedelta minutes component: str")
    end;
  Lib.isoformat := fun dt => dt;
  Lib.events_insert := fun _ _ => insert_answer;
  Lib.utcnow_isoformat := "2026-03-01T12:00:00";
|}.

(** The calendar creates the event. *)
Definition X : Externals := externals (ok created_event).

Definition conflict_text : string :=
  "<HttpError 409 when requesting https://www.googleapis.com/calendar/v3/calendars/primary/events?sendUpdates=all&alt=json returned 'Conflict'>".

Definition X_conflict : Externals := externals (throw (HttpError conflict_text)).

Definition quota_text : string :=
  "<HttpError 429 when requesting https://www.googleapis.com/calendar/v3/calendars/primary/events?sendUpdates=all&alt=json returned 'Rate Limit Exceeded'>".

Definition X_quota : Externals := externals (throw (HttpError quota_text)).

Definition settings : Config.settings := Config.load ∅.

Definition production : Config.settings :=
  Config.load (<["ENVIRONMENT" := "production"]> (<["VAPI_API_KEY" := "key"]> ∅)).

Definition token : value :=
  PDict [ ("token", PStr "ya29.token"); ("refresh_token", PNone);
          ("token_uri", PStr "https://oauth2.googleapis.com/token");
          ("client_id", PStr "client"); ("client_secret", PStr "secret");
          ("scopes", PList [ PStr "https://www.googleapis.com/auth/calendar" ]) ].

Definition disconnected : Main.state :=
  {| Main.token_store := ∅; Main.booked_slots := []; Main.trace := [] |}.

Definition connected : Main.state :=
  {| Main.token_store := {[ "default" := token ]}; Main.booked_slots := []; Main.trace := [] |}.

Definition john_kwargs : Models.kwargs :=
  {| Models.kw_name := Some (PStr "John Doe");
     Models.kw_phone := Some (PStr "+1 (555) 123-4567");
     Models.kw_email := Some (PStr "john@example.com");
     Models.kw_date := Some (PStr "2026-03-15");
     Models.kw_time := Some (PStr "14:00");
     Models.kw_purpose := Some (PStr "Discovery Session");
     Models.kw_timezone := Some (PStr "America/Los_Angeles");
     Models.kw_duration_minutes := Some (PInt 60) |}.



Definition john : Models.AppointmentDetails :=
  {| Models.name := "John Doe"; Models.phone := Text "+1 (555) 123-4567";
     Models.email := "john@example.com"; Models.date := "2026-03-15";
     Models.time := "14:00"; Models.purpose := Some "Discovery Session";
     Models.timezone := "America/Los_Angeles"; Models.duration_minutes := Int 60 |}.

End Sample.

(* ===================================================================== *)
(** * The notions the theorems are stated with                            *)
(* ===================================================================== *)

Module Notions.
Import Lib Main.

(** ** Text *)

(** [x] occurs in [s] as a run of consecutive characters. *)
Definition occurs (x s : string) : Prop := exists pre post, s = pre +:+ x +:+ post.

(** ** Configuration

    The words of the specification: the required settings that are missing. *)

(** The names of the required settings that are unset, in the order the
    module lists them. *)
Definition spec_missing_settings (c : Config.settings) : list string :=
  map fst (List.filter (fun p => Config.unset (snd p)) (Config.required_vars c)).


(** ** Invariants of computations

    [keeps I V c]: started in a state where [I] holds, [c] ends (by
    returning or by raising) in a state where [I] holds, and a value it
    returns satisfies [V]. *)
Definition keeps {St A : Type} (I : St -> Prop) (V : A -> Prop) (c : M St A) : Prop :=
  forall s r s', I s -> c s = (r, s') -> I s' /\ forall a, r = ok a -> V a.

Definition any {A : Type} : A -> Prop := fun _ => True.

(** ** The answers of the tool endpoint, in the words of the specification *)

(** The envelope of every answer: [{ results: [ { toolCallId, result } ] }]. *)
Definition spec_envelope (id message : value) : value :=
  PDict [ ("results", PList [ PDict [ ("toolCallId", id); ("result", message) ] ]) ].

(** The five fields that must be present and non-empty (section 4.3, step 6). *)
Definition spec_required_fields : list string := ["name"; "phone"; "email"; "date"; "time"].

(** The keywords by which a validation failure is classified (section 4.3,
    step 8), each with its correction prompt, in the order in which they are
    looked for. *)
Definition spec_prompts : list (string * string) :=
  [ ("email", "Invalid email address. Could you double-check your email?");
    ("phone", "Invalid phone number. Could you provide a valid phone number?");
    ("date", "Invalid date. Please provide a future date.");
    ("time", "Invalid time format. Please provide a time like 2pm or 14:00.");
    ("timezone", "Invalid timezone. Defaulting to Pacific Time.") ].

(** The prompt of the first keyword that occurs in a text. *)
Fixpoint spec_first_keyword (text : string) (prompts : list (string * string))
  : option string :=
  match prompts with
  | [] => None
  | (keyword, prompt) :: rest =>
      if str_contains keyword text then Some prompt else spec_first_keyword text rest
  end.

(** The correction for a validation failure with the message [text]. *)
Definition spec_correction (text : string) : string :=
  match spec_first_keyword (str_lower text) spec_prompts with
  | Some prompt => prompt
  | None => "Invalid input: " +:+ text
  end.

(** The name [tool_call_id] is bound. *)
Definition bound (fr : frame) : Prop := exists v, tool_call_id fr = Some v.

Definition bound_in (s : frame * state) : Prop := bound (fst s).

Definition is_envelope (v : value) : Prop := exists id message, v = envelope id message.

(** ** The tool endpoint *)

Section Endpoint.
Variable X : Externals.

(** What the handler says for an exception it catches. *)
Definition spoken (e : exn) : string :=
  if is_ValueError e then correction X e
  else match e with
       | HTTPException _ detail => detail
       | _ => "Something went wrong on our end. I'll try once more."
       end.

(** The identifier search runs to its end and leaves [id] in [tool_call_id]. *)
Definition identifier_found (body id : value) : Prop :=
  extract_tool_call_id body {| tool_call_id := None |}
  = (ok tt, {| tool_call_id := Some id |}).

(** The request carries the argument object [args]: as a structured object,
    or as JSON text that [json.loads] turns into one. *)
Definition arguments_found (body : value) (args : list (string * value)) : Prop :=
  exists extracted,
    extract_args body = ok extracted
    /\ truthy extracted = true
    /\ (extracted = PDict args
        \/ exists s, extracted = PStr s /\ json_loads_str X s = ok (PDict args)).

(** A field of the argument object is absent or empty: the key is not
    there, or its value is [None], empty text, zero, [False] or an empty
    container. *)
Definition spec_absent_or_empty (args : list (string * value)) (field : string) : bool :=
  match assoc field args with
  | None => true
  | Some v => negb (truthy v)
  end.

(** The slot that a booking appends. *)
Definition slot_of (appt : Models.AppointmentDetails) (created_id created_link : value)
  : BookedSlot.t :=
  {| BookedSlot.event_id := created_id;
     BookedSlot.name := Models.name appt;
     BookedSlot.email := Models.email appt;
     BookedSlot.phone := Models.phone appt;
     BookedSlot.date := Models.date appt;
     BookedSlot.time := Models.time appt;
     BookedSlot.purpose := Models.purpose appt;
     BookedSlot.event_link := created_link;
     BookedSlot.created_at := utcnow_isoformat X |}.

End Endpoint.

(** ** The order in which the arguments are looked for

    The words of the specification (section 4.3, step 3), to compare
    [extract_args] with. *)

(** A place in the body: the value under a key of an object, or the first
    item of a list. *)
Inductive step : Type :=
| key (k : string)
| first_item.

(** The value at the end of a path, when every step of it exists. *)
Fixpoint locate (path : list step) (v : value) : option value :=
  match path with
  | [] => Some v
  | key k :: rest =>
      match v with
      | PDict items => match assoc k items with
                       | Some w => locate rest w
                       | None => None
                       end
      | _ => None
      end
  | first_item :: rest =>
      match v with
      | PList (w :: _) => locate rest w
      | _ => None
      end
  end.

(** The four places of the arguments, in the order of section 4.3 of the
    specification. *)
Definition spec_locations : list (list step) :=
  [ [key "message"; key "toolCallList"; first_item; key "function"; key "arguments"];
    [key "toolCall"; key "function"; key "arguments"];
    [key "toolCallList"; first_item; key "function"; key "arguments"];
    [key "function"; key "arguments"] ].

(** The last resort: the body itself, when it has the keys [name] and [email]. *)
Definition spec_flat (body : value) : option value :=
  match body with
  | PDict items =>
      match assoc "name" items, assoc "email" items with
      | Some _, Some _ => Some body
      | _, _ => None
      end
  | _ => None
  end.

Definition spec_candidates (body : value) : list (option value) :=
  map (fun path => locate path body) spec_locations ++ [spec_flat body].

(** The first candidate that is there and is not empty. *)
Fixpoint spec_first_non_empty (l : list (option value)) : option value :=
  match l with
  | [] => None
  | Some v :: rest => if truthy v then Some v else spec_first_non_empty rest
  | None :: rest => spec_first_non_empty rest
  end.

(** The value the code holds in [args] after it has looked at the places
    [seen]: the first non-empty one, or an empty value when there is none. *)
Definition settled (seen : list (option value)) (args : value) : Prop :=
  spec_first_non_empty seen = if truthy args then Some args else None.

Definition agrees (c : option value) (a : value) : Prop :=
  c = Some a \/ (c = None /\ a = PNone).

End Notions.

(* ===================================================================== *)
(** * What a tool call does to the stores                                 *)
(* ===================================================================== *)

Module Views.
Import Lib Main Notions.

(** The state [st] after further calls have been made. *)
Definition with_calls (st : state) (calls : list call) : state :=
  {| token_store := token_store st;
     booked_slots := booked_slots st;
     trace := trace st ++ calls |}.

(** The three places of the tool-call identifier, in the order in which
    lines 352-360 of main.py look at them. *)
Definition identifier_places : list (list step) :=
  [ [key "message"; key "toolCallList"; first_item; key "id"];
    [key "toolCall"; key "id"];
    [key "toolCallList"; first_item; key "id"] ].

Definition identifier_candidates (body : value) : list (option value) :=
  map (fun path => locate path body) identifier_places.

(** ** Bodies on which the two searches run to their end *)

(** [holder] is an object whose [function], when it has one, is an object. *)
Definition holds_function (holder : value) : bool :=
  match holder with
  | PDict items =>
      match assoc "function" items with
      | None | Some (PDict _) => true
      | Some _ => false
      end
  | _ => false
  end.

(** [l] is a list whose first item is such an object. *)
Definition first_holds_function (l : value) : bool :=
  match l with
  | PList (first :: _) => holds_function first
  | _ => false
  end.

(** Every place that the searches look at has the shape they expect:
    [message] is an object whose [toolCallList] is empty or a list that
    starts with an object, [toolCall] is an object, [toolCallList] is a list
    that starts with an object, [function] is an object, each when it is
    there. *)
Definition well_formed_envelope (items : list (string * value)) : bool :=
  match assoc "message" items with
  | None => true
  | Some (PDict message) =>
      match assoc "toolCallList" message with
      | None => true
      | Some l => negb (truthy l) || first_holds_function l
      end
  | Some _ => false
  end
  && match assoc "toolCall" items with
     | None => true
     | Some holder => holds_function holder
     end
  && match assoc "toolCallList" items with
     | None => true
     | Some l => first_holds_function l
     end
  && match assoc "function" items with
     | None | Some (PDict _) => true
     | Some _ => false
     end.

(** A cost that [format(cost, ".4f")] accepts: a float, a [bool], or an
    [int] that converts to a float (below 2^1024 - 2^970 in absolute
    value). *)
Definition spec_formats_as_number (cost : value) : bool :=
  match cost with
  | PBool _ | PFloat _ => true
  | PInt z => Z.abs z <? 2 ^ 1024 - 2 ^ 970
  | _ => false
  end.

Section Effects.
Variable X : Externals.
Variable cfg : Config.settings.

(** What a tool call that started in [st] and ended in [st'] with the
    result [r] has done: nothing; or it has called the constructor of
    [AppointmentDetails] and no more; or the constructor has accepted the
    arguments, a credential was stored, and the calendar has been asked to
    insert the event of that appointment, without a slot being appended; or
    the same and the slot of that appointment has been appended, and then
    the result is the confirmation. *)
Inductive tool_effect (st : state) (r : result value) (st' : state) : Prop :=
| untouched :
    st' = st -> tool_effect st r st'
| constructed (args : value) (kw : Models.kwargs) :
    appointment_kwargs cfg args = ok kw ->
    st' = with_calls st [AppointmentDetails_call kw] -> tool_effect st r st'
| requested (args : value) (kw : Models.kwargs) (appt : Models.AppointmentDetails)
    (token : value) (start_dt end_dt : datetime X) :
    appointment_kwargs cfg args = ok kw ->
    Models.new X cfg kw = ok appt ->
    token_store st !! "default" = Some token ->
    st' = with_calls st [AppointmentDetails_call kw;
                         events_insert_call (event_body X cfg appt start_dt end_dt)] ->
    tool_effect st r st'
| booked (args : value) (kw : Models.kwargs) (appt : Models.AppointmentDetails)
    (token : value) (start_dt end_dt : datetime X) (created_id link id : value) :
    appointment_kwargs cfg args = ok kw ->
    Models.new X cfg kw = ok appt ->
    token_store st !! "default" = Some token ->
    st' = {| token_store := token_store st;
             booked_slots := booked_slots st ++ [slot_of X appt created_id link];
             trace := trace st ++ [AppointmentDetails_call kw;
                                   events_insert_call
                                     (event_body X cfg appt start_dt end_dt)] |} ->
    r = ok (envelope id (PStr (booked_message (Models.email appt)))) ->
    tool_effect st r st'.

End Effects.

(** The constraints that the class [AppointmentDetails] puts on every field
    but the time zone and the duration, for a value of the class. *)
Definition validated (X : Externals) (appt : Models.AppointmentDetails) : Prop :=
  (2 <= str_len (Models.name appt) <= 100)%Z
  /\ phone_pattern_matches X (str_of (Models.phone appt)) = true
  /\ (exists s, validate_email X s = Some (Models.email appt))
  /\ (exists d, strptime_date X (Models.date appt) = Some d
                /\ date_ltb d (today X) = false)
  /\ strptime_time X (Models.time appt) = true
  /\ (forall p, Models.purpose appt = Some p -> (str_len p <= 200)%Z).

End Views.

(* ===================================================================== *)
(** * More requests                                                       *)
(* ===================================================================== *)

Module MoreSample.
Import Lib.

(** Arguments that are a text, and no JSON. *)
Definition text_request : string :=
  Sample.dq "{'toolCall': {'id': 'call_4', 'function': {'name': 'book_appointment', 'arguments': 'John Doe, tomorrow at two'}}}".

Definition text_body : value :=
  PDict [ ("toolCall",
           PDict [ ("id", PStr "call_4");
                   ("function",
                    PDict [ ("name", PStr "book_appointment");
                            ("arguments", PStr "John Doe, tomorrow at two") ]) ]) ].

(** The arguments of John Doe, as JSON text. *)
Definition john_text : string :=
  Sample.dq "{'name': 'John Doe', 'phone': '+1 (555) 123-4567', 'email': 'john@example.com', 'date': '2026-03-15', 'time': '14:00'}".

Definition john_text_request : string :=
  Sample.dq "{'toolCall': {'id': 'call_1', 'function': {'name': 'book_appointment', 'arguments': '{\'name\': \'John Doe\', \'phone\': \'+1 (555) 123-4567\', \'email\': \'john@example.com\', \'date\': \'2026-03-15\', \'time\': \'14:00\'}'}}}".

Definition john_text_body : value :=
  PDict [ ("toolCall",
           PDict [ ("id", PStr "call_1");
                   ("function",
                    PDict [ ("name", PStr "book_appointment");
                            ("arguments", PStr john_text) ]) ]) ].

(** An address without [@]. *)
Definition bad_email_items : list (string * value) :=
  [ ("name", PStr "John Doe");
    ("phone", PStr "+1 (555) 123-4567");
    ("email", PStr "john.example.com");
    ("date", PStr "2026-03-15");
    ("time", PStr "14:00") ].

Definition bad_email_request : string :=
  Sample.dq "{'toolCall': {'id': 'call_5', 'function': {'name': 'book_appointment', 'arguments': {'name': 'John Doe', 'phone': '+1 (555) 123-4567', 'email': 'john.example.com', 'date': '2026-03-15', 'time': '14:00'}}}}".

Definition bad_email_body : value :=
  PDict [ ("toolCall",
           PDict [ ("id", PStr "call_5");
                   ("function",
                    PDict [ ("name", PStr "book_appointment");
                            ("arguments", PDict bad_email_items) ]) ]) ].

Definition bad_email_kwargs : Models.kwargs :=
  {| Models.kw_name := Some (PStr "John Doe");
     Models.kw_phone := Some (PStr "+1 (555) 123-4567");
     Models.kw_email := Some (PStr "john.example.com");
     Models.kw_date := Some (PStr "2026-03-15");
     Models.kw_time := Some (PStr "14:00");
     Models.kw_purpose := Some (PStr "Discovery Session");
     Models.kw_timezone := Some (PStr "America/Los_Angeles");
     Models.kw_duration_minutes := Some (PInt 60) |}.

Definition bad_email_error : exn :=
  ValidationError "AppointmentDetails"
    [("email",
      other_error "value_error"
        "value is not a valid email address: An email address must have an @-sign.")].

(** A body with an empty list of tool calls, and the arguments under
    [function]. *)
Definition empty_list_request : string :=
  Sample.dq "{'toolCallList': [], 'function': {'name': 'book_appointment', 'arguments': {'name': 'John Doe', 'phone': '+1 (555) 123-4567', 'email': 'john@example.com', 'date': '2026-03-15', 'time': '14:00'}}}".

Definition empty_list_items : list (string * value) :=
  [ ("toolCallList", PList []);
    ("function",
     PDict [ ("name", PStr "book_appointment"); ("arguments", Sample.john_arguments) ]) ].

(** A body with an empty list of tool calls and nothing else. *)
Definition bare_list_request : string := Sample.dq "{'toolCallList': []}".

Definition bare_list_items : list (string * value) := [ ("toolCallList", PList []) ].

(** A tool call whose arguments are an empty object. *)
Definition empty_args_request : string :=
  Sample.dq "{'toolCall': {'id': 'call_6', 'function': {'name': 'book_appointment', 'arguments': {}}}}".

Definition empty_args_body : value :=
  PDict [ ("toolCall",
           PDict [ ("id", PStr "call_6");
                   ("function",
                    PDict [ ("name", PStr "book_appointment");
                            ("arguments", PDict []) ]) ]) ].

(** A tool call whose identifier is [Infinity], which [json.loads] reads as
    the float. *)
Definition infinite_id_request : string := Sample.dq "{'toolCall': {'id': Infinity}}".

Definition infinite_id_items : list (string * value) :=
  [ ("toolCall", PDict [ ("id", PFloat infinity) ]) ].

(** The report of a call that has ended, without a cost. *)
Definition report_request : string :=
  Sample.dq "{'message': {'type': 'end-of-call-report', 'durationSeconds': 93.5, 'cost': null}}".

Definition report_message : list (string * value) :=
  [ ("type", PStr "end-of-call-report");
    ("durationSeconds", PFloat 93.5%float);
    ("cost", PNone) ].

Definition report_items : list (string * value) := [ ("message", PDict report_message) ].

(** The report of a call that has ended, with its cost as a text. *)
Definition text_cost_request : string :=
  Sample.dq "{'message': {'type': 'end-of-call-report', 'durationSeconds': 93.5, 'cost': '0.05'}}".

Definition text_cost_message : list (string * value) :=
  [ ("type", PStr "end-of-call-report");
    ("durationSeconds", PFloat 93.5%float);
    ("cost", PStr "0.05") ].

Definition text_cost_items : list (string * value) :=
  [ ("message", PDict text_cost_message) ].

(** [json.loads] on the texts above and on those of [Sample]. *)
Definition json_loads (s : string) : result value :=
  match assoc s [ (text_request, text_body);
                  (john_text_request, john_text_body);
                  (john_text, Sample.john_arguments);
                  (bad_email_request, bad_email_body);
                  (report_request, PDict report_items);
                  (text_cost_request, PDict text_cost_items);
                  (empty_list_request, PDict empty_list_items);
                  (bare_list_request, PDict bare_list_items);
                  (empty_args_request, empty_args_body);
                  (infinite_id_request, PDict infinite_id_items) ] with
  | Some v => ok v
  | None => Sample.json_loads s
  end.

(** The externals [Y] with another [json.loads]. *)
Definition with_json (loads : string -> result value) (Y : Externals) : Externals := {|
  Lib.utf8_decodes := Lib.utf8_decodes Y;
  Lib.json_loads := loads;
  Lib.json_loads_str := loads;
  Lib.phone_pattern_matches := Lib.phone_pattern_matches Y;
  Lib.strptime_date := Lib.strptime_date Y;
  Lib.strptime_time := Lib.strptime_time Y;
  Lib.pytz_timezone := Lib.pytz_timezone Y;
  Lib.today := Lib.today Y;
  Lib.validate_email := Lib.validate_email Y;
  Lib.email_reason := Lib.email_reason Y;
  Lib.phone_not_text := Lib.phone_not_text Y;
  Lib.duration_not_int := Lib.duration_not_int Y;
  Lib.validation_error_str := Lib.validation_error_str Y;
  Lib.build_service := Lib.build_service Y;
  Lib.datetime := Lib.datetime Y;
  Lib.localize := Lib.localize Y;
  Lib.add_minutes := Lib.add_minutes Y;
  Lib.isoformat := Lib.isoformat Y;
  Lib.events_insert := Lib.events_insert Y;
  Lib.utcnow_isoformat := Lib.utcnow_isoformat Y;
|}.

Definition X : Externals := with_json json_loads Sample.X.

End MoreSample.

(* ===================================================================== *)
(** * server/app/main.py: the other routes                                *)
(* ===================================================================== *)

Module Routes.
Import Lib Main.

(** What [flow.credentials] holds after the exchange of the code. *)
Module Credentials.
Record t : Type := {
  token : value;
  refresh_token : value;
  token_uri : value;
  client_id : value;
  client_secret : value;
  (** [None], or the items of the sequence of scopes. *)
  scopes : option (list value);
}.
End Credentials.

(** What [get_google_flow] hands to [Flow.from_client_config], and the
    attribute it sets on the flow. *)
Record flow : Type := {
  client_config : value;
  flow_scopes : list string;
  redirect_uri : option string;
}.

Inductive method : Type := PATCH | POST.

(** A request that the service makes with [httpx]. *)
Module Request.
Record t : Type := {
  verb : method;
  url : string;
  headers : list (string * string);
  json : value;
  (** In seconds. *)
  timeout : Z;
}.
End Request.

(** What the routes read of an [httpx.Response]. *)
Module Response.
Record t : Type := {
  status_code : Z;
  text : string;
  (** [raise_for_status()] raises for this response. *)
  raises : bool;
  (** [response.json()]. *)
  json : result value;
}.
End Response.

(** The services that the other routes talk to.  Nothing is assumed about
    them. *)
Record Platform : Type := {
  (** [Flow.from_client_config(...)], [flow.fetch_token(code=code)] and
      [flow.credentials], for the configuration of a flow and a code. *)
  fetch_token : flow -> string -> result Credentials.t;
  (** The answer to a request of the HTTP client, given the requests made
      before it: a response, or the exception that the client raises. *)
  send : list Request.t -> Request.t -> result Response.t;
  (** The dictionary that [build_assistant_config()] returns. *)
  build_assistant_config : value;
}.

(** What a route hands to the framework. *)
Inductive response : Type :=
| JSONResponse (content : value)
| RedirectResponse (url : string).

(** [f"{v}"] for a setting. *)
Definition format_setting (v : option string) : string :=
  match v with
  | Some s => s
  | None => "None"
  end.

Definition GOOGLE_SCOPES : list string := ["https://www.googleapis.com/auth/calendar"].

(** [list(v)]. *)
Definition py_list (v : option (list value)) : result (list value) :=
  match v with
  | Some items => ok items
  | None => throw (TypeError "'NoneType' object is not iterable")
  end.

(** [float(z)] raises [OverflowError]: the nearest double of [z], ties to
    even, has no finite value. *)
Definition int_overflows_float (z : Z) : bool := (2 ^ 1024 - 2 ^ 970 <=? Z.abs z)%Z.

(** [format(v, ".4f")], for its exceptions: an [int] or a [bool] is formatted
    as the [float] it converts to. *)
Definition format_4f (v : value) : result unit :=
  match v with
  | PNone => throw (TypeError "unsupported format string passed to NoneType.__format__")
  | PBool _ => ok tt
  | PInt z => if int_overflows_float z
              then throw (OtherError "OverflowError" "int too large to convert to float")
              else ok tt
  | PFloat _ => ok tt
  | PStr _ => throw (ValueError "Unknown format code 'f' for object of type 'str'")
  | PList _ => throw (TypeError "unsupported format string passed to list.__format__")
  | PDict _ => throw (TypeError "unsupported format string passed to dict.__format__")
  end.

(** An entry of [booked_slots], as the dictionary that line 145 appends. *)
Definition slot_value (slot : BookedSlot.t) : value :=
  PDict [ ("event_id", BookedSlot.event_id slot);
          ("name", PStr (BookedSlot.name slot));
          ("email", PStr (BookedSlot.email slot));
          ("phone", Models.to_value (BookedSlot.phone slot));
          ("date", PStr (BookedSlot.date slot));
          ("time", PStr (BookedSlot.time slot));
          ("purpose", of_option (BookedSlot.purpose slot));
          ("event_link", BookedSlot.event_link slot);
          ("created_at", PStr (BookedSlot.created_at slot)) ].

(** ** Computations that make requests

    Inside the [try] blocks of the call routes an exception is an
    [httpx.HTTPStatusError], which carries a response, or any other one. *)
Inductive failure : Type :=
| HTTPStatusError (response : Response.t)
| Other (e : exn).

Definition C (A : Type) : Type := list Request.t -> (failure + A) * list Request.t.

Definition done {A : Type} (a : A) : C A := fun made => (inr a, made).

Definition cbind {A B : Type} (c : C A) (k : A -> C B) : C B :=
  fun made => match c made with
              | (inr a, made') => k a made'
              | (inl f, made') => (inl f, made')
              end.

Definition other {A : Type} (r : result A) : failure + A :=
  match r with
  | inl e => inl (Other e)
  | inr a => inr a
  end.

Definition pure {A : Type} (r : result A) : C A := fun made => (other r, made).

Notation "'let+' x ':=' c 'in' k" := (cbind c (fun x => k))
  (at level 10, x name, c at level 100, k at level 200).

Section App.
Variable X : Externals.
Variable P : Platform.
(** The environment of the process. *)
Variable env : Config.environ.

(** The settings that config.py reads when it is imported. *)
Definition cfg : Config.settings := Config.load env.
Definition VAPI_ASSISTANT_ID : option string := Config.getenv env "VAPI_ASSISTANT_ID".

(** ** Google Auth *)

(** Lines 48-60. *)
Definition get_google_flow : flow :=
  {| client_config :=
       PDict [ ("web",
                PDict [ ("client_id", of_option (Config.GOOGLE_CLIENT_ID cfg));
                        ("client_secret", of_option (Config.GOOGLE_CLIENT_SECRET cfg));
                        ("redirect_uris",
                         PList [of_option (Config.GOOGLE_REDIRECT_URI cfg)]);
                        ("auth_uri", PStr "https://accounts.google.com/o/oauth2/auth");
                        ("token_uri", PStr "https://oauth2.googleapis.com/token") ]) ];
     flow_scopes := GOOGLE_SCOPES;
     redirect_uri := Config.GOOGLE_REDIRECT_URI cfg |}.

(** [token_store["default"] = v]. *)
Definition store_token (v : value) : M state unit :=
  fun st => (ok tt, {| token_store := <["default" := v]> (token_store st);
                       booked_slots := booked_slots st;
                       trace := trace st |}).

(** The dictionary of lines 213-220. *)
Definition token_data (creds : Credentials.t) (scopes : list value) : value :=
  PDict [ ("token", Credentials.token creds);
          ("refresh_token", Credentials.refresh_token creds);
          ("token_uri", Credentials.token_uri creds);
          ("client_id", Credentials.client_id creds);
          ("client_secret", Credentials.client_secret creds);
          ("scopes", PList scopes) ].

(** The route [GET /auth/callback]. *)
Definition google_callback (code : string) : M state response :=
  try_except
    (let flow := get_google_flow in
     let* creds := lift (fetch_token P flow code) in
     let* scopes := lift (py_list (Credentials.scopes creds)) in
     store_token (token_data creds scopes) ;;
     ret (RedirectResponse (Config.getenv_or env "FRONTEND_URL" "http://localhost:4200")))
    (fun e => raise (HTTPException 400 (exn_str X e))).

(** The route [GET /auth/status]. *)
Definition auth_status : M state value :=
  let* st := read in
  ret (PDict [ ("authenticated",
                PBool (match token_store st !! "default" with
                       | Some _ => true
                       | None => false
                       end)) ]).

(** The route [POST /auth/logout]. *)
Definition logout : M state value :=
  fun st =>
    (ok (PDict [ ("success", PBool true); ("message", PStr "Logged out successfully") ]),
     match token_store st !! "default" with
     | Some _ => {| token_store := delete "default" (token_store st);
                    booked_slots := booked_slots st;
                    trace := trace st |}
     | None => st
     end).

(** The route [GET /appointments]. *)
Definition list_appointments : M state value :=
  let* st := read in
  ret (PDict [ ("appointments", PList (map slot_value (booked_slots st)));
               ("count", PInt (Z.of_nat (length (booked_slots st)))) ]).

(** ** The webhook *)

(** The route [POST /vapi/webhook], on the bytes of a request. *)
Definition vapi_webhook (raw_body : string) : result value :=
  let? body := json_loads X raw_body in
  let? message := get body "message" (PDict []) in
  let? event_type := get message "type" (PStr "unknown") in
  let? logged :=
    if is_text "end-of-call-report" event_type
    then let? msg := get body "message" (PDict []) in
         let? duration := get msg "durationSeconds" PNone in
         let? cost := get msg "cost" (PInt 0) in
         format_4f cost
    else ok tt in
  ok (PDict [ ("received", PBool true) ]).

(** ** The call routes *)

(** [await client.post(...)] or [await client.patch(...)]. *)
Definition request (r : Request.t) : C Response.t :=
  fun made => (other (send P made r), made ++ [r]).

Definition raise_for_status (r : Response.t) : C unit :=
  fun made => (if Response.raises r then inl (HTTPStatusError r) else inr tt, made).

(** The two [except] clauses of the call routes. *)
Definition relay {A : Type} (body : C A) : M (list Request.t) A :=
  fun made =>
    match body made with
    | (inr a, made') => (ok a, made')
    | (inl (HTTPStatusError r), made') =>
        (throw (HTTPException (Response.status_code r) (Response.text r)), made')
    | (inl (Other e), made') => (throw (HTTPException 500 (exn_str X e)), made')
    end.

Definition bearer (key : option string) : list (string * string) :=
  [ ("Authorization", "Bearer " +:+ format_setting key);
    ("Content-Type", "application/json") ].

(** Lines 243-254. *)
Definition phone_call_request (assistant_config : value) : Request.t :=
  {| Request.verb := POST;
     Request.url := "https://api.vapi.ai/call";
     Request.headers := bearer (Config.VAPI_API_PUBLIC_KEY cfg);
     Request.json := PDict [ ("type", PStr "outboundPhoneCall");
                             ("assistant", assistant_config) ];
     Request.timeout := 60 |}.

(** The route [POST /call/start_phone]. *)
Definition start_phone_call : M (list Request.t) value :=
  if Config.unset (Config.VAPI_API_PUBLIC_KEY cfg)
  then raise (HTTPException 500 "VAPI_API_PUBLIC_KEY not configured")
  else
    let assistant_config := build_assistant_config P in
    relay
      (let+ response := request (phone_call_request assistant_config) in
       let+ _ := raise_for_status response in
       let+ data := pure (Response.json response) in
       let+ logged := pure (get data "id" PNone) in
       let+ call_id := pure (get data "id" PNone) in
       let+ web_call_url := pure (get data "webCallUrl" PNone) in
       done (PDict [ ("call_id", call_id); ("web_call_url", web_call_url) ])).

(** Lines 285-293. *)
Definition patch_assistant_request (id : string) (assistant_config : value) : Request.t :=
  {| Request.verb := PATCH;
     Request.url := "https://api.vapi.ai/assistant/" +:+ id;
     Request.headers := bearer (Config.VAPI_API_KEY cfg);
     Request.json := assistant_config;
     Request.timeout := 60 |}.

(** Lines 299-307. *)
Definition post_assistant_request (assistant_config : value) : Request.t :=
  {| Request.verb := POST;
     Request.url := "https://api.vapi.ai/assistant";
     Request.headers := bearer (Config.VAPI_API_KEY cfg);
     Request.json := assistant_config;
     Request.timeout := 60 |}.

(** Lines 313-321. *)
Definition web_call_request (assistant_id : value) : Request.t :=
  {| Request.verb := POST;
     Request.url := "https://api.vapi.ai/call/web";
     Request.headers := bearer (Config.VAPI_API_PUBLIC_KEY cfg);
     Request.json := PDict [ ("assistantId", assistant_id) ];
     Request.timeout := 60 |}.

(** Lines 283-310: the assistant is updated, or created. *)
Definition update_assistant (assistant_config : value) : C value :=
  if negb (Config.unset VAPI_ASSISTANT_ID)
  then let+ assistant_response :=
         request (patch_assistant_request (format_setting VAPI_ASSISTANT_ID)
                    assistant_config) in
       let+ _ := raise_for_status assistant_response in
       done (of_option VAPI_ASSISTANT_ID)
  else let+ assistant_response := request (post_assistant_request assistant_config) in
       let+ _ := raise_for_status assistant_response in
       let+ created := pure (Response.json assistant_response) in
       pure (get created "id" PNone).

(** Lines 313-332: the web call is created. *)
Definition create_web_call (assistant_id : value) : C value :=
  let+ call_response := request (web_call_request assistant_id) in
  let+ _ := raise_for_status call_response in
  let+ call_data := pure (Response.json call_response) in
  let+ first := pure (get call_data "webCallUrl" PNone) in
  let+ web_call_url :=
    if truthy first then done first
    else let+ transport := pure (get call_data "transport" (PDict [])) in
         pure (get transport "callUrl" PNone) in
  let+ logged := pure (get call_data "id" PNone) in
  let+ call_id := pure (get call_data "id" PNone) in
  done (PDict [ ("call_id", call_id);
                ("assistant_id", assistant_id);
                ("web_call_url", web_call_url) ]).

(** The route [POST /call/start]. *)
Definition start_call : M (list Request.t) value :=
  if Config.unset (Config.VAPI_API_KEY cfg)
  then raise (HTTPException 500 "VAPI_API_KEY not configured")
  else
    let assistant_config := build_assistant_config P in
    relay
      (let+ assistant_id := update_assistant assistant_config in
       create_web_call assistant_id).

(** The request that [start_call] makes first. *)
Definition assistant_request (assistant_config : value) : Request.t :=
  if negb (Config.unset VAPI_ASSISTANT_ID)
  then patch_assistant_request (format_setting VAPI_ASSISTANT_ID) assistant_config
  else post_assistant_request assistant_config.

(** The identifier that the assistant request gives, following the words
    of lines 283-310: none when the client raises or [raise_for_status]
    does; otherwise [VAPI_ASSISTANT_ID] when it is set, and else what the
    created assistant has under [id], [None] when it has nothing there. *)
Definition spec_assistant_id (answer : result Response.t) : option value :=
  match answer with
  | inl _ => None
  | inr response =>
      if Response.raises response then None
      else match VAPI_ASSISTANT_ID with
           | Some (String a id) => Some (PStr (String a id))
           | _ => match Response.json response with
                  | inr (PDict created) =>
                      Some (match assoc "id" created with Some id => id | None => PNone end)
                  | _ => None
                  end
           end
  end.

(** ** The service as a whole *)

(** A request to one of the routes above or to the tool endpoint. *)
Inductive incoming : Type :=
| GET_auth_callback (code : string)
| GET_auth_status
| POST_auth_logout
| GET_appointments
| POST_vapi_tool (raw_body : string)
| POST_vapi_webhook (raw_body : string)
| POST_call_start
| POST_call_start_phone.

(** The stores of the module, and the requests made to the voice platform. *)
Record server : Type := {
  app : state;
  made : list Request.t;
}.

Definition in_app {A : Type} (wrap : A -> response) (c : M state A) (s : server)
  : result response * server :=
  let '(r, st) := c (app s) in
  (rbind r (fun a => ok (wrap a)), {| app := st; made := made s |}).

Definition in_platform (c : M (list Request.t) value) (s : server)
  : result response * server :=
  let '(r, l) := c (made s) in
  (rbind r (fun a => ok (JSONResponse a)), {| app := app s; made := l |}).

Definition handle (r : incoming) (s : server) : result response * server :=
  match r with
  | GET_auth_callback code => in_app (fun a => a) (google_callback code) s
  | GET_auth_status => in_app JSONResponse auth_status s
  | POST_auth_logout => in_app JSONResponse logout s
  | GET_appointments => in_app JSONResponse list_appointments s
  | POST_vapi_tool raw_body => in_app JSONResponse (book_appointment_tool X cfg raw_body) s
  | POST_vapi_webhook raw_body =>
      (rbind (vapi_webhook raw_body) (fun a => ok (JSONResponse a)), s)
  | POST_call_start => in_platform start_call s
  | POST_call_start_phone => in_platform start_phone_call s
  end.

(** The requests of a list, served one after the other. *)
Fixpoint serve (rs : list incoming) (s : server) : server :=
  match rs with
  | [] => s
  | r :: rest => serve rest (snd (handle r s))
  end.

(** The tool requests in a list. *)
Definition tool_requests (rs : list incoming) : nat :=
  length (List.filter (fun r => match r with POST_vapi_tool _ => true | _ => false end) rs).

Definition is_callback (r : incoming) : bool :=
  match r with GET_auth_callback _ => true | _ => false end.

End App.

End Routes.

(* ===================================================================== *)
(** * One choice of the platform                                          *)
(* ===================================================================== *)

Module RoutesSample.
Import Lib Routes.

Definition credentials : Credentials.t :=
  {| Credentials.token := PStr "ya29.token";
     Credentials.refresh_token := PStr "1//refresh";
     Credentials.token_uri := PStr "https://oauth2.googleapis.com/token";
     Credentials.client_id := PStr "client";
     Credentials.client_secret := PStr "secret";
     Credentials.scopes := Some [ PStr "https://www.googleapis.com/auth/calendar" ] |}.

Definition assistant_created : Response.t :=
  {| Response.status_code := 201;
     Response.text := Sample.dq "{'id': 'asst_1'}";
     Response.raises := false;
     Response.json := ok (PDict [ ("id", PStr "asst_1") ]) |}.

Definition web_call_created : Response.t :=
  {| Response.status_code := 201;
     Response.text := Sample.dq "{'id': 'call_9', 'webCallUrl': 'https://vapi.daily.co/room'}";
     Response.raises := false;
     Response.json := ok (PDict [ ("id", PStr "call_9");
                                  ("webCallUrl", PStr "https://vapi.daily.co/room") ]) |}.

Definition unauthorized : Response.t :=
  {| Response.status_code := 401;
     Response.text := Sample.dq "{'message': 'Invalid Key.'}";
     Response.raises := true;
     Response.json := ok (PDict [ ("message", PStr "Invalid Key.") ]) |}.

Definition assistant_config : value := PDict [ ("name", PStr "Vikara Outbound Assistant") ].

(** A platform that knows one code and answers every request as [answer]
    says. *)
Definition platform (answer : Request.t -> Response.t) : Platform :=
  {| fetch_token := fun _ code =>
       if String.eqb code "4/0AX4XfWh"
       then ok credentials
       else throw (OtherError "InvalidGrantError" "(invalid_grant) Bad Request");
     send := fun _ r => ok (answer r);
     build_assistant_config := assistant_config |}.

(** The platform creates what it is asked for. *)
Definition P : Platform :=
  platform (fun r => if String.eqb (Request.url r) "https://api.vapi.ai/call/web"
                     then web_call_created
                     else assistant_created).

(** The platform refuses the key. *)
Definition P_unauthorized : Platform := platform (fun _ => unauthorized).

(** The private key is set, the public key and the assistant are not. *)
Definition env : Config.environ := <["VAPI_API_KEY" := "private-key"]> ∅.

Definition post_assistant : Request.t := post_assistant_request env assistant_config.

Definition connected : server := {| app := Sample.connected; made := [] |}.

Definition disconnected : server := {| app := Sample.disconnected; made := [] |}.

Definition code : string := "4/0AX4XfWh".

Definition scopes : list value := [ PStr "https://www.googleapis.com/auth/calendar" ].

Definition created_items : list (string * value) :=
  [ ("id", PStr "evt_1");
    ("htmlLink", PStr "https://www.google.com/calendar/event?eid=evt_1") ].

(** Every required setting is there. *)
Definition production_env : Config.environ :=
  <["ENVIRONMENT" := "production"]>
    (<["VAPI_API_KEY" := "private-key"]>
       (<["VAPI_API_PUBLIC_KEY" := "public-key"]>
          (<["GOOGLE_CLIENT_ID" := "client"]>
             (<["GOOGLE_CLIENT_SECRET" := "secret"]>
                (<["GOOGLE_REDIRECT_URI" := "https://api.example.com/auth/callback"]>
                   (<["YOUR_EMAIL" := "team@example.com"]>
                      (<["BACKEND_URL" := "https://api.example.com"]> ∅))))))).

End RoutesSample.

Module TextFacts.
Import Notions.

Lemma append_cons (x : ascii) (a b : string) : String x a +:+ b = String x (a +:+ b).
Proof. reflexivity. Qed.

Lemma append_assoc (a b c : string) : (a +:+ b) +:+ c = a +:+ (b +:+ c).
Proof.
  induction a as [|x a IH]; [reflexivity|]. rewrite !append_cons. now rewrite IH.
Qed.

Lemma append_empty_r (a : string) : a +:+ "" = a.
Proof.
  induction a as [|x a IH]; [reflexivity|]. rewrite append_cons. now rewrite IH.
Qed.

Lemma occurs_refl (x : string) : occurs x x.
Proof. exists "", "". simpl. now rewrite append_empty_r. Qed.

Lemma occurs_append_l (x a s : string) : occurs x s -> occurs x (a +:+ s).
Proof.
  intros (pre & post & ->). exists (a +:+ pre), post. now rewrite append_assoc.
Qed.

Lemma occurs_append_r (x s b : string) : occurs x s -> occurs x (s +:+ b).
Proof.
  intros (pre & post & ->). exists pre, (post +:+ b).
  now rewrite !append_assoc.
Qed.

Lemma occurs_trans (x y s : string) : occurs x y -> occurs y s -> occurs x s.
Proof.
  intros Hxy (pre & post & ->). now apply occurs_append_l, occurs_append_r.
Qed.

Lemma occurs_join (sep x : string) (items : list string) :
  In x items -> occurs x (join sep items).
Proof.
  induction items as [|y [|z rest] IH]; intros Hin.
  - destruct Hin.
  - destruct Hin as [-> | []]. apply occurs_refl.
  - change (join sep (y :: z :: rest)) with (y +:+ sep +:+ join sep (z :: rest)).
    destruct Hin as [-> | Hin].
    + apply occurs_append_r, occurs_refl.
    + now apply occurs_append_l, occurs_append_l, IH.
Qed.

Lemma prefix_iff (x s : string) : String.prefix x s = true <-> exists post, s = x +:+ post.
Proof.
  revert s. induction x as [|a x IH]; intros s; simpl.
  - split; [intros _; now exists s | destruct s; reflexivity].
  - destruct s as [|b s]; simpl.
    + split; [discriminate | intros [post H]; discriminate].
    + destruct (ascii_dec a b) as [->|Hne].
      * rewrite IH. split; intros [post H]; exists post.
        -- now rewrite append_cons, H.
        -- rewrite append_cons in H. now injection H.
      * split; [discriminate|]. intros [post H]. rewrite append_cons in H.
        injection H as H _. now destruct Hne.
Qed.

(** [str_contains] decides [occurs]. *)
Lemma str_contains_iff (x s : string) : str_contains x s = true <-> occurs x s.
Proof.
  split.
  - induction s as [|a s IH].
    + destruct x; [intros _; now exists "", "" | discriminate].
    + cbn [str_contains]. destruct (String.prefix x (String a s)) eqn:E.
      * intros _. destruct (proj1 (prefix_iff _ _) E) as [post Hp]. now exists "", post.
      * intros H. destruct (IH H) as (pre & post & ->).
        exists (String a pre), post. now rewrite append_cons.
  - intros (pre & post & ->). induction pre as [|a pre IH].
    + assert (String.prefix x (x +:+ post) = true) as E
        by (apply prefix_iff; now exists post).
      change ("" +:+ x +:+ post) with (x +:+ post).
      destruct (x +:+ post) eqn:Ex; cbn [str_contains]; now rewrite E.
    + rewrite append_cons. cbn [str_contains].
      destruct (String.prefix x (String a (pre +:+ x +:+ post))); [reflexivity | exact IH].
Qed.

Lemma str_contains_false_iff (x s : string) : str_contains x s = false <-> ~ occurs x s.
Proof.
  rewrite <- str_contains_iff. destruct (str_contains x s); split; easy.
Qed.

End TextFacts.

Module ConfigFacts.
Import Config Notions TextFacts.

(** The loop appends one line per unset variable, in order, and nothing else. *)
Lemma check_required_lines (vars : list (string * option string)) (errors : list string) :
  check_required vars errors
  = errors ++ map missing_line (map fst (List.filter (fun p => unset (snd p)) vars)).
Proof.
  revert errors. induction vars as [|[n v] rest IH]; intros errors; simpl.
  - now rewrite app_nil_r.
  - rewrite IH. destruct (unset v); simpl; [now rewrite <- app_assoc | reflexivity].
Qed.

Lemma missing_settings_iff (c : settings) (n : string) :
  In n (spec_missing_settings c) <-> exists v, In (n, v) (required_vars c) /\ unset v = true.
Proof.
  unfold spec_missing_settings. rewrite in_map_iff. split.
  - intros ([n' v] & <- & Hin). apply filter_In in Hin as [Hin Hu]. now exists v.
  - intros (v & Hin & Hu). exists (n, v). split; [reflexivity|].
    apply filter_In. now split.
Qed.

Lemma validate_config_cases (c : settings) :
  validate_config c =
    if String.eqb (ENVIRONMENT c) "production"
    then match spec_missing_settings c with
         | [] => ok tt
         | _ => throw (ValueError (failure_message (map missing_line (spec_missing_settings c))))
         end
    else ok tt.
Proof.
  unfold validate_config. destruct (String.eqb (ENVIRONMENT c) "production"); [|reflexivity].
  rewrite check_required_lines, app_nil_l. fold (spec_missing_settings c).
  destruct (spec_missing_settings c); reflexivity.
Qed.

(** C3. In production, when at least one of the seven required settings is
    unset or empty, [validate_config] raises one [ValueError] whose message is
    the header followed by one line per missing setting, so that the name of
    every missing setting occurs in it (and a line is there only for a
    setting that is missing); for any other environment name it returns
    without raising, whatever is set. *)
Theorem validate_config_reports_all_missing (c : settings) :
  (ENVIRONMENT c = "production" -> spec_missing_settings c <> [] ->
     exists msg,
       validate_config c = throw (ValueError msg)
       /\ msg = failure_message (map missing_line (spec_missing_settings c))
       /\ (forall n v, In (n, v) (required_vars c) -> unset v = true -> occurs n msg)
       /\ (forall n, In (missing_line n) (map missing_line (spec_missing_settings c)) ->
             exists v, In (n, v) (required_vars c) /\ unset v = true))
  /\ (ENVIRONMENT c <> "production" -> validate_config c = ok tt).
Proof.
  split.
  - intros Hprod Hmiss. eexists. rewrite validate_config_cases.
    apply String.eqb_eq in Hprod. rewrite Hprod.
    split; [|split; [reflexivity|split]].
    + destruct (spec_missing_settings c); [contradiction | reflexivity].
    + intros n v Hin Hu. unfold failure_message.
      apply occurs_append_l, occurs_append_l.
      apply occurs_trans with (y := missing_line n).
      * apply occurs_append_l, occurs_refl.
      * apply occurs_join, in_map, missing_settings_iff. now exists v.
    + intros n Hin. apply in_map_iff in Hin as (n' & Heq & Hin).
      apply (inj (String.app _)) in Heq as ->.
      now apply missing_settings_iff.
  - intros Hne. rewrite validate_config_cases.
    destruct (String.eqb (ENVIRONMENT c) "production") eqn:E; [|reflexivity].
    apply String.eqb_eq in E. contradiction.
Qed.

End ConfigFacts.

Module ModelsFacts.
Import Lib Models.

Section Facts.
Variable X : Externals.
Variable cfg : Config.settings.

(** A constructor call that returns has validated every field. *)
Lemma new_ok_inv (kw : kwargs) (appt : AppointmentDetails) :
  new X cfg kw = ok appt ->
  field_name (kw_name kw) = Valid (name appt)
  /\ field_phone X (kw_phone kw) = Valid (phone appt)
  /\ field_email X (kw_email kw) = Valid (email appt)
  /\ field_text X (validate_date X) (kw_date kw) = Valid (date appt)
  /\ field_text X (validate_time X) (kw_time kw) = Valid (time appt)
  /\ field_purpose (kw_purpose kw) = Valid (purpose appt)
  /\ field_timezone X cfg (kw_timezone kw) = Valid (timezone appt)
  /\ field_duration_minutes X (kw_duration_minutes kw) = Valid (duration_minutes appt).
Proof.
  unfold new. intros H.
  destruct (field_name (kw_name kw));
    [|destruct (first_raised _); discriminate..].
  destruct (field_phone X (kw_phone kw));
    [|destruct (first_raised _); discriminate..].
  destruct (field_email X (kw_email kw));
    [|destruct (first_raised _); discriminate..].
  destruct (field_text X (validate_date X) (kw_date kw));
    [|destruct (first_raised _); discriminate..].
  destruct (field_text X (validate_time X) (kw_time kw));
    [|destruct (first_raised _); discriminate..].
  destruct (field_purpose (kw_purpose kw));
    [|destruct (first_raised _); discriminate..].
  destruct (field_timezone X cfg (kw_timezone kw));
    [|destruct (first_raised _); discriminate..].
  destruct (field_duration_minutes X (kw_duration_minutes kw));
    [|destruct (first_raised _); discriminate..].
  injection H as <-. simpl. repeat split.
Qed.


(** ** Dates *)

Lemma validate_date_cases (v : string) :
  validate_date X v =
    match strptime_date X v with
    | Some d => if date_ltb d (today X)
                then throw (ValueError "Date must be in YYYY-MM-DD format")
                else ok v
    | None => throw (ValueError "Date must be in YYYY-MM-DD format")
    end.
Proof.
  unfold validate_date. destruct (strptime_date X v) as [d|]; simpl; [|reflexivity].
  destruct (date_ltb d (today X)); reflexivity.
Qed.

Lemma validate_date_unparsed (v : string) :
  strptime_date X v = None ->
  validate_date X v = throw (ValueError "Date must be in YYYY-MM-DD format").
Proof. intros H. now rewrite validate_date_cases, H. Qed.

Lemma validate_date_accepts (v : string) (d : calendar_date) :
  strptime_date X v = Some d -> date_ltb d (today X) = false -> validate_date X v = ok v.
Proof. intros H Hlt. now rewrite validate_date_cases, H, Hlt. Qed.

Lemma date_ltb_irrefl (d : calendar_date) : date_ltb d d = false.
Proof.
  unfold date_ltb. rewrite !Z.ltb_irrefl, !Z.eqb_refl. reflexivity.
Qed.

(** Today's date is accepted. *)
Lemma validate_date_accepts_today (v : string) :
  strptime_date X v = Some (today X) -> validate_date X v = ok v.
Proof. intros H. apply (validate_date_accepts v _ H), date_ltb_irrefl. Qed.

Lemma validate_date_never_says_future (v : string) :
  validate_date X v <> throw (ValueError "Date must be in the future").
Proof.
  rewrite validate_date_cases.
  destruct (strptime_date X v) as [d|]; [destruct (date_ltb d (today X))|]; discriminate.
Qed.

(** C2 (where the code departs from it). A text that parses as a date
    strictly before today is refused, but the [ValueError] saying that the
    date must be in the future is raised inside the [try] block and caught by
    its own [except ValueError]: what the validator raises, and what pydantic
    records for the field, is the wrong-format message. *)
Theorem validate_date_past_says_format (v : string) (d : calendar_date) :
  strptime_date X v = Some d ->
  date_ltb d (today X) = true ->
  validate_date X v = throw (ValueError "Date must be in YYYY-MM-DD format")
  /\ validate_date X v <> throw (ValueError "Date must be in the future")
  /\ field_text X (validate_date X) (Some (PStr v))
     = Invalid (value_error "Date must be in YYYY-MM-DD format").
Proof.
  intros H Hlt.
  assert (validate_date X v = throw (ValueError "Date must be in YYYY-MM-DD format")) as E
    by now rewrite validate_date_cases, H, Hlt.
  split; [exact E|]. split; [apply validate_date_never_says_future|].
  unfold field_text. now rewrite E.
Qed.

(** ** Duration and defaults *)



Lemma appointment_kwargs_dict (args : list (string * value)) :
  Main.appointment_kwargs cfg (PDict args) =
    ok {| kw_name := Some (default PNone (assoc "name" args));
          kw_phone := Some (default PNone (assoc "phone" args));
          kw_email := Some (default PNone (assoc "email" args));
          kw_date := Some (default PNone (assoc "date" args));
          kw_time := Some (default PNone (assoc "time" args));
          kw_purpose := Some (default (PStr "Discovery Session") (assoc "purpose" args));
          kw_timezone :=
            Some (default (PStr (Config.DEFAULT_TIMEZONE cfg)) (assoc "timezone" args));
          kw_duration_minutes := Some (default (PInt 60) (assoc "duration_minutes" args)) |}.
Proof.
  unfold Main.appointment_kwargs, get, rbind, ok, default.
  repeat match goal with |- context [assoc ?k args] => destruct (assoc k args) end;
    reflexivity.
Qed.




End Facts.

(** ** Assignment *)

Lemma getattr_store_same (self : AppointmentDetails) (a : assignment) :
  getattr (store a self) (field_of a) = ok (assigned a).
Proof. destruct a; reflexivity. Qed.

Lemma getattr_store_other (self : AppointmentDetails) (a : assignment) (field : string) :
  field <> field_of a -> getattr (store a self) field = getattr self field.
Proof.
  intros Hne. unfold getattr.
  destruct a; simpl in *;
    repeat match goal with
           | |- context [String.eqb field ?k] =>
               destruct (String.eqb_spec field k); [subst; try contradiction|]
           end; reflexivity.
Qed.

(** C10, as the code has it. [AppointmentDetails] is an ordinary pydantic
    model: its [Config] does not freeze it, so assigning to a field of a
    constructed value succeeds, the field then holds the assigned value
    (which no validator has seen), and every other field is as before. *)
Theorem setattr_replaces_one_field (self : AppointmentDetails) (a : assignment) :
  exists self',
    setattr model_config self a = ok self'
    /\ getattr self' (field_of a) = ok (assigned a)
    /\ forall field, field <> field_of a -> getattr self' field = getattr self field.
Proof.
  exists (store a self). split; [reflexivity|]. split.
  - apply getattr_store_same.
  - intros field Hne. now apply getattr_store_other.
Qed.

(** A frozen model would refuse the same assignment. *)
Lemma setattr_frozen (self : AppointmentDetails) (a : assignment) :
  setattr {| frozen := true |} self a
  = throw (ValidationError "AppointmentDetails" [(field_of a, frozen_instance)]).
Proof. reflexivity. Qed.

End ModelsFacts.

Module MainFacts.
Import Lib Main Notions TextFacts.

Section Keeps.
Context {St : Type} (I : St -> Prop).

Lemma keeps_ret {A : Type} (V : A -> Prop) (a : A) : V a -> keeps I V (ret a).
Proof. intros Ha s r s' Hs [= <- <-]. split; [exact Hs|]. now intros ? [= <-]. Qed.

Lemma keeps_raise {A : Type} (V : A -> Prop) (e : exn) : keeps I V (raise e).
Proof. intros s r s' Hs [= <- <-]. split; [exact Hs|]. discriminate. Qed.

Lemma keeps_lift {A : Type} (r : result A) : keeps I any (lift r).
Proof. intros s r' s' Hs [= <- <-]. split; [exact Hs|]. now intros. Qed.

Lemma keeps_bind {A B : Type} (W : A -> Prop) (V : B -> Prop) (c : M St A) (k : A -> M St B) :
  keeps I W c -> (forall a, W a -> keeps I V (k a)) -> keeps I V (bind c k).
Proof.
  intros Hc Hk s r s' Hs. unfold bind.
  destruct (c s) as [[e|a] s1] eqn:E; destruct (Hc _ _ _ Hs E) as [Hs1 Ha].
  - intros [= <- <-]. split; [exact Hs1|]. discriminate.
  - intros Hrun. exact (Hk a (Ha a eq_refl) _ _ _ Hs1 Hrun).
Qed.

Lemma keeps_weaken {A : Type} (V W : A -> Prop) (c : M St A) :
  (forall a, V a -> W a) -> keeps I V c -> keeps I W c.
Proof.
  intros HVW Hc s r s' Hs E. destruct (Hc _ _ _ Hs E) as [Hs' Ha].
  split; [exact Hs'|]. intros a Hr. apply HVW, Ha, Hr.
Qed.

End Keeps.

Lemma keeps_on_fst {A : Type} (V : A -> Prop) (c : M frame A) :
  keeps bound V c -> keeps bound_in V (on_fst (S2:=state) c).
Proof.
  intros Hc [fr st] r [fr' st'] Hs. unfold on_fst. simpl.
  destruct (c fr) as [r1 fr1] eqn:E. intros [= <- <- <-].
  exact (Hc _ _ _ Hs E).
Qed.

Lemma keeps_on_snd {A : Type} (c : M state A) : keeps bound_in any (on_snd (S1:=frame) c).
Proof.
  intros [fr st] r [fr' st'] Hs. unfold on_snd. simpl.
  destruct (c st) as [r1 st1]. intros [= <- <- <-]. split; [exact Hs | now intros].
Qed.

Lemma keeps_assign (v : value) : keeps bound any (assign_tool_call_id v).
Proof.
  intros s r s' _ [= <- <-]. split; [now exists v | now intros].
Qed.

Lemma keeps_read : keeps bound any read_tool_call_id.
Proof.
  intros s r s' Hs. unfold read_tool_call_id.
  destruct (tool_call_id s); intros [= <- <-]; split; try exact Hs; now intros.
Qed.

Section Facts.
Variable X : Externals.
Variable cfg : Config.settings.

Lemma keeps_vapi_response (message : value) :
  keeps bound_in is_envelope (vapi_response message).
Proof.
  apply keeps_bind with (W := any).
  - apply keeps_on_fst, keeps_read.
  - intros id _. apply keeps_ret. now exists id, message.
Qed.

Local Ltac keep :=
  repeat first
    [ apply keeps_vapi_response
    | apply keeps_raise
    | apply keeps_on_snd
    | apply keeps_lift
    | apply keeps_assign
    | apply keeps_read
    | apply (keeps_ret _ any); exact I
    | apply keeps_on_fst
    | eapply keeps_bind; [| intros ? _]
    | match goal with
      | |- keeps _ _ (if ?b then _ else _) => destruct b
      | |- keeps _ _ (match ?x with _ => _ end) => destruct x
      end ].

Lemma keeps_book (args : value) : keeps bound_in is_envelope (book X cfg args).
Proof. unfold book. keep. Qed.

(** Once [tool_call_id] is bound, the rest of the [try] block either raises
    or returns an envelope, and leaves the name bound. *)
Lemma keeps_rest (body : value) :
  keeps bound_in is_envelope
    (let* args := lift (extract_args body) in
     if negb (truthy args)
     then vapi_response (PStr "I had trouble reading the booking details. Could you try again?")
     else match args with
          | PStr s =>
              match json_loads_str X s with
              | inl (JSONDecodeError _) =>
                  vapi_response (PStr "Invalid data format. Please try again.")
              | inl e => raise e
              | inr parsed => book X cfg parsed
              end
          | _ => book X cfg args
          end).
Proof.
  eapply keeps_bind; [apply keeps_lift|]. intros args _.
  destruct (negb (truthy args)); [apply keeps_vapi_response|].
  destruct args; try apply keeps_book.
  destruct (json_loads_str X s) as [[]|]; try apply keeps_raise;
    try apply keeps_vapi_response; apply keeps_book.
Qed.

Lemma bind_assign_tool_call_id {A : Type} (v : value) (k : unit -> M frame A) (fr : frame) :
  bind (assign_tool_call_id v) k fr = k tt {| tool_call_id := Some v |}.
Proof. reflexivity. Qed.

(** The identifier search binds the name whatever it finds, and also when
    a lookup raises. *)
Lemma extract_tool_call_id_binds (body : value) (fr fr' : frame) (r : result unit) :
  extract_tool_call_id body fr = (r, fr') -> bound fr'.
Proof.
  unfold extract_tool_call_id. rewrite bind_assign_tool_call_id. intros E.
  match type of E with
  | ?c ?s = _ => assert (keeps bound any c) as K by keep
  end.
  eapply K; [|exact E]. now exists PNone.
Qed.

(** ** The [except] clauses *)

Lemma on_exception_bound (e : exn) (id : value) (st : state) :
  on_exception X e ({| tool_call_id := Some id |}, st)
  = (ok (envelope id (PStr (spoken X e))), ({| tool_call_id := Some id |}, st)).
Proof. unfold on_exception, spoken. destruct (is_ValueError e); [|destruct e]; reflexivity. Qed.

Lemma on_exception_unbound (e : exn) (st : state) :
  on_exception X e ({| tool_call_id := None |}, st)
  = (throw (UnboundLocalError "tool_call_id"), ({| tool_call_id := None |}, st)).
Proof. unfold on_exception. destruct (is_ValueError e); [|destruct e]; reflexivity. Qed.

(** The framework sends an envelope with status 200, unless the identifier
    or the message in it holds what JSON or UTF-8 cannot carry. *)
Lemma envelope_status (id : value) (message : string) :
  status_code (ok (spec_envelope id (PStr message)))
  = if json_compliant id && json_compliant (PStr message) then 200 else 500.
Proof.
  unfold status_code, ok, spec_envelope.
  cbn [json_compliant forallb has_surrogate Nat.eqb nat_of_ascii andb orb negb].
  destruct (json_compliant id); destruct (has_surrogate message); reflexivity.
Qed.

Lemma tool_returns (raw : string) (st st' : state) (fr : frame) (v : value) :
  utf8_decodes X raw = true ->
  try_body X cfg raw ({| tool_call_id := None |}, st) = (ok v, (fr, st')) ->
  book_appointment_tool X cfg raw st = (ok v, st').
Proof.
  intros Hutf E. unfold book_appointment_tool, try_except. now rewrite Hutf, E.
Qed.

Lemma tool_catches (raw : string) (st st' : state) (id : value) (e : exn) :
  utf8_decodes X raw = true ->
  try_body X cfg raw ({| tool_call_id := None |}, st)
  = (throw e, ({| tool_call_id := Some id |}, st')) ->
  book_appointment_tool X cfg raw st = (ok (envelope id (PStr (spoken X e))), st').
Proof.
  intros Hutf E. unfold book_appointment_tool, try_except. rewrite Hutf, E. simpl.
  now rewrite on_exception_bound.
Qed.

(** ** Requests that cannot be read *)

(** C1 (where the code departs from it). When [json.loads] raises on the
    request body, the [except] clause that catches the exception reads
    [tool_call_id], which is assigned only after the parse: the read raises
    [UnboundLocalError], nothing catches it, and the route answers with
    status 500 and no envelope. *)
Theorem unparseable_body_is_not_absorbed (raw : string) (st : state) (e : exn) :
  utf8_decodes X raw = true ->
  json_loads X raw = throw e ->
  book_appointment_tool X cfg raw st = (throw (UnboundLocalError "tool_call_id"), st)
  /\ status_code (fst (book_appointment_tool X cfg raw st)) = 500.
Proof.
  intros Hutf Hloads.
  assert (book_appointment_tool X cfg raw st = (throw (UnboundLocalError "tool_call_id"), st))
    as E.
  { unfold book_appointment_tool, try_except, try_body, bind, lift.
    rewrite Hutf, Hloads. simpl. now rewrite on_exception_unbound. }
  now rewrite E.
Qed.

(** A body that is not UTF-8 fails earlier still, at the line that logs it. *)
Lemma undecodable_body_is_not_absorbed (raw : string) (st : state) :
  utf8_decodes X raw = false ->
  exists e, book_appointment_tool X cfg raw st = (throw e, st)
            /\ status_code (throw e) = 500.
Proof.
  intros Hutf. unfold book_appointment_tool. rewrite Hutf. simpl. eexists. split; reflexivity.
Qed.

(** For every body that [json.loads] accepts the handler returns an
    envelope, whatever goes wrong afterwards. *)
Lemma parsed_body_returns (raw : string) (st : state) (body : value) :
  utf8_decodes X raw = true ->
  json_loads X raw = ok body ->
  exists id message st',
    book_appointment_tool X cfg raw st = (ok (envelope id message), st').
Proof.
  intros Hutf Hloads.
  destruct (try_body X cfg raw ({| tool_call_id := None |}, st)) as [r [fr st1]] eqn:E.
  assert (bound fr /\ forall v, r = ok v -> is_envelope v) as [[id Hid] Hv].
  { revert E. unfold try_body. unfold bind at 1, lift at 1. rewrite Hloads.
    change (ok body) with (@inr exn value body). cbv iota beta.
    unfold bind at 1, on_fst at 1. cbn [fst snd].
    destruct (extract_tool_call_id body {| tool_call_id := None |}) as [r1 fr1] eqn:E1.
    apply extract_tool_call_id_binds in E1.
    destruct r1 as [e1|[]].
    - intros [= <- <- <-]. split; [exact E1 | discriminate].
    - intros E. exact (keeps_rest body (fr1, st) _ _ E1 E). }
  destruct fr as [[id'|]]; [|discriminate]. injection Hid as ->.
  destruct r as [e|v].
  - exists id, (PStr (spoken X e)), st1. now apply tool_catches.
  - destruct (Hv v eq_refl) as (id' & message & ->).
    exists id', message, st1. eapply tool_returns; eassumption.
Qed.

(** ** Requests that carry arguments *)

Lemma try_body_books (raw : string) (st : state) (body id : value)
    (args : list (string * value)) :
  json_loads X raw = ok body ->
  identifier_found body id ->
  arguments_found X body args ->
  try_body X cfg raw ({| tool_call_id := None |}, st)
  = book X cfg (PDict args) ({| tool_call_id := Some id |}, st).
Proof.
  intros Hloads Hid (extracted & Hargs & Htruthy & Hshape).
  unfold try_body. unfold bind at 1, lift at 1. rewrite Hloads.
  change (ok body) with (@inr exn value body). cbv iota beta.
  unfold bind at 1, on_fst at 1. cbn [fst snd]. rewrite Hid.
  change (ok tt) with (@inr exn unit tt). cbv iota beta.
  unfold bind at 1, lift at 1. rewrite Hargs.
  change (ok extracted) with (@inr exn value extracted). cbv iota beta.
  rewrite Htruthy. cbn [negb].
  destruct Hshape as [-> | (s & -> & Hs)]; [reflexivity|].
  now rewrite Hs.
Qed.

Lemma missing_fields_dict (args : list (string * value)) (fields : list string) :
  missing_fields (PDict args) fields = ok (List.filter (spec_absent_or_empty args) fields).
Proof.
  induction fields as [|f rest IH]; [reflexivity|].
  cbn [missing_fields List.filter]. rewrite IH. unfold spec_absent_or_empty, get, rbind, ok.
  destruct (assoc f args) as [v|]; [destruct (truthy v)|]; reflexivity.
Qed.

(** C8 (as amended). For a request in which an identifier and a non-empty
    argument object are found: when the object lacks one of [name], [phone],
    [email], [date], [time] (the key is absent or its value is empty), the
    handler answers with the envelope whose message lists the lacking
    fields, all of them and no others, in the order above; the stores are as
    before and neither the constructor of [AppointmentDetails] nor the
    calendar has been called. *)
Theorem missing_fields_are_listed (raw : string) (st : state) (body id : value)
    (args : list (string * value)) :
  utf8_decodes X raw = true ->
  json_loads X raw = ok body ->
  identifier_found body id ->
  arguments_found X body args ->
  (exists field, In field spec_required_fields /\ spec_absent_or_empty args field = true) ->
  let missing := List.filter (spec_absent_or_empty args) spec_required_fields in
  book_appointment_tool X cfg raw st
  = (ok (spec_envelope id (PStr ("I'm missing " +:+ join ", " missing
                                 +:+ ". Could you provide those?"))), st)
  /\ (forall field,
         In field missing
         <-> In field spec_required_fields /\ spec_absent_or_empty args field = true)
  /\ trace (snd (book_appointment_tool X cfg raw st)) = trace st.
Proof.
  intros Hutf Hloads Hid Hargs (field & Hin & Hempty) missing.
  assert (book_appointment_tool X cfg raw st
          = (ok (envelope id (PStr (missing_message missing))), st)) as E.
  { apply tool_returns with (fr := {| tool_call_id := Some id |}); [exact Hutf|].
    rewrite (try_body_books raw st body id args Hloads Hid Hargs).
    unfold book. unfold bind at 1, lift at 1. rewrite missing_fields_dict.
    change required_fields with spec_required_fields.
    fold missing. change (ok missing) with (@inr exn (list string) missing). cbv iota beta.
    destruct missing as [|m rest] eqn:Em; [|reflexivity].
    assert (In field missing) as Hf by (apply filter_In; now split).
    rewrite Em in Hf. destruct Hf. }
  split; [exact E|]. split; [|now rewrite E].
  intros f. apply filter_In.
Qed.

(** ** Requests with valid arguments *)

Lemma book_constructs (args : list (string * value)) (kw : Models.kwargs)
    (appt : Models.AppointmentDetails) (fr : frame) (st : state) :
  List.filter (spec_absent_or_empty args) required_fields = [] ->
  appointment_kwargs cfg (PDict args) = ok kw ->
  Models.new X cfg kw = ok appt ->
  book X cfg (PDict args) (fr, st)
  = (let* result := on_snd (create_google_calendar_event X cfg appt) in
     let* success := lift (get result "success" PNone) in
     if negb (truthy success)
     then let* error :=
            lift (get result "error"
                    (PStr "Failed to create calendar event. Please try again.")) in
          vapi_response error
     else vapi_response (PStr (booked_message (Models.email appt))))
      (fr, {| token_store := token_store st;
              booked_slots := booked_slots st;
              trace := trace st ++ [AppointmentDetails_call kw] |}).
Proof.
  intros Hmissing Hkw Hnew.
  unfold book. unfold bind at 1, lift at 1. rewrite missing_fields_dict, Hmissing.
  change (ok []) with (@inr exn (list string) []). cbv iota beta.
  unfold bind at 1, lift at 1. rewrite Hkw.
  change (ok kw) with (@inr exn Models.kwargs kw). cbv iota beta.
  unfold bind at 1, on_snd at 1, record_call at 1. cbn [fst snd]. cbv iota beta.
  unfold bind at 1, lift at 1. rewrite Hnew. reflexivity.
Qed.

(** An empty list under [toolCallList], in a body with neither [message] nor
    [toolCall], stops the search for the identifier: line 360 takes the
    first item of the list without looking whether there is one. *)
Lemma empty_list_stops_the_search (raw : string) (st : state)
    (items : list (string * value)) :
  utf8_decodes X raw = true ->
  json_loads X raw = ok (PDict items) ->
  assoc "message" items = None ->
  assoc "toolCall" items = None ->
  assoc "toolCallList" items = Some (PList []) ->
  book_appointment_tool X cfg raw st
  = (ok (spec_envelope PNone (PStr "Something went wrong on our end. I'll try once more.")),
     st).
Proof.
  intros Hutf Hloads Hm Hc Hl.
  apply (tool_catches raw st st PNone (IndexError "list index out of range"));
    [exact Hutf|].
  unfold try_body. unfold bind at 1, lift at 1. rewrite Hloads.
  change (ok (PDict items)) with (@inr exn value (PDict items)). cbv iota beta.
  unfold bind at 1, on_fst at 1. cbn [fst snd].
  assert (extract_tool_call_id (PDict items) {| tool_call_id := None |}
          = (throw (IndexError "list index out of range"), {| tool_call_id := Some PNone |}))
    as ->; [|reflexivity].
  unfold extract_tool_call_id. rewrite bind_assign_tool_call_id.
  unfold bind, lift, ret, assign_tool_call_id, write, read_tool_call_id, not_and,
    py_in, getitem, ok.
  rewrite Hm, Hc, Hl. reflexivity.
Qed.

(** C5 (and where the code departs from it). For a request in which the
    search for the identifier runs to its end and an argument object is
    found: with valid arguments (no required field lacking, and the
    constructor of [AppointmentDetails] accepts them) and no credential under
    the key "default", the handler answers that the calendar is not
    connected; [booked_slots] and [token_store] are as before, and the
    calendar has not been asked to insert anything (the only call made is
    the constructor of [AppointmentDetails]).  But a request that carries the
    same valid arguments under [function], with an empty list under
    [toolCallList] and neither [message] nor [toolCall], is answered that
    something went wrong: the search for the identifier raises before the
    arguments are looked at. *)
Theorem missing_credential_is_reported_unless_the_search_fails :
  (forall (raw : string) (st : state) (body id : value) (args : list (string * value))
          (kw : Models.kwargs) (appt : Models.AppointmentDetails),
      utf8_decodes X raw = true ->
      json_loads X raw = ok body ->
      identifier_found body id ->
      arguments_found X body args ->
      List.filter (spec_absent_or_empty args) spec_required_fields = [] ->
      appointment_kwargs cfg (PDict args) = ok kw ->
      Models.new X cfg kw = ok appt ->
      token_store st !! "default" = None ->
      book_appointment_tool X cfg raw st
      = (ok (spec_envelope id
               (PStr "Google Calendar not connected. Please authenticate first.")),
         {| token_store := token_store st;
            booked_slots := booked_slots st;
            trace := trace st ++ [AppointmentDetails_call kw] |}))
  /\ (forall (raw : string) (st : state) (items args : list (string * value))
             (kw : Models.kwargs) (appt : Models.AppointmentDetails),
         utf8_decodes X raw = true ->
         json_loads X raw = ok (PDict items) ->
         assoc "message" items = None ->
         assoc "toolCall" items = None ->
         assoc "toolCallList" items = Some (PList []) ->
         spec_first_non_empty (spec_candidates (PDict items)) = Some (PDict args) ->
         List.filter (spec_absent_or_empty args) spec_required_fields = [] ->
         appointment_kwargs cfg (PDict args) = ok kw ->
         Models.new X cfg kw = ok appt ->
         token_store st !! "default" = None ->
         book_appointment_tool X cfg raw st
         = (ok (spec_envelope PNone
                  (PStr "Something went wrong on our end. I'll try once more.")),
            st)).
Proof.
  split.
  - intros raw st body id args kw appt Hutf Hloads Hid Hargs Hmissing Hkw Hnew Htoken.
    apply (tool_catches raw st _ id
             (HTTPException 401 "Google Calendar not connected. Please authenticate first."));
      [exact Hutf|].
    rewrite (try_body_books raw st body id args Hloads Hid Hargs).
    rewrite (book_constructs args kw appt _ st Hmissing Hkw Hnew).
    unfold bind at 1, on_snd at 1. cbn [fst snd].
    unfold create_google_calendar_event, try_except, insert_event.
    unfold bind at 1, get_calendar_service at 1. unfold bind at 1, read at 1.
    cbn [token_store]. rewrite Htoken. reflexivity.
  - intros raw st items args kw appt Hutf Hloads Hm Hc Hl _ _ _ _ _.
    exact (empty_list_stops_the_search raw st items Hutf Hloads Hm Hc Hl).
Qed.

Lemma insert_event_succeeds (appt : Models.AppointmentDetails) (st : state)
    (token : value) (start_dt end_dt : datetime X) (created : list (string * value)) :
  token_store st !! "default" = Some token ->
  build_service X token = ok tt ->
  localize X (Models.timezone appt)
    (Models.date appt +:+ "T" +:+ Models.time appt +:+ ":00") = ok start_dt ->
  add_minutes X start_dt (Models.duration_minutes appt) = ok end_dt ->
  events_insert X token (event_body X cfg appt start_dt end_dt) = ok (PDict created) ->
  let id := default PNone (assoc "id" created) in
  let link := default PNone (assoc "htmlLink" created) in
  create_google_calendar_event X cfg appt st
  = (ok (PDict [ ("success", PBool true); ("event_id", id); ("event_link", link);
                 ("start", PStr (isoformat X start_dt));
                 ("end", PStr (isoformat X end_dt)) ]),
     {| token_store := token_store st;
        booked_slots := booked_slots st ++ [slot_of X appt id link];
        trace := trace st ++ [events_insert_call (event_body X cfg appt start_dt end_dt)] |}).
Proof.
  intros Htoken Hbuild Hstart Hend Hinsert id link.
  unfold create_google_calendar_event, try_except, insert_event.
  unfold bind at 1, get_calendar_service at 1. unfold bind at 1, read at 1.
  rewrite Htoken. unfold bind at 1, lift at 1. rewrite Hbuild.
  change (ok tt) with (@inr exn unit tt). cbv iota beta. unfold ret at 1. cbv iota beta.
  unfold bind at 1, lift at 1. rewrite Hstart.
  change (ok start_dt) with (@inr exn (datetime X) start_dt). cbv iota beta.
  unfold bind at 1, lift at 1. rewrite Hend.
  change (ok end_dt) with (@inr exn (datetime X) end_dt). cbv iota beta zeta.
  unfold bind at 1, record_call at 1. cbv iota beta.
  unfold bind at 1, lift at 1. cbn [token_store booked_slots trace]. rewrite Hinsert.
  reflexivity.
Qed.

(** C4. For a request in which an identifier and an argument object are
    found: with valid arguments, a stored credential and a calendar that
    creates the event, the handler appends one slot to [booked_slots] (the
    event id and link of the created event, the name, email, phone, date,
    time and purpose of the appointment, and the UTC time of the append),
    leaves what was there before in place, and answers that the session is
    booked, naming the email address of the appointment. *)
Theorem booking_appends_one_slot (raw : string) (st : state) (body id : value)
    (args : list (string * value)) (kw : Models.kwargs) (appt : Models.AppointmentDetails)
    (token : value) (start_dt end_dt : datetime X) (created : list (string * value)) :
  utf8_decodes X raw = true ->
  json_loads X raw = ok body ->
  identifier_found body id ->
  arguments_found X body args ->
  List.filter (spec_absent_or_empty args) spec_required_fields = [] ->
  appointment_kwargs cfg (PDict args) = ok kw ->
  Models.new X cfg kw = ok appt ->
  token_store st !! "default" = Some token ->
  build_service X token = ok tt ->
  localize X (Models.timezone appt)
    (Models.date appt +:+ "T" +:+ Models.time appt +:+ ":00") = ok start_dt ->
  add_minutes X start_dt (Models.duration_minutes appt) = ok end_dt ->
  events_insert X token (event_body X cfg appt start_dt end_dt) = ok (PDict created) ->
  let slot := slot_of X appt (default PNone (assoc "id" created))
                (default PNone (assoc "htmlLink" created)) in
  book_appointment_tool X cfg raw st
  = (ok (spec_envelope id
           (PStr ("Your session is booked! A calendar invite has been sent to "
                  +:+ Models.email appt +:+ ". We look forward to speaking with you!"))),
     {| token_store := token_store st;
        booked_slots := booked_slots st ++ [slot];
        trace := trace st ++ [AppointmentDetails_call kw;
                              events_insert_call (event_body X cfg appt start_dt end_dt)] |})
  /\ length (booked_slots (snd (book_appointment_tool X cfg raw st)))
     = S (length (booked_slots st)).
Proof.
  intros Hutf Hloads Hid Hargs Hmissing Hkw Hnew Htoken Hbuild Hstart Hend Hinsert slot.
  match goal with |- ?l = ?r /\ _ => assert (l = r) as E end.
  { apply tool_returns with (fr := {| tool_call_id := Some id |}); [exact Hutf|].
    rewrite (try_body_books raw st body id args Hloads Hid Hargs).
    rewrite (book_constructs args kw appt _ st Hmissing Hkw Hnew).
    unfold bind at 1, on_snd at 1. cbn [fst snd].
    rewrite (insert_event_succeeds appt
               {| token_store := token_store st;
                  booked_slots := booked_slots st;
                  trace := trace st ++ [AppointmentDetails_call kw] |}
               token start_dt end_dt created Htoken Hbuild Hstart Hend Hinsert).
    cbn [token_store booked_slots trace]. rewrite <- app_assoc. reflexivity. }
  split; [exact E|]. rewrite E. cbn [snd booked_slots]. rewrite length_app. simpl. lia.
Qed.

(** ** Errors of the calendar provider *)

(** An exception leaves the [try] block of the calendar helper before
    anything is appended. *)
Lemma insert_event_raises (appt : Models.AppointmentDetails) (st st' : state) (e : exn) :
  insert_event X cfg appt st = (throw e, st') ->
  booked_slots st' = booked_slots st /\ token_store st' = token_store st.
Proof.
  unfold insert_event, get_calendar_service, bind, read, lift, ret, raise,
    record_call, append_slot, throw.
  destruct (token_store st !! "default") as [token|]; [|now intros [= <- <-]].
  destruct (build_service X token) as [e0|[]]; [now intros [= <- <-]|].
  destruct (localize X _ _) as [e0|start_dt]; [now intros [= <- <-]|].
  destruct (add_minutes X _ _) as [e0|end_dt]; [now intros [= <- <-]|].
  cbn [fst snd token_store booked_slots trace].
  destruct (events_insert X _ _) as [e0|created]; [now intros [= <- <-]|].
  destruct (get created "id" PNone) as [e0|id]; [now intros [= <- <-]|].
  destruct (get created "htmlLink" PNone) as [e0|link]; [now intros [= <- <-]|].
  discriminate.
Qed.

Lemma create_on_HttpError (appt : Models.AppointmentDetails) (st st' : state) (text : string) :
  insert_event X cfg appt st = (throw (HttpError text), st') ->
  create_google_calendar_event X cfg appt st = on_HttpError text st'.
Proof.
  intros E. unfold create_google_calendar_event, try_except. now rewrite E.
Qed.

(** C6. When the [try] block of [create_google_calendar_event] raises an
    [HttpError], the helper returns the permission-denied failure if "403"
    occurs in the text of the error, the time-slot-conflict failure if "409"
    occurs in it (and "403", which is looked for first, does not), and
    raises [HTTPException] with status 500 in every other case; nothing is
    appended to [booked_slots].  So the helper returns a value for a provider
    error exactly when "403" or "409" occurs in its text. *)
Theorem provider_errors_403_409 (appt : Models.AppointmentDetails) (st st' : state)
    (text : string) :
  insert_event X cfg appt st = (throw (HttpError text), st') ->
  booked_slots st' = booked_slots st
  /\ (occurs "403" text ->
        create_google_calendar_event X cfg appt st
        = (ok (PDict [ ("success", PBool false);
                       ("error", PStr "Calendar permission denied. Please re-authenticate.") ]),
           st'))
  /\ (~ occurs "403" text -> occurs "409" text ->
        create_google_calendar_event X cfg appt st
        = (ok (PDict [ ("success", PBool false);
                       ("error", PStr "Time slot conflict detected.") ]), st'))
  /\ (~ occurs "403" text -> ~ occurs "409" text ->
        create_google_calendar_event X cfg appt st
        = (throw (HTTPException 500 ("Calendar error: " +:+ text)), st'))
  /\ ((exists v, create_google_calendar_event X cfg appt st = (ok v, st'))
      <-> occurs "403" text \/ occurs "409" text).
Proof.
  intros E. split; [apply (insert_event_raises _ _ _ _ E)|].
  rewrite (create_on_HttpError appt st st' text E).
  rewrite <- !str_contains_false_iff, <- !str_contains_iff.
  unfold on_HttpError, ret, raise, permission_denied, slot_conflict, ok, throw.
  destruct (str_contains "403" text), (str_contains "409" text);
    repeat split; intros; try discriminate; try reflexivity; auto;
    try (now eexists);
    match goal with
    | H : exists _, _ |- _ => destruct H; discriminate
    | H : _ \/ _ |- _ => destruct H; discriminate
    end.
Qed.

(** An exception of another class is passed on as it is. *)
Lemma other_errors_pass (appt : Models.AppointmentDetails) (st st' : state) (e : exn) :
  insert_event X cfg appt st = (throw e, st') ->
  (forall text, e <> HttpError text) ->
  create_google_calendar_event X cfg appt st = (throw e, st').
Proof.
  intros E Hne. unfold create_google_calendar_event, try_except. rewrite E.
  destruct e; try reflexivity. now destruct (Hne text).
Qed.

(** X2. During a tool call, a provider error that is neither a 403 nor a
    409 does not abort the request: the [HTTPException] that the calendar
    helper raises is caught by the handler's [except HTTPException] clause,
    and the handler returns the envelope with "Calendar error: " and the
    text of the error; no slot is appended.  The framework sends the
    envelope with status 200, unless the identifier or the text of the
    error holds what JSON or UTF-8 cannot carry (a float that is an infinity
    or a NaN, a lone surrogate): then the caller gets status 500. *)
Theorem unclassified_provider_error_is_answered (raw : string) (st st' : state)
    (body id : value) (args : list (string * value)) (kw : Models.kwargs)
    (appt : Models.AppointmentDetails) (text : string) :
  utf8_decodes X raw = true ->
  json_loads X raw = ok body ->
  identifier_found body id ->
  arguments_found X body args ->
  List.filter (spec_absent_or_empty args) spec_required_fields = [] ->
  appointment_kwargs cfg (PDict args) = ok kw ->
  Models.new X cfg kw = ok appt ->
  insert_event X cfg appt
    {| token_store := token_store st;
       booked_slots := booked_slots st;
       trace := trace st ++ [AppointmentDetails_call kw] |}
  = (throw (HttpError text), st') ->
  ~ occurs "403" text ->
  ~ occurs "409" text ->
  book_appointment_tool X cfg raw st
  = (ok (spec_envelope id (PStr ("Calendar error: " +:+ text))), st')
  /\ status_code (fst (book_appointment_tool X cfg raw st))
     = (if json_compliant id && json_compliant (PStr ("Calendar error: " +:+ text))
        then 200 else 500)
  /\ booked_slots st' = booked_slots st.
Proof.
  intros Hutf Hloads Hid Hargs Hmissing Hkw Hnew E H403 H409.
  match goal with |- ?l = ?r /\ _ => assert (l = r) as Eq end;
    [|split; [exact Eq|]; split;
      [rewrite Eq; apply envelope_status | apply (insert_event_raises _ _ _ _ E)]].
  apply (tool_catches raw st _ id (HTTPException 500 ("Calendar error: " +:+ text)));
    [exact Hutf|].
  rewrite (try_body_books raw st body id args Hloads Hid Hargs).
  rewrite (book_constructs args kw appt _ st Hmissing Hkw Hnew).
  unfold bind at 1, on_snd at 1. cbn [fst snd].
  rewrite (create_on_HttpError appt _ st' text E).
  apply str_contains_false_iff in H403, H409.
  unfold on_HttpError. rewrite H403, H409. reflexivity.
Qed.

(** The first shape of the envelope: an identifier and an argument object
    under [message.toolCallList[0]] are found by the two searches. *)
Lemma message_envelope_is_found (items message call function : list (string * value))
    (rest : list value) (id : value) (args : list (string * value)) :
  assoc "message" items = Some (PDict message) ->
  assoc "toolCallList" message = Some (PList (PDict call :: rest)) ->
  assoc "id" call = Some id ->
  truthy id = true ->
  assoc "function" call = Some (PDict function) ->
  assoc "arguments" function = Some (PDict args) ->
  args <> [] ->
  identifier_found (PDict items) id /\ arguments_found X (PDict items) args.
Proof.
  intros Hm Hl Hi Ht Hf Ha Hne. split.
  - unfold identifier_found, extract_tool_call_id.
    rewrite bind_assign_tool_call_id.
    unfold bind, lift, ret, assign_tool_call_id, write, read_tool_call_id, not_and,
      py_in, getitem, get, getitem0, ok, throw.
    rewrite Hm. cbn. rewrite Hl. cbn. rewrite Hi. cbn. rewrite Ht. cbn.
    rewrite Ht. reflexivity.
  - exists (PDict args). split; [|split; [|now left]].
    + unfold extract_args, not_and, rbind, py_in, getitem, get, getitem0, ok, throw.
      rewrite Hm. cbn. rewrite Hl. cbn. rewrite Hf. cbn. rewrite Ha.
      destruct args; [contradiction | reflexivity].
    + destruct args; [contradiction | reflexivity].
Qed.

End Facts.

(** ** The order in which the arguments are looked for *)

Lemma first_truthy_app (l1 l2 : list (option value)) :
  spec_first_non_empty (l1 ++ l2)
  = match spec_first_non_empty l1 with Some v => Some v | None => spec_first_non_empty l2 end.
Proof.
  induction l1 as [|[v|] l1 IH]; simpl; [reflexivity | | exact IH].
  destruct (truthy v); [reflexivity | exact IH].
Qed.

Lemma settled_keep (seen : list (option value)) (args : value) (c : option value) :
  settled seen args -> truthy args = true -> settled (seen ++ [c]) args.
Proof.
  unfold settled. intros H Ht. rewrite first_truthy_app, H, Ht. reflexivity.
Qed.

Lemma settled_skip (seen : list (option value)) (args : value) :
  settled seen args -> truthy args = false -> settled (seen ++ [None]) args.
Proof.
  unfold settled. intros H Ht. rewrite first_truthy_app, H, Ht. reflexivity.
Qed.

Lemma settled_take (seen : list (option value)) (args a : value) (c : option value) :
  settled seen args -> truthy args = false -> agrees c a -> settled (seen ++ [c]) a.
Proof.
  unfold settled. intros H Ht Hc. rewrite first_truthy_app, H, Ht.
  destruct Hc as [-> | [-> ->]]; simpl; [|reflexivity].
  destruct (truthy a); reflexivity.
Qed.

Lemma rbind_ok {A B : Type} (r : result A) (k : A -> result B) (b : B) :
  rbind r k = ok b -> exists a, r = ok a /\ k a = ok b.
Proof. destruct r as [e|a]; [discriminate|]. intros H. now exists a. Qed.

(** [holder.get("function", {}).get("arguments")]. *)
Lemma function_arguments_agree (holder a : value) :
  (let? function := get holder "function" (PDict []) in get function "arguments" PNone) = ok a ->
  agrees (locate [key "function"; key "arguments"] holder) a.
Proof.
  destruct holder; try discriminate. simpl.
  destruct (assoc "function" items) as [[]|]; try discriminate; simpl.
  - destruct (assoc "arguments" items0); intros [= <-]; [now left | now right].
  - intros [= <-]. now right.
Qed.

Section Order.
Variable items : list (string * value).

Lemma via_message (a : value) :
  (let? has_message := py_in "message" (PDict items) in
   if has_message
   then let? message := getitem (PDict items) "message" in
        let? tool_call_list := get message "toolCallList" (PList []) in
        if truthy tool_call_list
        then let? first := getitem0 tool_call_list in
             let? function := get first "function" (PDict []) in
             get function "arguments" PNone
        else ok PNone
   else ok PNone) = ok a ->
  agrees (locate [key "message"; key "toolCallList"; first_item; key "function";
                  key "arguments"] (PDict items)) a.
Proof.
  cbn [py_in getitem rbind ok locate].
  destruct (assoc "message" items) as [message|]; [|intros [= <-]; now right].
  destruct message; try discriminate. cbn [get rbind ok].
  destruct (assoc "toolCallList" items0) as [tool_call_list|];
    [|intros [= <-]; now right].
  destruct (truthy tool_call_list) eqn:Ht.
  - destruct tool_call_list as [| | | | [|c t] | [|first rest] |];
      cbn [getitem0 rbind ok throw get]; try discriminate.
    apply function_arguments_agree.
  - intros [= <-]. right. split; [|reflexivity].
    destruct tool_call_list as [| | | | | [|first rest] |]; try reflexivity. discriminate.
Qed.

Lemma via_toolCall (a : value) :
  (let? toolCall := getitem (PDict items) "toolCall" in
   let? function := get toolCall "function" (PDict []) in
   get function "arguments" PNone) = ok a ->
  agrees (locate [key "toolCall"; key "function"; key "arguments"] (PDict items)) a.
Proof.
  cbn [getitem rbind ok locate].
  destruct (assoc "toolCall" items) as [toolCall|]; [|discriminate].
  apply function_arguments_agree.
Qed.

Lemma via_toolCallList (a : value) :
  (let? toolCallList := getitem (PDict items) "toolCallList" in
   let? first := getitem0 toolCallList in
   let? function := get first "function" (PDict []) in
   get function "arguments" PNone) = ok a ->
  agrees (locate [key "toolCallList"; first_item; key "function"; key "arguments"] (PDict items)) a.
Proof.
  cbn [getitem rbind ok locate].
  destruct (assoc "toolCallList" items) as [toolCallList|]; [|discriminate].
  destruct toolCallList as [| | | | [|c t] | [|first rest] |];
    cbn [getitem0 rbind ok throw get]; try discriminate.
  apply function_arguments_agree.
Qed.

Lemma via_function (a : value) :
  (let? function := getitem (PDict items) "function" in get function "arguments" PNone) = ok a ->
  agrees (locate [key "function"; key "arguments"] (PDict items)) a.
Proof.
  cbn [getitem rbind ok locate].
  destruct (assoc "function" items) as [function|]; [|discriminate].
  destruct function; cbn [get rbind ok throw]; try discriminate.
  destruct (assoc "arguments" items0); intros [= <-];
    [left; reflexivity | right; split; reflexivity].
Qed.

Lemma absent_key (k : string) (rest : list step) :
  py_in k (PDict items) = ok false -> locate (key k :: rest) (PDict items) = None.
Proof.
  cbn [py_in locate ok]. destruct (assoc k items); [discriminate | reflexivity].
Qed.

(** One [if not args and k in (PDict items): args = ...] block. *)
Lemma next_place (k : string) (rest : list step) (seen : list (option value))
    (look : result value) (args a : value) :
  (forall a', look = ok a' -> agrees (locate (key k :: rest) (PDict items)) a') ->
  settled seen args ->
  (let? has := not_and args (py_in k (PDict items)) in if has then look else ok args) = ok a ->
  settled (seen ++ [locate (key k :: rest) (PDict items)]) a.
Proof.
  intros Hlook Hseen H. apply rbind_ok in H as (has & Hhas & H).
  unfold not_and in Hhas. destruct (truthy args) eqn:Ht.
  - injection Hhas as <-. injection H as <-. now apply settled_keep.
  - destruct has.
    + apply settled_take with (args := args); auto.
    + injection H as <-. rewrite (absent_key k rest Hhas). now apply settled_skip.
Qed.

(** The code's search agrees with the ordered list of places. *)
Lemma extract_args_settled (a : value) :
  extract_args (PDict items) = ok a -> settled (spec_candidates (PDict items)) a.
Proof.
  unfold extract_args. intros H.
  apply rbind_ok in H as (has_message & H0 & H).
  apply rbind_ok in H as (args1 & H1 & H).
  apply rbind_ok in H as (has_toolCall & H2a & H).
  apply rbind_ok in H as (args2 & H2 & H).
  apply rbind_ok in H as (has_toolCallList & H3a & H).
  apply rbind_ok in H as (args3 & H3 & H).
  apply rbind_ok in H as (has_function & H4a & H).
  apply rbind_ok in H as (args4 & H4 & H).
  apply rbind_ok in H as (is_flat & H5 & H).
  injection H as <-.
  assert (settled [locate [key "message"; key "toolCallList"; first_item; key "function";
                           key "arguments"] (PDict items)] args1) as S1.
  { apply (settled_take [] PNone); [reflexivity | reflexivity |].
    apply via_message. rewrite H0. exact H1. }
  assert (settled ([locate [key "message"; key "toolCallList"; first_item; key "function";
                            key "arguments"] (PDict items)]
                   ++ [locate [key "toolCall"; key "function"; key "arguments"] (PDict items)])
            args2) as S2.
  { eapply next_place; [| exact S1 | rewrite H2a; exact H2]. intros a'. apply via_toolCall. }
  assert (settled (([locate [key "message"; key "toolCallList"; first_item; key "function";
                             key "arguments"] (PDict items)]
                    ++ [locate [key "toolCall"; key "function"; key "arguments"] (PDict items)])
                   ++ [locate [key "toolCallList"; first_item; key "function";
                               key "arguments"] (PDict items)])
            args3) as S3.
  { eapply next_place; [| exact S2 | rewrite H3a; exact H3].
    intros a'. apply via_toolCallList. }
  assert (settled ((([locate [key "message"; key "toolCallList"; first_item; key "function";
                              key "arguments"] (PDict items)]
                     ++ [locate [key "toolCall"; key "function"; key "arguments"] (PDict items)])
                    ++ [locate [key "toolCallList"; first_item; key "function";
                                key "arguments"] (PDict items)])
                   ++ [locate [key "function"; key "arguments"] (PDict items)])
            args4) as S4.
  { eapply next_place; [| exact S3 | rewrite H4a; exact H4]. intros a'. apply via_function. }
  unfold spec_candidates, spec_locations. cbn [map app] in *.
  change [?a1; ?a2; ?a3; ?a4; ?a5] with ([a1; a2; a3; a4] ++ [a5]).
  unfold not_and in H5. destruct (truthy args4) eqn:Ht.
  - injection H5 as <-. now apply settled_keep.
  - cbn [py_in rbind ok spec_flat] in *.
    destruct (assoc "name" items) as [n|] eqn:En.
    + destruct (assoc "email" items) as [e|] eqn:Ee; injection H5 as <-.
      * apply settled_take with (args := args4); auto. now left.
      * now apply settled_skip.
    + injection H5 as <-. now apply settled_skip.
Qed.

End Order.

Section Search.
Variable X : Externals.
Variable cfg : Config.settings.

Lemma empty_search_asks_again (raw : string) (st : state) (body id a : value) :
  utf8_decodes X raw = true ->
  json_loads X raw = ok body ->
  identifier_found body id ->
  extract_args body = ok a ->
  truthy a = false ->
  book_appointment_tool X cfg raw st
  = (ok (envelope id
           (PStr "I had trouble reading the booking details. Could you try again?")),
     st).
Proof.
  intros Hutf Hloads Hid Hargs Hempty.
  apply tool_returns with (fr := {| tool_call_id := Some id |}); [exact Hutf|].
  unfold try_body. unfold bind at 1, lift at 1. rewrite Hloads.
  change (ok body) with (@inr exn value body). cbv iota beta.
  unfold bind at 1, on_fst at 1. cbn [fst snd]. rewrite Hid.
  change (ok tt) with (@inr exn unit tt). cbv iota beta.
  unfold bind at 1, lift at 1. rewrite Hargs.
  change (ok a) with (@inr exn value a). cbv iota beta.
  rewrite Hempty. reflexivity.
Qed.

(** An object with none of the keys the searches look at. *)
Lemma nothing_to_find (items : list (string * value)) :
  assoc "message" items = None ->
  assoc "toolCall" items = None ->
  assoc "toolCallList" items = None ->
  assoc "function" items = None ->
  assoc "name" items = None \/ assoc "email" items = None ->
  identifier_found (PDict items) PNone /\ extract_args (PDict items) = ok PNone.
Proof.
  intros Hm Hc Hl Hf Hflat. split.
  - unfold identifier_found, extract_tool_call_id.
    rewrite bind_assign_tool_call_id.
    unfold bind, lift, ret, assign_tool_call_id, write, read_tool_call_id, not_and,
      py_in, ok.
    rewrite Hm, Hc, Hl. reflexivity.
  - unfold extract_args, not_and, rbind, py_in, ok.
    rewrite Hm, Hc, Hl, Hf. cbn.
    destruct Hflat as [-> | ->]; [reflexivity|].
    destruct (assoc "name" items); reflexivity.
Qed.

End Search.

End MainFacts.

(* ===================================================================== *)
(** * The theorems on the sample requests                                 *)
(* ===================================================================== *)

Module Examples.
Import Lib Main Notions TextFacts MainFacts.

Lemma john_identifier : identifier_found Sample.john_body (PStr "call_1").
Proof. reflexivity. Qed.

Lemma john_arguments_found (Y : Externals) :
  arguments_found Y Sample.john_body Sample.john_items.
Proof. exists Sample.john_arguments. repeat split. now left. Qed.

Lemma john_is_valid : Models.new Sample.X Sample.settings Sample.john_kwargs = ok Sample.john.
Proof. vm_compute. reflexivity. Qed.

(** The empty body: the route answers 500. *)
Lemma unparseable_body_is_not_absorbed_witness :
  book_appointment_tool Sample.X Sample.settings "" Sample.disconnected
  = (throw (UnboundLocalError "tool_call_id"), Sample.disconnected)
  /\ status_code (fst (book_appointment_tool Sample.X Sample.settings "" Sample.disconnected))
     = 500.
Proof.
  apply (unparseable_body_is_not_absorbed Sample.X Sample.settings "" Sample.disconnected
           (JSONDecodeError "Expecting value: line 1 column 1 (char 0)"));
    reflexivity.
Defined.

(** Yesterday's date (the day before [today] of the sample). *)
Lemma validate_date_past_says_format_witness :
  Models.validate_date Sample.X "2026-02-28"
  = throw (ValueError "Date must be in YYYY-MM-DD format")
  /\ Models.validate_date Sample.X "2026-02-28" <> throw (ValueError "Date must be in the future")
  /\ Models.field_text Sample.X (Models.validate_date Sample.X) (Some (PStr "2026-02-28"))
     = Invalid (value_error "Date must be in YYYY-MM-DD format").
Proof.
  apply (ModelsFacts.validate_date_past_says_format Sample.X "2026-02-28"
           {| year := 2026; month := 2; day := 28 |}); reflexivity.
Defined.

Lemma validate_config_reports_all_missing_witness :
  exists msg,
    Config.validate_config Sample.production = throw (ValueError msg)
    /\ msg = Config.failure_message
               (map Config.missing_line (spec_missing_settings Sample.production))
    /\ (forall n v, In (n, v) (Config.required_vars Sample.production) ->
                    Config.unset v = true -> occurs n msg)
    /\ (forall n, In (Config.missing_line n)
                    (map Config.missing_line (spec_missing_settings Sample.production)) ->
                  exists v, In (n, v) (Config.required_vars Sample.production)
                            /\ Config.unset v = true).
Proof.
  apply (proj1 (ConfigFacts.validate_config_reports_all_missing Sample.production));
    [reflexivity | vm_compute; discriminate].
Defined.

Lemma booking_appends_one_slot_witness :
  let slot := slot_of Sample.X Sample.john (PStr "evt_1")
                (PStr "https://www.google.com/calendar/event?eid=evt_1") in
  let start_dt : datetime Sample.X := "2026-03-15T14:00:00[America/Los_Angeles]" in
  let end_dt : datetime Sample.X := "2026-03-15T14:00:00[America/Los_Angeles]+PT60M" in
  book_appointment_tool Sample.X Sample.settings Sample.john_request Sample.connected
  = (ok (spec_envelope (PStr "call_1")
           (PStr "Your session is booked! A calendar invite has been sent to john@example.com. We look forward to speaking with you!")),
     {| token_store := token_store Sample.connected;
        booked_slots := [slot];
        trace := [AppointmentDetails_call Sample.john_kwargs;
                  events_insert_call
                    (event_body Sample.X Sample.settings Sample.john start_dt end_dt)] |})
  /\ length (booked_slots (snd (book_appointment_tool Sample.X Sample.settings Sample.john_request
                                  Sample.connected))) = 1%nat.
Proof.
  exact (booking_appends_one_slot Sample.X Sample.settings Sample.john_request Sample.connected
           Sample.john_body (PStr "call_1") _ Sample.john_kwargs Sample.john Sample.token
           "2026-03-15T14:00:00[America/Los_Angeles]"
           "2026-03-15T14:00:00[America/Los_Angeles]+PT60M"
           [ ("id", PStr "evt_1");
             ("htmlLink", PStr "https://www.google.com/calendar/event?eid=evt_1") ]
           eq_refl eq_refl john_identifier (john_arguments_found Sample.X) eq_refl eq_refl
           john_is_valid eq_refl eq_refl eq_refl eq_refl eq_refl).
Defined.

Lemma john_is_valid_again :
  Models.new MoreSample.X Sample.settings Sample.john_kwargs = ok Sample.john.
Proof. vm_compute. reflexivity. Qed.

(** John's request without a credential; and John's arguments behind an
    empty list of tool calls, without a credential. *)
Lemma missing_credential_is_reported_unless_the_search_fails_witness :
  book_appointment_tool MoreSample.X Sample.settings Sample.john_request Sample.disconnected
  = (ok (spec_envelope (PStr "call_1")
           (PStr "Google Calendar not connected. Please authenticate first.")),
     {| token_store := ∅;
        booked_slots := [];
        trace := [AppointmentDetails_call Sample.john_kwargs] |})
  /\ book_appointment_tool MoreSample.X Sample.settings MoreSample.empty_list_request
       Sample.disconnected
     = (ok (spec_envelope PNone
              (PStr "Something went wrong on our end. I'll try once more.")),
        Sample.disconnected).
Proof.
  destruct (missing_credential_is_reported_unless_the_search_fails MoreSample.X
              Sample.settings) as [Hreported Hfails].
  split.
  - exact (Hreported Sample.john_request Sample.disconnected Sample.john_body (PStr "call_1")
             Sample.john_items Sample.john_kwargs Sample.john
             eq_refl eq_refl john_identifier (john_arguments_found MoreSample.X)
             eq_refl eq_refl john_is_valid_again eq_refl).
  - exact (Hfails MoreSample.empty_list_request Sample.disconnected
             MoreSample.empty_list_items Sample.john_items Sample.john_kwargs Sample.john
             eq_refl eq_refl eq_refl eq_refl eq_refl eq_refl eq_refl eq_refl
             john_is_valid_again eq_refl).
Defined.

Lemma provider_errors_403_409_witness :
  let st' := {| token_store := token_store Sample.connected;
                booked_slots := [];
                trace := [events_insert_call
                            (event_body Sample.X_conflict Sample.settings Sample.john
                               "2026-03-15T14:00:00[America/Los_Angeles]"
                               "2026-03-15T14:00:00[America/Los_Angeles]+PT60M")] |} in
  booked_slots st' = booked_slots Sample.connected
  /\ create_google_calendar_event Sample.X_conflict Sample.settings Sample.john Sample.connected
     = (ok (PDict [ ("success", PBool false);
                    ("error", PStr "Time slot conflict detected.") ]), st').
Proof.
  intros st'.
  pose proof (provider_errors_403_409 Sample.X_conflict Sample.settings Sample.john
                Sample.connected st' Sample.conflict_text eq_refl) as (Hslots & _ & H409 & _).
  split; [exact Hslots|].
  apply H409.
  - apply str_contains_false_iff. reflexivity.
  - apply str_contains_iff. reflexivity.
Defined.

Lemma no_phone_arguments_found :
  arguments_found Sample.X Sample.no_phone_body
    [ ("name", PStr "John Doe"); ("email", PStr "john@example.com");
      ("date", PStr "2026-03-15"); ("time", PStr "") ].
Proof. eexists. repeat split. now left. Qed.

Lemma missing_fields_are_listed_witness :
  book_appointment_tool Sample.X Sample.settings Sample.no_phone_request Sample.disconnected
  = (ok (spec_envelope (PStr "call_2")
           (PStr "I'm missing phone, time. Could you provide those?")),
     Sample.disconnected).
Proof.
  refine (proj1 (missing_fields_are_listed Sample.X Sample.settings Sample.no_phone_request
                   Sample.disconnected Sample.no_phone_body (PStr "call_2") _
                   eq_refl eq_refl eq_refl no_phone_arguments_found _)).
  exists "phone". split; [right; now left | reflexivity].
Defined.


(** A float that stands for an integer is taken as that integer and meets
    the same bounds; a text is not compared. *)
Lemma duration_of_other_inputs :
  Models.field_duration_minutes Sample.X (Some (PFloat 60%float)) = Valid (Int 60)
  /\ Models.field_duration_minutes Sample.X (Some (PFloat 1000%float))
     = Invalid (less_than_equal 480)
  /\ Models.field_duration_minutes Sample.X (Some (PStr "45"))
     = Raises (TypeError "Unable to apply constraint 'ge' to supplied value 45").
Proof. repeat split; vm_compute; reflexivity. Qed.

(** C10, as stated, fails: the appointment that the constructor accepted for
    John has its date replaced by a day in the past, which [validate_date]
    refuses. *)
Lemma constructed_appointment_is_not_immutable :
  Models.new Sample.X Sample.settings Sample.john_kwargs = ok Sample.john
  /\ exists changed,
       Models.setattr Models.model_config Sample.john (Models.set_date "1999-12-31")
       = ok changed
       /\ Models.date changed = "1999-12-31"
       /\ Models.date changed <> Models.date Sample.john
       /\ Models.validate_date Sample.X "1999-12-31"
          = throw (ValueError "Date must be in YYYY-MM-DD format").
Proof.
  split; [exact john_is_valid|]. eexists. split; [reflexivity|].
  split; [reflexivity|]. split; [discriminate | reflexivity].
Qed.

Lemma unclassified_provider_error_is_answered_witness :
  let st' := {| token_store := token_store Sample.connected;
                booked_slots := [];
                trace := [AppointmentDetails_call Sample.john_kwargs;
                          events_insert_call
                            (event_body Sample.X_quota Sample.settings Sample.john
                               "2026-03-15T14:00:00[America/Los_Angeles]"
                               "2026-03-15T14:00:00[America/Los_Angeles]+PT60M")] |} in
  book_appointment_tool Sample.X_quota Sample.settings Sample.john_request Sample.connected
  = (ok (spec_envelope (PStr "call_1") (PStr ("Calendar error: " +:+ Sample.quota_text))),
     st')
  /\ status_code (fst (book_appointment_tool Sample.X_quota Sample.settings
                         Sample.john_request Sample.connected))
     = 200
  /\ booked_slots st' = booked_slots Sample.connected.
Proof.
  intros st'.
  refine (unclassified_provider_error_is_answered Sample.X_quota Sample.settings
            Sample.john_request Sample.connected st' Sample.john_body (PStr "call_1")
            Sample.john_items Sample.john_kwargs Sample.john Sample.quota_text
            eq_refl eq_refl john_identifier (john_arguments_found Sample.X_quota)
            eq_refl eq_refl _ eq_refl _ _).
  - vm_compute. reflexivity.
  - apply str_contains_false_iff. reflexivity.
  - apply str_contains_false_iff. reflexivity.
Defined.

End Examples.

(* ===================================================================== *)
(** * More about the tool endpoint                                        *)
(* ===================================================================== *)

Module HandlerFacts.
Import Lib Main Notions Views TextFacts MainFacts.

Section Facts.
Variable X : Externals.
Variable cfg : Config.settings.

Lemma vapi_response_state (message : value) (s s' : frame * state) (r : result value) :
  vapi_response message s = (r, s') -> s' = s.
Proof.
  destruct s as [fr st]. unfold vapi_response, bind, on_fst, read_tool_call_id, ret.
  cbn [fst snd]. destruct (tool_call_id fr); cbv beta iota; now intros [= <- <-].
Qed.

Lemma vapi_response_bound (message id : value) (st : state) :
  vapi_response message ({| tool_call_id := Some id |}, st)
  = (ok (envelope id message), ({| tool_call_id := Some id |}, st)).
Proof. reflexivity. Qed.

Lemma on_exception_state (e : exn) (s s' : frame * state) (r : result value) :
  on_exception X e s = (r, s') -> s' = s.
Proof.
  destruct s as [fr st]. unfold on_exception, bind, on_fst, read_tool_call_id, ret.
  destruct (is_ValueError e); [|destruct e]; cbv beta zeta; cbn [fst snd];
    destruct (tool_call_id fr); cbv beta iota; now intros [= <- <-].
Qed.

(** How the [try] block of the calendar helper can end. *)
Lemma insert_event_cases (appt : Models.AppointmentDetails) (st st' : state)
    (r : result value) :
  insert_event X cfg appt st = (r, st') ->
  (st' = st /\ exists e, r = throw e)
  \/ (exists token start_dt end_dt,
         token_store st !! "default" = Some token
         /\ st' = with_calls st [events_insert_call (event_body X cfg appt start_dt end_dt)]
         /\ exists e, r = throw e)
  \/ (exists token start_dt end_dt created_id link,
         token_store st !! "default" = Some token
         /\ st' = {| token_store := token_store st;
                     booked_slots := booked_slots st ++ [slot_of X appt created_id link];
                     trace := trace st ++ [events_insert_call
                                             (event_body X cfg appt start_dt end_dt)] |}
         /\ r = ok (PDict [ ("success", PBool true); ("event_id", created_id);
                            ("event_link", link);
                            ("start", PStr (isoformat X start_dt));
                            ("end", PStr (isoformat X end_dt)) ])).
Proof.
  unfold insert_event, get_calendar_service, bind, read, lift, ret, raise,
    record_call, append_slot, throw.
  destruct (token_store st !! "default") as [token|] eqn:Htoken;
    [|intros [= <- <-]; left; eauto].
  destruct (build_service X token) as [e0|[]]; [intros [= <- <-]; left; eauto|].
  destruct (localize X _ _) as [e0|start_dt]; [intros [= <- <-]; left; eauto|].
  destruct (add_minutes X _ _) as [e0|end_dt]; [intros [= <- <-]; left; eauto|].
  cbn [fst snd token_store booked_slots trace].
  destruct (events_insert X _ _) as [e0|created];
    [intros [= <- <-]; right; left; exists token, start_dt, end_dt; eauto|].
  destruct (get created "id" PNone) as [e0|created_id];
    [intros [= <- <-]; right; left; exists token, start_dt, end_dt; eauto|].
  destruct (get created "htmlLink" PNone) as [e0|link];
    [intros [= <- <-]; right; left; exists token, start_dt, end_dt; eauto|].
  intros [= <- <-]. right; right. exists token, start_dt, end_dt, created_id, link.
  repeat split.
Qed.

(** The same for the helper as a whole: its [except] clause changes the
    result, never the state. *)
Lemma create_cases (appt : Models.AppointmentDetails) (st st' : state) (r : result value) :
  create_google_calendar_event X cfg appt st = (r, st') ->
  st' = st
  \/ (exists token start_dt end_dt,
         token_store st !! "default" = Some token
         /\ st' = with_calls st [events_insert_call (event_body X cfg appt start_dt end_dt)]
         /\ forall v, r = ok v -> v = permission_denied \/ v = slot_conflict)
  \/ (exists token start_dt end_dt created_id link,
         token_store st !! "default" = Some token
         /\ st' = {| token_store := token_store st;
                     booked_slots := booked_slots st ++ [slot_of X appt created_id link];
                     trace := trace st ++ [events_insert_call
                                             (event_body X cfg appt start_dt end_dt)] |}
         /\ r = ok (PDict [ ("success", PBool true); ("event_id", created_id);
                            ("event_link", link);
                            ("start", PStr (isoformat X start_dt));
                            ("end", PStr (isoformat X end_dt)) ])).
Proof.
  unfold create_google_calendar_event, try_except.
  destruct (insert_event X cfg appt st) as [r1 st1] eqn:E.
  assert (forall e, (match e with
                     | HttpError text => on_HttpError text
                     | _ => raise e
                     end) st1 = (r, st') ->
                    st' = st1
                    /\ forall v, r = ok v -> v = permission_denied \/ v = slot_conflict)
    as Hhandler.
  { intros e. destruct e; try (intros [= <- <-]; split; [reflexivity | discriminate]).
    unfold on_HttpError, ret, raise.
    destruct (str_contains "403" text); [|destruct (str_contains "409" text)];
      intros [= <- <-]; (split; [reflexivity|]); intros v; try discriminate;
      intros [= <-]; auto. }
  destruct (insert_event_cases appt st st1 r1 E)
    as [[-> [e ->]] | [(token & s & e' & Ht & -> & [e ->])
                      | (token & s & e' & cid & link & Ht & -> & ->)]].
  - intros H. left. now apply Hhandler in H as [-> _].
  - intros H. right; left. apply Hhandler in H as [-> Hv]. exists token, s, e'. auto.
  - intros [= <- <-]. right; right. exists token, s, e', cid, link. auto.
Qed.

Lemma with_calls_twice (st : state) (c1 c2 : list call) :
  with_calls (with_calls st c1) c2 = with_calls st (c1 ++ c2).
Proof. unfold with_calls. cbn. now rewrite app_assoc. Qed.

(** From the check of the required fields on. *)
Lemma book_effect (args id : value) (st : state) (r : result value) (s' : frame * state) :
  book X cfg args ({| tool_call_id := Some id |}, st) = (r, s') ->
  tool_effect X cfg st r (snd s').
Proof.
  unfold book. unfold bind at 1, lift at 1.
  destruct (missing_fields args required_fields) as [e|[|m ms]].
  - intros [= <- <-]. now apply untouched.
  - unfold bind at 1, lift at 1.
    destruct (appointment_kwargs cfg args) as [e|kw] eqn:Hkw;
      [intros [= <- <-]; now apply untouched|].
    unfold bind at 1, on_snd at 1, record_call at 1. cbn [fst snd].
    unfold bind at 1, lift at 1.
    destruct (Models.new X cfg kw) as [e|appt] eqn:Hnew;
      [intros [= <- <-]; now apply (constructed X cfg st _ _ args kw)|].
    unfold bind at 1, on_snd at 1. cbn [fst snd].
    change {| token_store := token_store st; booked_slots := booked_slots st;
              trace := trace st ++ [AppointmentDetails_call kw] |}
      with (with_calls st [AppointmentDetails_call kw]).
    destruct (create_google_calendar_event X cfg appt
                (with_calls st [AppointmentDetails_call kw])) as [rc st1] eqn:Hc.
    apply create_cases in Hc.
    assert (forall r0 s0,
               (let* success := lift (get r0 "success" PNone) in
                if negb (truthy success)
                then let* error :=
                       lift (get r0 "error"
                               (PStr "Failed to create calendar event. Please try again.")) in
                     vapi_response error
                else vapi_response (PStr (booked_message (Models.email appt))))
                 ({| tool_call_id := Some id |}, st1) = (r, s0) ->
               snd s0 = st1) as Hrest.
    { intros r0 s0. unfold bind at 1, lift at 1.
      destruct (get r0 "success" PNone) as [e|success]; [now intros [= <- <-]|].
      destruct (negb (truthy success)).
      - unfold bind at 1, lift at 1.
        destruct (get r0 "error" _) as [e|error]; [now intros [= <- <-]|].
        intros H. now apply vapi_response_state in H as ->.
      - intros H. now apply vapi_response_state in H as ->. }
    destruct Hc as [-> | [(token & s & e' & Ht & -> & _)
                         | (token & s & e' & cid & link & Ht & -> & ->)]].
    + destruct rc as [e|result].
      * intros [= <- <-]. now apply (constructed X cfg st _ _ args kw).
      * intros H. apply Hrest in H. now apply (constructed X cfg st _ _ args kw).
    + assert (forall s0 : frame * state, snd s0 = with_calls (with_calls st [AppointmentDetails_call kw])
                                    [events_insert_call (event_body X cfg appt s e')] ->
                         tool_effect X cfg st r (snd s0)) as Hdone.
      { intros s0 ->. rewrite with_calls_twice.
        now apply (requested X cfg st _ _ args kw appt token s e'). }
      destruct rc as [e|result].
      * intros [= <- <-]. now apply Hdone.
      * intros H. apply Hrest in H. now apply Hdone.
    + unfold bind at 1, lift at 1. cbn -[vapi_response booked_message].
      rewrite vapi_response_bound. intros [= <- <-]. cbn [snd].
      apply (booked X cfg st _ _ args kw appt token s e' cid link id); auto.
      cbn [with_calls token_store booked_slots trace]. now rewrite <- app_assoc.
  - intros H. apply vapi_response_state in H as ->. now apply untouched.
Qed.

Lemma try_body_effect (raw : string) (st : state) (r : result value) (s' : frame * state) :
  try_body X cfg raw ({| tool_call_id := None |}, st) = (r, s') ->
  tool_effect X cfg st r (snd s').
Proof.
  unfold try_body. unfold bind at 1, lift at 1.
  destruct (json_loads X raw) as [e|body]; [intros [= <- <-]; now apply untouched|].
  unfold bind at 1, on_fst at 1. cbn [fst snd].
  destruct (extract_tool_call_id body {| tool_call_id := None |}) as [r1 fr1] eqn:E1.
  pose proof (extract_tool_call_id_binds body _ _ _ E1) as [id Hid].
  destruct fr1 as [current]. cbn in Hid. subst current.
  destruct r1 as [e|[]]; [intros [= <- <-]; now apply untouched|].
  unfold bind at 1, lift at 1.
  destruct (extract_args body) as [e|args]; [intros [= <- <-]; now apply untouched|].
  destruct (negb (truthy args)).
  { intros H. apply vapi_response_state in H as ->. now apply untouched. }
  destruct args; try apply book_effect.
  destruct (json_loads_str X s) as [[]|parsed];
    try (intros [= <- <-]; now apply untouched); apply book_effect.
Qed.

(** A result that is an exception goes with no appended slot, so the state
    stays described when the [except] clauses replace the result. *)
Lemma tool_effect_raised (st st' : state) (e : exn) (r : result value) :
  tool_effect X cfg st (throw e) st' -> tool_effect X cfg st r st'.
Proof.
  intros [H | args kw Hk H | args kw appt token s e' Hk Hn Ht H
          | args kw appt token s e' cid link id Hk Hn Ht H Hr].
  - now apply untouched.
  - now apply (constructed X cfg st _ _ args kw).
  - now apply (requested X cfg st _ _ args kw appt token s e').
  - discriminate.
Qed.

(** Whatever the request and whatever the libraries answer. *)
Lemma tool_effects (raw : string) (st : state) :
  tool_effect X cfg st (fst (book_appointment_tool X cfg raw st))
    (snd (book_appointment_tool X cfg raw st)).
Proof.
  unfold book_appointment_tool.
  destruct (utf8_decodes X raw); [|now apply untouched].
  unfold try_except.
  destruct (try_body X cfg raw ({| tool_call_id := None |}, st)) as [[e|v] [fr1 st1]] eqn:E;
    apply try_body_effect in E; cbn [snd] in E.
  - destruct (on_exception X e (fr1, st1)) as [r' [fr2 st2]] eqn:E2.
    apply on_exception_state in E2. injection E2 as -> ->. cbn [fst snd].
    now apply tool_effect_raised with (e := e).
  - exact E.
Qed.

(** X3. Whatever the request body and whatever the libraries answer, a
    tool call leaves [token_store] as it was, and leaves [booked_slots] as
    it was or with one slot more at its end; and it appends a slot only when
    the handler returns the confirmation that names the email address of
    that slot.  The framework sends that confirmation with status 200,
    unless the identifier it echoes or the address it names holds what JSON
    or UTF-8 cannot carry (a float that is an infinity or a NaN, a lone
    surrogate): then the slot is appended and the caller gets status 500. *)
Theorem tool_call_appends_at_most_one_slot (raw : string) (st : state) :
  let r := fst (book_appointment_tool X cfg raw st) in
  let st' := snd (book_appointment_tool X cfg raw st) in
  token_store st' = token_store st
  /\ (booked_slots st' = booked_slots st
      \/ exists slot id,
           let message := "Your session is booked! A calendar invite has been sent to "
                          +:+ BookedSlot.email slot
                          +:+ ". We look forward to speaking with you!" in
           booked_slots st' = booked_slots st ++ [slot]
           /\ r = ok (spec_envelope id (PStr message))
           /\ status_code r
              = if json_compliant id && json_compliant (PStr message) then 200 else 500).
Proof.
  intros r st'. subst r st'.
  destruct (tool_effects raw st)
    as [-> | args kw _ -> | args kw appt token s e' _ Hn Ht ->
        | args kw appt token s e' cid link id _ Hn Ht -> ->].
  - auto.
  - auto.
  - auto.
  - split; [reflexivity|]. right. exists (slot_of X appt cid link), id.
    split; [reflexivity|]. split; [reflexivity|]. apply envelope_status.
Qed.

(** X4. Whatever the request body and whatever the libraries answer, a
    tool call calls the constructor of [AppointmentDetails] at most once and
    asks the calendar to insert at most once; it asks the calendar only
    after the constructor has accepted the arguments and only when a
    credential is stored under "default", and what it asks to insert is the
    event of the accepted appointment. *)
Theorem tool_call_asks_the_calendar_at_most_once (raw : string) (st : state) :
  exists calls,
    trace (snd (book_appointment_tool X cfg raw st)) = trace st ++ calls
    /\ (calls = []
        \/ (exists kw, calls = [AppointmentDetails_call kw])
        \/ (exists kw appt token start_dt end_dt,
               calls = [AppointmentDetails_call kw;
                        events_insert_call (event_body X cfg appt start_dt end_dt)]
               /\ Models.new X cfg kw = ok appt
               /\ token_store st !! "default" = Some token)).
Proof.
  destruct (tool_effects raw st)
    as [-> | args kw _ -> | args kw appt token s e' _ Hn Ht ->
        | args kw appt token s e' cid link id _ Hn Ht -> _].
  - exists []. split; [now rewrite app_nil_r | auto].
  - exists [AppointmentDetails_call kw]. split; [reflexivity|]. right; left. now exists kw.
  - eexists. split; [reflexivity|]. right; right. exists kw, appt, token, s, e'. auto.
  - eexists. split; [reflexivity|]. right; right. exists kw, appt, token, s, e'. auto.
Qed.

(** ** What the constructor lets through *)

Lemma after_valid {A : Type} (r : result A) (a : A) :
  Models.after X r = Valid a -> r = ok a.
Proof.
  destruct r as [e|a']; cbn [Models.after]; [destruct (is_ValueError e); discriminate|].
  now intros [= ->].
Qed.

Lemma validate_phone_ok (v p : str_or_int) :
  Models.validate_phone X v = ok p -> phone_pattern_matches X (str_of p) = true.
Proof.
  unfold Models.validate_phone.
  destruct (phone_pattern_matches X (str_of v)) eqn:E; cbn [negb]; [|discriminate].
  now intros [= <-].
Qed.

Lemma then_validate_phone (o : outcome str_or_int) (p : str_or_int) :
  Models.then_validate X o (Models.validate_phone X) = Valid p ->
  phone_pattern_matches X (str_of p) = true.
Proof.
  destruct o; cbn [Models.then_validate]; try discriminate.
  intros H. apply after_valid in H. now apply validate_phone_ok in H.
Qed.

Lemma new_validated (kw : Models.kwargs) (appt : Models.AppointmentDetails) :
  Models.new X cfg kw = ok appt ->
  validated X appt
  /\ (pytz_timezone X (Models.timezone appt) = true
      \/ (Models.kw_timezone kw = None
          /\ Models.timezone appt = Config.DEFAULT_TIMEZONE cfg)).
Proof.
  intros H.
  destruct (ModelsFacts.new_ok_inv X cfg kw appt H)
    as (Hname & Hphone & Hemail & Hdate & Htime & Hpurpose & Hzone & _).
  repeat split.
  - unfold Models.field_name in Hname.
    destruct (Models.kw_name kw) as [[]|]; try discriminate.
    destruct (str_len s <? 2)%Z eqn:E1; [discriminate|].
    destruct (100 <? str_len s)%Z eqn:E2; [discriminate|].
    injection Hname as <-. lia.
  - unfold Models.field_name in Hname.
    destruct (Models.kw_name kw) as [[]|]; try discriminate.
    destruct (str_len s <? 2)%Z eqn:E1; [discriminate|].
    destruct (100 <? str_len s)%Z eqn:E2; [discriminate|].
    injection Hname as <-. lia.
  - unfold Models.field_phone in Hphone.
    destruct (Models.kw_phone kw) as [v|]; [|discriminate].
    destruct v; now apply then_validate_phone in Hphone.
  - unfold Models.field_email in Hemail.
    destruct (Models.kw_email kw) as [[]|]; try discriminate.
    destruct (validate_email X s) as [address|] eqn:E; [|discriminate].
    injection Hemail as <-. now exists s.
  - unfold Models.field_text in Hdate.
    destruct (Models.kw_date kw) as [[]|]; try discriminate.
    apply after_valid in Hdate. unfold Models.validate_date in Hdate.
    destruct (strptime_date X s) as [d|] eqn:E; cbn in Hdate; [|discriminate].
    destruct (date_ltb d (today X)) eqn:El; cbn in Hdate; [discriminate|].
    injection Hdate as <-. now exists d.
  - unfold Models.field_text in Htime.
    destruct (Models.kw_time kw) as [[]|]; try discriminate.
    apply after_valid in Htime. unfold Models.validate_time in Htime.
    destruct (strptime_time X s) eqn:E; cbn in Htime; [|discriminate].
    now injection Htime as <-.
  - intros p Hp. unfold Models.field_purpose in Hpurpose.
    destruct (Models.kw_purpose kw) as [[]|]; try discriminate.
    + injection Hpurpose as Hq. congruence.
    + destruct (200 <? str_len s)%Z eqn:E; [discriminate|].
      injection Hpurpose as Hq. rewrite <- Hq in Hp. injection Hp as <-. lia.
    + injection Hpurpose as Hq. rewrite <- Hq in Hp. injection Hp as <-.
      vm_compute. discriminate.
  - unfold Models.field_timezone in Hzone.
    destruct (Models.kw_timezone kw) as [[]|]; try discriminate.
    + apply after_valid in Hzone. unfold Models.validate_timezone in Hzone.
      destruct (pytz_timezone X s) eqn:E; [|discriminate].
      injection Hzone as <-. now left.
    + injection Hzone as <-. right. now split.
Qed.

Lemma appointment_kwargs_passes_timezone (args : value) (kw : Models.kwargs) :
  appointment_kwargs cfg args = ok kw -> Models.kw_timezone kw <> None.
Proof.
  destruct args; try discriminate.
  rewrite ModelsFacts.appointment_kwargs_dict. now intros [= <-].
Qed.

(** X5. An appointment that the constructor returns satisfies the
    constraints of the class: the name has 2 to 100 characters, the phone
    number matches the pattern, the email address is what [EmailStr] made of
    some text, the date parses and is not before today, the time parses, a
    purpose has at most 200 characters; and the time zone is known to pytz,
    unless no time zone was passed, in which case it is [DEFAULT_TIMEZONE],
    unchecked. *)
Theorem constructed_appointment_is_validated (kw : Models.kwargs)
    (appt : Models.AppointmentDetails) :
  Models.new X cfg kw = ok appt ->
  validated X appt
  /\ (pytz_timezone X (Models.timezone appt) = true
      \/ (Models.kw_timezone kw = None
          /\ Models.timezone appt = Config.DEFAULT_TIMEZONE cfg)).
Proof. exact (new_validated kw appt). Qed.

(** X6. Whatever the request body and whatever the libraries answer, every
    event that a tool call asks the calendar to insert is the event of an
    appointment that satisfies the constraints of the class and whose time
    zone is known to pytz: the handler always passes a time zone to the
    constructor, so the unchecked default of the class is never used. *)
Theorem calendar_is_asked_for_validated_appointments (raw : string) (st : state) :
  exists calls,
    trace (snd (book_appointment_tool X cfg raw st)) = trace st ++ calls
    /\ forall event,
         In (events_insert_call event) calls ->
         exists appt start_dt end_dt,
           event = event_body X cfg appt start_dt end_dt
           /\ validated X appt
           /\ pytz_timezone X (Models.timezone appt) = true.
Proof.
  assert (forall args kw appt,
             appointment_kwargs cfg args = ok kw -> Models.new X cfg kw = ok appt ->
             validated X appt /\ pytz_timezone X (Models.timezone appt) = true) as Hvalid.
  { intros args kw appt Hk Hn. apply new_validated in Hn as [Hv [Hz | [Hz _]]]; [easy|].
    now apply appointment_kwargs_passes_timezone in Hk. }
  destruct (tool_effects raw st)
    as [-> | args kw _ -> | args kw appt token s e' Hk Hn Ht ->
        | args kw appt token s e' cid link id Hk Hn Ht -> _].
  - exists []. split; [now rewrite app_nil_r|]. intros event [].
  - eexists. split; [reflexivity|]. intros event [H|[]]. discriminate.
  - eexists. split; [reflexivity|]. intros event [H|[H|[]]]; [discriminate|].
    injection H as <-. exists appt, s, e'. split; [reflexivity|]. eauto.
  - eexists. split; [reflexivity|]. intros event [H|[H|[]]]; [discriminate|].
    injection H as <-. exists appt, s, e'. split; [reflexivity|]. eauto.
Qed.

(** ** Arguments sent as text *)

(** The [try] block up to the point where the arguments have been found. *)
Lemma try_body_reaches_arguments (raw : string) (st : state) (body id a : value) :
  json_loads X raw = ok body ->
  identifier_found body id ->
  extract_args body = ok a ->
  truthy a = true ->
  try_body X cfg raw ({| tool_call_id := None |}, st)
  = match a with
    | PStr s =>
        match json_loads_str X s with
        | inl (JSONDecodeError _) =>
            vapi_response (PStr "Invalid data format. Please try again.")
        | inl e => raise e
        | inr parsed => book X cfg parsed
        end
    | _ => book X cfg a
    end ({| tool_call_id := Some id |}, st).
Proof.
  intros Hloads Hid Hargs Hfull.
  unfold try_body. unfold bind at 1, lift at 1. rewrite Hloads.
  change (ok body) with (@inr exn value body). cbv iota beta.
  unfold bind at 1, on_fst at 1. cbn [fst snd]. rewrite Hid.
  change (ok tt) with (@inr exn unit tt). cbv iota beta.
  unfold bind at 1, lift at 1. rewrite Hargs.
  change (ok a) with (@inr exn value a). cbv iota beta.
  rewrite Hfull. reflexivity.
Qed.

Lemma truthy_text (s : string) : s <> "" -> truthy (PStr s) = true.
Proof. intros H. cbn [truthy]. now apply String.eqb_neq in H as ->. Qed.


(** X8. Arguments sent as JSON text are handled as the same arguments sent
    as an object: two requests that carry the same identifier, one with a
    non-empty argument object and one with a text that [json.loads] turns
    into that object, get the same answer and leave the same state. *)
Theorem text_arguments_are_handled_like_an_object (raw raw' : string) (st : state)
    (body body' id : value) (s : string) (args : list (string * value)) :
  utf8_decodes X raw = true ->
  json_loads X raw = ok body ->
  identifier_found body id ->
  extract_args body = ok (PStr s) ->
  s <> "" ->
  json_loads_str X s = ok (PDict args) ->
  utf8_decodes X raw' = true ->
  json_loads X raw' = ok body' ->
  identifier_found body' id ->
  extract_args body' = ok (PDict args) ->
  args <> [] ->
  book_appointment_tool X cfg raw st = book_appointment_tool X cfg raw' st.
Proof.
  intros Hutf Hloads Hid Hargs Hs Hparsed Hutf' Hloads' Hid' Hargs' Hfull.
  pose proof (try_body_reaches_arguments raw st body id (PStr s) Hloads Hid Hargs
                (truthy_text s Hs)) as E.
  assert (truthy (PDict args) = true) as Ht by (destruct args; [now destruct Hfull | reflexivity]).
  pose proof (try_body_reaches_arguments raw' st body' id (PDict args) Hloads' Hid' Hargs' Ht)
    as E'.
  cbv iota beta in E, E'. rewrite Hparsed in E.
  change (ok (PDict args)) with (@inr exn value (PDict args)) in E. cbv iota beta in E.
  unfold book_appointment_tool, try_except. now rewrite Hutf, Hutf', E, E'.
Qed.

(** ** Arguments that the constructor rejects *)

Lemma book_rejects (args : list (string * value)) (kw : Models.kwargs) (e : exn)
    (fr : frame) (st : state) :
  List.filter (spec_absent_or_empty args) required_fields = [] ->
  appointment_kwargs cfg (PDict args) = ok kw ->
  Models.new X cfg kw = throw e ->
  book X cfg (PDict args) (fr, st)
  = (throw e, (fr, with_calls st [AppointmentDetails_call kw])).
Proof.
  intros Hmissing Hkw Hnew.
  unfold book. unfold bind at 1, lift at 1. rewrite missing_fields_dict, Hmissing.
  change (ok []) with (@inr exn (list string) []). cbv iota beta.
  unfold bind at 1, lift at 1. rewrite Hkw.
  change (ok kw) with (@inr exn Models.kwargs kw). cbv iota beta.
  unfold bind at 1, on_snd at 1, record_call at 1. cbn [fst snd]. cbv iota beta.
  unfold bind at 1, lift at 1. rewrite Hnew. reflexivity.
Qed.

Lemma correction_spec (e : exn) : correction X e = spec_correction (exn_str X e).
Proof.
  unfold correction, spec_correction, spec_prompts. cbv zeta. cbn [spec_first_keyword].
  destruct (str_contains "email" _); [reflexivity|].
  destruct (str_contains "phone" _); [reflexivity|].
  destruct (str_contains "date" _); [reflexivity|].
  destruct (str_contains "time" _); [reflexivity|].
  destruct (str_contains "timezone" _); reflexivity.
Qed.

(** X9. For a request in which an identifier and an argument object are
    found and no required field is lacking: when the constructor of
    [AppointmentDetails] rejects the arguments with a validation error, the
    handler returns the envelope with the prompt of the first of the
    keywords "email", "phone", "date", "time", "timezone" that occurs in the
    text of the error, in lower case, or with "Invalid input: " and the text
    when none occurs; when the constructor raises another exception, it
    returns the envelope with the detail of an [HTTPException] or else with
    "Something went wrong on our end. I'll try once more.".  The calendar is
    not asked, and the stores are as before.  The framework sends the
    envelope with status 200, unless the identifier or the message holds
    what JSON or UTF-8 cannot carry (a float that is an infinity or a NaN, a
    lone surrogate): then the caller gets status 500. *)
Theorem rejected_arguments_are_not_booked (raw : string) (st : state) (body id : value)
    (args : list (string * value)) (kw : Models.kwargs) (e : exn) :
  utf8_decodes X raw = true ->
  json_loads X raw = ok body ->
  identifier_found body id ->
  arguments_found X body args ->
  List.filter (spec_absent_or_empty args) spec_required_fields = [] ->
  appointment_kwargs cfg (PDict args) = ok kw ->
  Models.new X cfg kw = throw e ->
  let message :=
    if is_ValueError e then spec_correction (exn_str X e)
    else match e with
         | HTTPException _ detail => detail
         | _ => "Something went wrong on our end. I'll try once more."
         end in
  book_appointment_tool X cfg raw st
  = (ok (spec_envelope id (PStr message)), with_calls st [AppointmentDetails_call kw])
  /\ status_code (fst (book_appointment_tool X cfg raw st))
     = (if json_compliant id && json_compliant (PStr message) then 200 else 500).
Proof.
  intros Hutf Hloads Hid Hargs Hmissing Hkw Hnew message.
  assert (book_appointment_tool X cfg raw st
          = (ok (spec_envelope id (PStr message)),
             with_calls st [AppointmentDetails_call kw])) as E.
  { replace message with (spoken X e)
      by (unfold spoken; subst message; now rewrite correction_spec).
    apply (tool_catches X cfg raw st _ id e); [exact Hutf|].
    rewrite (try_body_books X cfg raw st body id args Hloads Hid Hargs).
    exact (book_rejects args kw e _ st Hmissing Hkw Hnew). }
  split; [exact E|]. rewrite E. apply envelope_status.
Qed.

(** X10. For a request with valid arguments and a stored credential: when
    the calendar provider refuses the insert with an error whose text
    contains "403", the handler answers "Calendar permission denied. Please
    re-authenticate."; when the text contains "409" and not "403", it
    answers "Time slot conflict detected.".  In both cases no slot is
    appended. *)
Theorem provider_refusals_are_spoken (raw : string) (st st' : state)
    (body id : value) (args : list (string * value)) (kw : Models.kwargs)
    (appt : Models.AppointmentDetails) (text : string) :
  utf8_decodes X raw = true ->
  json_loads X raw = ok body ->
  identifier_found body id ->
  arguments_found X body args ->
  List.filter (spec_absent_or_empty args) spec_required_fields = [] ->
  appointment_kwargs cfg (PDict args) = ok kw ->
  Models.new X cfg kw = ok appt ->
  insert_event X cfg appt (with_calls st [AppointmentDetails_call kw])
  = (throw (HttpError text), st') ->
  booked_slots st' = booked_slots st
  /\ (occurs "403" text ->
      book_appointment_tool X cfg raw st
      = (ok (spec_envelope id (PStr "Calendar permission denied. Please re-authenticate.")),
         st'))
  /\ (~ occurs "403" text -> occurs "409" text ->
      book_appointment_tool X cfg raw st
      = (ok (spec_envelope id (PStr "Time slot conflict detected.")), st')).
Proof.
  intros Hutf Hloads Hid Hargs Hmissing Hkw Hnew E.
  split; [apply (insert_event_raises X cfg _ _ _ _ E)|].
  assert (try_body X cfg raw ({| tool_call_id := None |}, st)
          = (let* result := lift (fst (on_HttpError text st')) in
             let* success := lift (get result "success" PNone) in
             if negb (truthy success)
             then let* error :=
                    lift (get result "error"
                            (PStr "Failed to create calendar event. Please try again.")) in
                  vapi_response error
             else vapi_response (PStr (booked_message (Models.email appt))))
              ({| tool_call_id := Some id |}, st')) as Etry.
  { rewrite (try_body_books X cfg raw st body id args Hloads Hid Hargs).
    rewrite (book_constructs X cfg args kw appt _ st Hmissing Hkw Hnew).
    unfold bind at 1, on_snd at 1. cbn [fst snd].
    change {| token_store := token_store st; booked_slots := booked_slots st;
              trace := trace st ++ [AppointmentDetails_call kw] |}
      with (with_calls st [AppointmentDetails_call kw]).
    rewrite (create_on_HttpError X cfg appt _ st' text E).
    unfold on_HttpError.
    destruct (str_contains "403" text); [|destruct (str_contains "409" text)]; reflexivity. }
  split.
  - intros H403. apply str_contains_iff in H403.
    apply tool_returns with (fr := {| tool_call_id := Some id |}); [exact Hutf|].
    rewrite Etry. unfold on_HttpError. rewrite H403. reflexivity.
  - intros H403 H409. apply str_contains_false_iff in H403. apply str_contains_iff in H409.
    apply tool_returns with (fr := {| tool_call_id := Some id |}); [exact Hutf|].
    rewrite Etry. unfold on_HttpError. rewrite H403, H409. reflexivity.
Qed.

(** ** The order in which the identifier is looked for *)

Lemma bind_ok {St A B : Type} (c : M St A) (k : A -> M St B) (s s' : St) (b : B) :
  bind c k s = (ok b, s') -> exists a s1, c s = (ok a, s1) /\ k a s1 = (ok b, s').
Proof.
  unfold bind. destruct (c s) as [[e|a] s1]; [discriminate|]. intros H. now exists a, s1.
Qed.

Lemma lift_ok {St A : Type} (r : result A) (s s' : St) (a : A) :
  lift r s = (ok a, s') -> r = ok a /\ s' = s.
Proof. unfold lift. now intros [= -> ->]. Qed.

Lemma assign_after {A : Type} (r : result A) (k : A -> value) (fr fr' : frame) :
  (let* x := lift r in assign_tool_call_id (k x)) fr = (ok tt, fr') ->
  exists x, r = ok x /\ fr' = {| tool_call_id := Some (k x) |}.
Proof.
  intros H. apply bind_ok in H as (x & s1 & H1 & H). apply lift_ok in H1 as [-> ->].
  exists x. split; [reflexivity|]. now injection H as <-.
Qed.

Section Identifier.
Variable items : list (string * value).

Lemma id_agrees (holder a : value) :
  get holder "id" PNone = ok a -> agrees (locate [key "id"] holder) a.
Proof.
  destruct holder; try discriminate. cbn [get locate ok].
  destruct (assoc "id" items0); intros [= <-]; [now left | now right].
Qed.

(** Lines 353-356. *)
Lemma id_via_message (has_message : bool) (fr' : frame) :
  py_in "message" (PDict items) = ok has_message ->
  (if has_message
   then let* message := lift (getitem (PDict items) "message") in
        let* tool_call_list := lift (get message "toolCallList" (PList [])) in
        if truthy tool_call_list
        then let* first := lift (getitem0 tool_call_list) in
             let* id := lift (get first "id" PNone) in
             assign_tool_call_id id
        else ret tt
   else ret tt) {| tool_call_id := Some PNone |} = (ok tt, fr') ->
  exists a, fr' = {| tool_call_id := Some a |}
            /\ agrees (locate [key "message"; key "toolCallList"; first_item; key "id"]
                         (PDict items)) a.
Proof.
  cbn [py_in getitem locate ok]. intros [= <-].
  destruct (assoc "message" items) as [message|];
    [|intros [= <-]; exists PNone; split; [reflexivity | now right]].
  intros H. apply bind_ok in H as (m & s1 & H1 & H). apply lift_ok in H1 as [[= <-] ->].
  apply bind_ok in H as (tool_call_list & s1 & H1 & H). apply lift_ok in H1 as [H1 ->].
  destruct message; try discriminate. cbn [get ok] in H1. injection H1 as H1.
  destruct (assoc "toolCallList" items0) as [l|]; subst tool_call_list;
    [|injection H as <-; exists PNone; split; [reflexivity | now right]].
  destruct (truthy l) eqn:Ht.
  - apply bind_ok in H as (first & s1 & H1 & H). apply lift_ok in H1 as [H1 ->].
    apply bind_ok in H as (id & s1 & H2 & H). apply lift_ok in H2 as [H2 ->].
    injection H as <-. exists id. split; [reflexivity|].
    destruct l as [| | | | [|c t] | [|first' rest] |]; cbn [getitem0 ok throw] in H1;
      try discriminate; injection H1 as <-; [discriminate H2|].
    now apply id_agrees.
  - injection H as <-. exists PNone. split; [reflexivity|]. right. split; [|reflexivity].
    destruct l as [| | | | | [|first rest] |]; try reflexivity. discriminate.
Qed.

Lemma settles_next (k : string) (rest : list step) (seen : list (option value))
    (current a : value) (has : bool) :
  settled seen current ->
  not_and current (py_in k (PDict items)) = ok has ->
  (if has then agrees (locate (key k :: rest) (PDict items)) a else a = current) ->
  settled (seen ++ [locate (key k :: rest) (PDict items)]) a.
Proof.
  intros Hseen Hhas H. unfold not_and in Hhas. destruct (truthy current) eqn:Ht.
  - injection Hhas as <-. subst a. now apply settled_keep.
  - destruct has.
    + now apply settled_take with (args := current).
    + subst a. rewrite (absent_key items k rest Hhas). now apply settled_skip.
Qed.

(** The code's search for the identifier agrees with the ordered list of
    its places. *)
Lemma identifier_settled (id : value) :
  identifier_found (PDict items) id ->
  spec_first_non_empty (identifier_candidates (PDict items))
  = if truthy id then Some id else None.
Proof.
  unfold identifier_found, extract_tool_call_id. rewrite bind_assign_tool_call_id.
  intros H.
  apply bind_ok in H as (has_message & s1 & H0 & H). apply lift_ok in H0 as [H0 ->].
  apply bind_ok in H as ([] & s1 & H1 & H).
  apply (id_via_message has_message s1 H0) in H1 as (a1 & -> & A1).
  apply bind_ok in H as (current & s1 & Hc & H). injection Hc as <- <-.
  apply bind_ok in H as (has_toolCall & s1 & H2a & H). apply lift_ok in H2a as [H2a ->].
  apply bind_ok in H as ([] & s2 & H2 & H).
  assert (settled [locate [key "message"; key "toolCallList"; first_item; key "id"]
                     (PDict items)] a1) as S1.
  { now apply (settled_take [] PNone). }
  assert (exists a2, s2 = {| tool_call_id := Some a2 |}
                     /\ settled ([locate [key "message"; key "toolCallList"; first_item;
                                          key "id"] (PDict items)]
                                 ++ [locate [key "toolCall"; key "id"] (PDict items)]) a2)
    as (a2 & -> & S2).
  { destruct has_toolCall.
    - apply bind_ok in H2 as (toolCall & s1 & Ht & H2). apply lift_ok in Ht as [Ht ->].
      apply (assign_after (get toolCall "id" PNone) (fun x => x)) in H2 as (a2 & Hg & ->).
      exists a2. split; [reflexivity|].
      apply (settles_next "toolCall" [key "id"] _ a1 a2 true S1 H2a).
      cbn [getitem locate ok] in *. destruct (assoc "toolCall" items); [|discriminate].
      injection Ht as <-. now apply id_agrees.
    - injection H2 as <-. exists a1. split; [reflexivity|].
      now apply (settles_next "toolCall" [key "id"] _ a1 a1 false S1 H2a). }
  apply bind_ok in H as (current & s1 & Hc & H). injection Hc as <- <-.
  apply bind_ok in H as (has_toolCallList & s1 & H3a & H). apply lift_ok in H3a as [H3a ->].
  unfold identifier_candidates, identifier_places. cbn [map].
  change [?c1; ?c2; ?c3] with (([c1] ++ [c2]) ++ [c3]).
  destruct has_toolCallList.
  - apply bind_ok in H as (toolCallList & s1 & Ht & H). apply lift_ok in Ht as [Ht ->].
    apply bind_ok in H as (first & s1 & Hf & H). apply lift_ok in Hf as [Hf ->].
    apply (assign_after (get first "id" PNone) (fun x => x)) in H as (a3 & Hg & [= ->]).
    apply (settles_next "toolCallList" [first_item; key "id"] _ a2 a3 true S2 H3a).
    cbn [getitem locate ok] in *. destruct (assoc "toolCallList" items) as [l|]; [|discriminate].
    injection Ht as ->.
    destruct toolCallList as [| | | | [|c t] | [|first' rest] |]; cbn [getitem0 ok throw] in Hf;
      try discriminate; injection Hf as <-; [discriminate Hg|].
    now apply id_agrees.
  - injection H as <-.
    now apply (settles_next "toolCallList" [first_item; key "id"] _ a2 a2 false S2 H3a).
Qed.

(** X11. On a body that is a JSON object, when the search for the tool-call
    identifier runs to its end, the identifier that the answer will carry is
    the first non-empty value among [message.toolCallList[0].id],
    [toolCall.id] and [toolCallList[0].id]; it is an empty value exactly when
    none of them is there and non-empty. *)
Theorem identifier_is_sought_in_order (id : value) :
  identifier_found (PDict items) id ->
  spec_first_non_empty (identifier_candidates (PDict items))
  = if truthy id then Some id else None.
Proof. exact (identifier_settled id). Qed.

End Identifier.

(** ** An empty list of tool calls *)

(** X22. A body that is a JSON object with an empty list under
    [toolCallList], and neither [message] nor [toolCall], is answered with
    "Something went wrong on our end. I'll try once more." and the
    identifier [None], whatever else the body carries: the search for the
    identifier takes the first item of the list without looking whether
    there is one.  The stores are as before. *)
Theorem empty_tool_call_list_is_an_error (raw : string) (st : state)
    (items : list (string * value)) :
  utf8_decodes X raw = true ->
  json_loads X raw = ok (PDict items) ->
  assoc "message" items = None ->
  assoc "toolCall" items = None ->
  assoc "toolCallList" items = Some (PList []) ->
  book_appointment_tool X cfg raw st
  = (ok (spec_envelope PNone (PStr "Something went wrong on our end. I'll try once more.")),
     st).
Proof.
  intros Hutf Hloads Hm Hc Hl.
  apply (tool_catches X cfg raw st st PNone (IndexError "list index out of range"));
    [exact Hutf|].
  unfold try_body. unfold bind at 1, lift at 1. rewrite Hloads.
  change (ok (PDict items)) with (@inr exn value (PDict items)). cbv iota beta.
  unfold bind at 1, on_fst at 1. cbn [fst snd].
  assert (extract_tool_call_id (PDict items) {| tool_call_id := None |}
          = (throw (IndexError "list index out of range"), {| tool_call_id := Some PNone |}))
    as ->; [|reflexivity].
  unfold extract_tool_call_id. rewrite bind_assign_tool_call_id.
  unfold bind, lift, ret, assign_tool_call_id, write, read_tool_call_id, not_and,
    py_in, getitem, ok.
  rewrite Hm, Hc, Hl. reflexivity.
Qed.

(** ** The messages of the [except ValueError] clause *)

Lemma time_in_timezone (s : string) : occurs "timezone" s -> occurs "time" s.
Proof. apply occurs_trans. now exists "", "zone". Qed.

(** X12. The handler never says "Invalid timezone. Defaulting to Pacific
    Time.": a text in which "timezone" occurs also has "time" in it, and the
    clause looks for "time" first.  An error whose text mentions the time
    zone, and none of "email", "phone" and "date", is answered with the
    message about the format of the time. *)
Theorem timezone_message_is_never_spoken (e : exn) :
  correction X e <> "Invalid timezone. Defaulting to Pacific Time."
  /\ (occurs "timezone" (str_lower (exn_str X e)) ->
      ~ occurs "email" (str_lower (exn_str X e)) ->
      ~ occurs "phone" (str_lower (exn_str X e)) ->
      ~ occurs "date" (str_lower (exn_str X e)) ->
      correction X e = "Invalid time format. Please provide a time like 2pm or 14:00.").
Proof.
  unfold correction. cbv zeta. split.
  - destruct (str_contains "email" _); [discriminate|].
    destruct (str_contains "phone" _); [discriminate|].
    destruct (str_contains "date" _); [discriminate|].
    destruct (str_contains "time" _) eqn:Etime; [discriminate|].
    destruct (str_contains "timezone" _) eqn:Ezone.
    + apply str_contains_iff, time_in_timezone, str_contains_iff in Ezone. congruence.
    + rewrite !append_cons. discriminate.
  - intros Hzone Hemail Hphone Hdate.
    apply str_contains_false_iff in Hemail, Hphone, Hdate.
    apply time_in_timezone, str_contains_iff in Hzone.
    now rewrite Hemail, Hphone, Hdate, Hzone.
Qed.

(** ** What the handler returns, and what the framework makes of it *)














End Facts.
End HandlerFacts.

(* ===================================================================== *)
(** * The two searches on a well-formed envelope                          *)
(* ===================================================================== *)

Module SearchFacts.
Import Lib Main Notions Views TextFacts MainFacts HandlerFacts.

Section Shape.
Variable items : list (string * value).
Hypothesis Hshape : well_formed_envelope items = true.

Lemma shape_of_message :
  assoc "message" items = None
  \/ exists message,
       assoc "message" items = Some (PDict message)
       /\ (assoc "toolCallList" message = None
           \/ exists l, assoc "toolCallList" message = Some l
                        /\ (truthy l = false
                            \/ (truthy l = true /\ first_holds_function l = true))).
Proof.
  revert Hshape. unfold well_formed_envelope.
  destruct (assoc "message" items) as [[| | | | | |message]|]; try discriminate; [|now left].
  intros H. right. exists message. split; [reflexivity|].
  destruct (assoc "toolCallList" message) as [l|]; [|now left].
  right. exists l. split; [reflexivity|].
  destruct (truthy l); [right | now left]. split; [reflexivity|].
  cbn [negb orb] in H. now destruct (first_holds_function l).
Qed.

Lemma shape_of_toolCall (holder : value) :
  assoc "toolCall" items = Some holder -> holds_function holder = true.
Proof.
  revert Hshape. unfold well_formed_envelope. intros H E. rewrite E in H.
  destruct (match assoc "message" items with None => true | Some _ => _ end);
    [|discriminate].
  cbn [andb] in H. now destruct (holds_function holder).
Qed.

Lemma shape_of_toolCallList (l : value) :
  assoc "toolCallList" items = Some l -> first_holds_function l = true.
Proof.
  revert Hshape. unfold well_formed_envelope. intros H E. rewrite E in H.
  destruct (match assoc "message" items with None => true | Some _ => _ end);
    [|discriminate].
  destruct (match assoc "toolCall" items with None => true | Some _ => _ end);
    [|discriminate].
  cbn [andb] in H. now destruct (first_holds_function l).
Qed.

Lemma shape_of_function (holder : value) :
  assoc "function" items = Some holder -> exists function, holder = PDict function.
Proof.
  revert Hshape. unfold well_formed_envelope. intros H E. rewrite E in H.
  destruct holder; try (now rewrite !andb_false_r in H). eauto.
Qed.

End Shape.

(** [holder.get("function", {}).get("arguments")] on such a holder. *)
Lemma holder_arguments (holder : value) :
  holds_function holder = true ->
  exists a, (let? function := get holder "function" (PDict []) in
             get function "arguments" PNone) = ok a.
Proof.
  destruct holder; try discriminate. cbn [holds_function get rbind ok].
  destruct (assoc "function" items) as [[]|]; try discriminate; intros _; eauto.
Qed.

Lemma first_arguments (l : value) :
  first_holds_function l = true ->
  exists a, (let? first := getitem0 l in
             let? function := get first "function" (PDict []) in
             get function "arguments" PNone) = ok a.
Proof.
  destruct l as [| | | | | [|first rest] |]; try discriminate.
  cbn [first_holds_function getitem0 rbind ok]. apply holder_arguments.
Qed.

Section Total.
Variable items : list (string * value).
Hypothesis Hshape : well_formed_envelope items = true.

(** One [if not args and k in body: args = ...] block, followed by the rest
    of the search. *)
Lemma stage_returns (k : string) (look : result value) (args : value)
    (rest : value -> result value) :
  (forall v, assoc k items = Some v -> exists a, look = ok a) ->
  (forall a, exists b, rest a = ok b) ->
  exists b, (let? has := not_and args (py_in k (PDict items)) in
             let? args' := (if has then look else ok args) in
             rest args') = ok b.
Proof.
  intros Hlook Hrest. unfold not_and. destruct (truthy args); [exact (Hrest args)|].
  cbn [py_in rbind ok]. destruct (assoc k items) as [v|]; [|exact (Hrest args)].
  destruct (Hlook v eq_refl) as [a ->]. exact (Hrest a).
Qed.

(** On a well-formed envelope the search for the arguments returns. *)
Lemma extract_args_returns : exists a, extract_args (PDict items) = ok a.
Proof.
  unfold extract_args. cbv zeta.
  assert (forall args, exists b,
             (let? whole_body :=
                not_and args (let? has_name := py_in "name" (PDict items) in
                              if has_name then py_in "email" (PDict items) else ok false) in
              ok (if whole_body then PDict items else args)) = ok b) as H5.
  { intros args. unfold not_and. destruct (truthy args); [eexists; reflexivity|].
    cbn [py_in rbind ok]. destruct (assoc "name" items); eexists; reflexivity. }
  assert (forall args, exists b,
             (let? has_function := not_and args (py_in "function" (PDict items)) in
              let? args' :=
                (if has_function
                 then let? function := getitem (PDict items) "function" in
                      get function "arguments" PNone
                 else ok args) in
              let? whole_body :=
                not_and args' (let? has_name := py_in "name" (PDict items) in
                               if has_name then py_in "email" (PDict items) else ok false) in
              ok (if whole_body then PDict items else args')) = ok b) as H4.
  { intros args. apply stage_returns; [|exact H5].
    intros v Hv. cbn [getitem rbind ok]. rewrite Hv.
    destruct (shape_of_function items Hshape v Hv) as [function ->].
    eexists. reflexivity. }
  assert (forall args, exists b,
             (let? has_toolCallList := not_and args (py_in "toolCallList" (PDict items)) in
              let? args' :=
                (if has_toolCallList
                 then let? toolCallList := getitem (PDict items) "toolCallList" in
                      let? first := getitem0 toolCallList in
                      let? function := get first "function" (PDict []) in
                      get function "arguments" PNone
                 else ok args) in
              let? has_function := not_and args' (py_in "function" (PDict items)) in
              let? args'' :=
                (if has_function
                 then let? function := getitem (PDict items) "function" in
                      get function "arguments" PNone
                 else ok args') in
              let? whole_body :=
                not_and args'' (let? has_name := py_in "name" (PDict items) in
                                if has_name then py_in "email" (PDict items) else ok false) in
              ok (if whole_body then PDict items else args'')) = ok b) as H3.
  { intros args. apply stage_returns; [|exact H4].
    intros v Hv. cbn [getitem rbind ok]. rewrite Hv.
    exact (first_arguments v (shape_of_toolCallList items Hshape v Hv)). }
  assert (forall args, exists b,
             (let? has_toolCall := not_and args (py_in "toolCall" (PDict items)) in
              let? args0 :=
                (if has_toolCall
                 then let? toolCall := getitem (PDict items) "toolCall" in
                      let? function := get toolCall "function" (PDict []) in
                      get function "arguments" PNone
                 else ok args) in
              let? has_toolCallList := not_and args0 (py_in "toolCallList" (PDict items)) in
              let? args' :=
                (if has_toolCallList
                 then let? toolCallList := getitem (PDict items) "toolCallList" in
                      let? first := getitem0 toolCallList in
                      let? function := get first "function" (PDict []) in
                      get function "arguments" PNone
                 else ok args0) in
              let? has_function := not_and args' (py_in "function" (PDict items)) in
              let? args'' :=
                (if has_function
                 then let? function := getitem (PDict items) "function" in
                      get function "arguments" PNone
                 else ok args') in
              let? whole_body :=
                not_and args'' (let? has_name := py_in "name" (PDict items) in
                                if has_name then py_in "email" (PDict items) else ok false) in
              ok (if whole_body then PDict items else args'')) = ok b) as H2.
  { intros args. apply stage_returns; [|exact H3].
    intros v Hv. cbn [getitem rbind ok]. rewrite Hv.
    exact (holder_arguments v (shape_of_toolCall items Hshape v Hv)). }
  cbn [py_in rbind ok].
  destruct (shape_of_message items Hshape)
    as [Hm | (message & Hm & [Hl | (l & Hl & [Hempty | [Hfull Hfirst]])])];
    rewrite Hm; cbn [getitem get rbind ok]; try rewrite Hm; cbn [get rbind ok];
    try rewrite Hl; cbn [truthy rbind ok].
  - exact (H2 PNone).
  - exact (H2 PNone).
  - rewrite Hempty. exact (H2 PNone).
  - rewrite Hfull. destruct (first_arguments l Hfirst) as [a ->]. exact (H2 a).
Qed.

Lemma holder_is_object (holder : value) :
  holds_function holder = true -> exists fields, holder = PDict fields.
Proof. destruct holder; try discriminate. eauto. Qed.

Lemma first_is_object (l : value) :
  first_holds_function l = true ->
  exists fields rest, l = PList (PDict fields :: rest).
Proof.
  destruct l as [| | | | | [|first rest] |]; try discriminate.
  cbn [first_holds_function]. intros H. apply holder_is_object in H as [fields ->]. eauto.
Qed.

(** On a well-formed envelope the search for the identifier runs to its
    end. *)
Lemma identifier_returns : exists id, identifier_found (PDict items) id.
Proof.
  unfold identifier_found, extract_tool_call_id. rewrite bind_assign_tool_call_id.
  assert (assoc "toolCall" items = None
          \/ exists fields, assoc "toolCall" items = Some (PDict fields)) as H2.
  { destruct (assoc "toolCall" items) as [holder|] eqn:E; [|now left].
    right. destruct (holder_is_object holder (shape_of_toolCall items Hshape holder E))
      as [fields ->]. eauto. }
  assert (assoc "toolCallList" items = None
          \/ exists fields rest,
               assoc "toolCallList" items = Some (PList (PDict fields :: rest))) as H3.
  { destruct (assoc "toolCallList" items) as [l|] eqn:E; [|now left].
    right. destruct (first_is_object l (shape_of_toolCallList items Hshape l E))
      as (fields & rest & ->). eauto. }
  unfold bind, lift, ret, read_tool_call_id, assign_tool_call_id, write, not_and.
  cbn [py_in getitem get ok].
  destruct (shape_of_message items Hshape)
    as [Hm | (message & Hm & [Hl | (l & Hl & [Hempty | [Hfull Hfirst]])])];
    rewrite Hm; cbn [get ok]; try rewrite Hl; try rewrite Hempty; try rewrite Hfull;
    cbn [truthy tool_call_id];
    try (apply first_is_object in Hfirst as (fields1 & rest1 & ->);
         cbn [getitem0 get ok tool_call_id]);
    destruct H2 as [-> | (fields2 & ->)]; destruct H3 as [-> | (fields3 & rest3 & ->)];
    repeat (cbn [getitem0 get ok throw tool_call_id truthy];
            match goal with
            | |- context [if truthy ?v then _ else _] => destruct (truthy v)
            end);
    cbn [getitem0 get ok throw tool_call_id truthy]; eauto.
Qed.

End Total.

Section Order.
Variable X : Externals.
Variable cfg : Config.settings.

(** C7 (and where the code departs from it). On a body that is a JSON object:
    (1) when every place the searches look at has the shape they expect,
    [extract_args] returns, and what it returns is the first non-empty value
    among [message.toolCallList[0].function.arguments],
    [toolCall.function.arguments], [toolCallList[0].function.arguments],
    [function.arguments] and the body itself when it has both [name] and
    [email], or an empty value when none of them is there and non-empty;
    (2) whenever [extract_args] returns, it returns that value;
    (3) on such a body in which no place yields arguments, the handler asks
    the caller to try again and echoes the first non-empty identifier among
    [message.toolCallList[0].id], [toolCall.id] and [toolCallList[0].id], an
    empty one when there is none; nothing else changes;
    (4) but a body with an empty list under [toolCallList] and neither
    [message] nor [toolCall] is answered that something went wrong, with no
    identifier, also when no place yields arguments: line 360 takes the
    first item of the list without looking whether there is one. *)
Theorem arguments_are_sought_in_order :
  (forall items : list (string * value),
      well_formed_envelope items = true ->
      exists a,
        extract_args (PDict items) = ok a
        /\ spec_first_non_empty (spec_candidates (PDict items))
           = if truthy a then Some a else None)
  /\ (forall (items : list (string * value)) (a : value),
         extract_args (PDict items) = ok a ->
         spec_first_non_empty (spec_candidates (PDict items))
         = if truthy a then Some a else None)
  /\ (forall (raw : string) (st : state) (items : list (string * value)),
         utf8_decodes X raw = true ->
         json_loads X raw = ok (PDict items) ->
         well_formed_envelope items = true ->
         spec_first_non_empty (spec_candidates (PDict items)) = None ->
         exists id,
           spec_first_non_empty (identifier_candidates (PDict items))
           = (if truthy id then Some id else None)
           /\ book_appointment_tool X cfg raw st
              = (ok (spec_envelope id
                       (PStr "I had trouble reading the booking details. Could you try again?")),
                 st))
  /\ (forall (raw : string) (st : state) (items : list (string * value)),
         utf8_decodes X raw = true ->
         json_loads X raw = ok (PDict items) ->
         assoc "message" items = None ->
         assoc "toolCall" items = None ->
         assoc "toolCallList" items = Some (PList []) ->
         book_appointment_tool X cfg raw st
         = (ok (spec_envelope PNone
                  (PStr "Something went wrong on our end. I'll try once more.")),
            st)).
Proof.
  split; [|split; [|split]].
  - intros items Hshape. destruct (extract_args_returns items Hshape) as [a Ha].
    exists a. split; [exact Ha|]. exact (extract_args_settled items a Ha).
  - intros items a Ha. exact (extract_args_settled items a Ha).
  - intros raw st items Hutf Hloads Hshape Hnone.
    destruct (extract_args_returns items Hshape) as [a Ha].
    destruct (identifier_returns items Hshape) as [id Hid].
    exists id. split; [exact (identifier_settled items id Hid)|].
    apply (empty_search_asks_again X cfg raw st (PDict items) id a Hutf Hloads Hid Ha).
    pose proof (extract_args_settled items a Ha) as Hs. unfold settled in Hs.
    rewrite Hnone in Hs.
    destruct (truthy a); [discriminate | reflexivity].
  - intros raw st items Hutf Hloads Hm Hc Hl.
    exact (empty_list_stops_the_search X cfg raw st items Hutf Hloads Hm Hc Hl).
Qed.

End Order.

End SearchFacts.

(* ===================================================================== *)
(** * The other routes                                                    *)
(* ===================================================================== *)

Module RoutesFacts.
Import Lib Main Notions Views Routes TextFacts HandlerFacts.

Section Facts.
Variable X : Externals.
Variable P : Platform.
Variable env : Config.environ.

(** ** Authentication *)

(** How the callback can end. *)
Lemma google_callback_cases (code : string) (st : state) :
  (exists e, google_callback X P env code st = (throw (HTTPException 400 (exn_str X e)), st)
             /\ (fetch_token P (get_google_flow env) code = throw e
                 \/ exists creds, fetch_token P (get_google_flow env) code = ok creds
                                  /\ py_list (Credentials.scopes creds) = throw e))
  \/ (exists creds scopes,
         fetch_token P (get_google_flow env) code = ok creds
         /\ Credentials.scopes creds = Some scopes
         /\ google_callback X P env code st
            = (ok (RedirectResponse
                     (Config.getenv_or env "FRONTEND_URL" "http://localhost:4200")),
               {| token_store := <["default" := token_data creds scopes]> (token_store st);
                  booked_slots := booked_slots st;
                  trace := trace st |})).
Proof.
  destruct (fetch_token P (get_google_flow env) code) as [e|creds] eqn:Hfetch.
  - left. exists e. split; [|now left].
    unfold google_callback, try_except, bind, lift. now rewrite Hfetch.
  - destruct (Credentials.scopes creds) as [scopes|] eqn:Hscopes.
    + right. exists creds, scopes. split; [reflexivity|]. split; [exact Hscopes|].
      unfold google_callback, try_except, bind, lift. rewrite Hfetch. cbv beta iota zeta.
      now rewrite Hscopes.
    + left. exists (TypeError "'NoneType' object is not iterable"). split.
      * unfold google_callback, try_except, bind, lift. rewrite Hfetch. cbv beta iota zeta.
        now rewrite Hscopes.
      * right. exists creds. split; [reflexivity|]. now rewrite Hscopes.
Qed.

Lemma callback_keeps_slots (code : string) (st : state) :
  booked_slots (snd (google_callback X P env code st)) = booked_slots st.
Proof.
  destruct (google_callback_cases code st)
    as [(e & -> & _) | (creds & scopes & _ & _ & ->)]; reflexivity.
Qed.

(** X13. The callback of the OAuth exchange connects the calendar exactly
    when the exchange succeeds, and changes nothing otherwise.  When the
    exchange returns credentials with a sequence of scopes, the route stores
    under "default" the dictionary of their six values ([token],
    [refresh_token], [token_uri], [client_id], [client_secret] and the list
    of the scopes) and redirects to [FRONTEND_URL], or to
    http://localhost:4200 when that is not set; the list of appointments is
    as before; from then on [GET /auth/status] answers that the service is
    authenticated, and the calendar client is built from exactly that
    dictionary.  When the exchange raises, the route raises [HTTPException]
    with status 400 and the text of that exception; when the credentials
    have no scopes, it raises [HTTPException] with status 400 and the text
    of the [TypeError] of [list(None)]; in both cases the stores are as
    before, so that a credential stored earlier stays in force. *)
Theorem callback_connects_or_changes_nothing (code : string) (st : state) :
  (forall creds scopes,
      fetch_token P (get_google_flow env) code = ok creds ->
      Credentials.scopes creds = Some scopes ->
      let stored := PDict [ ("token", Credentials.token creds);
                            ("refresh_token", Credentials.refresh_token creds);
                            ("token_uri", Credentials.token_uri creds);
                            ("client_id", Credentials.client_id creds);
                            ("client_secret", Credentials.client_secret creds);
                            ("scopes", PList scopes) ] in
      let st' := {| token_store := <["default" := stored]> (token_store st);
                    booked_slots := booked_slots st;
                    trace := trace st |} in
      google_callback X P env code st
      = (ok (RedirectResponse match env !! "FRONTEND_URL" with
                              | Some url => url
                              | None => "http://localhost:4200"
                              end), st')
      /\ auth_status st' = (ok (PDict [ ("authenticated", PBool true) ]), st')
      /\ get_calendar_service X st'
         = (match build_service X stored with
            | inr _ => ok stored
            | inl e => throw e
            end, st'))
  /\ (forall e,
         fetch_token P (get_google_flow env) code = throw e ->
         google_callback X P env code st = (throw (HTTPException 400 (exn_str X e)), st))
  /\ (forall creds,
         fetch_token P (get_google_flow env) code = ok creds ->
         Credentials.scopes creds = None ->
         google_callback X P env code st
         = (throw (HTTPException 400 "'NoneType' object is not iterable"), st)).
Proof.
  split; [|split].
  - intros creds scopes Hfetch Hscopes stored st'. subst stored st'.
    split; [|split].
    + unfold google_callback, try_except, bind, lift. rewrite Hfetch. cbv beta iota zeta delta [ok throw].
      now rewrite Hscopes.
    + unfold auth_status, bind, read, ret. cbn [token_store].
      now rewrite lookup_insert_eq.
    + unfold get_calendar_service, bind, read, lift, ret. cbn [token_store].
      rewrite lookup_insert_eq. now destruct (build_service X _) as [e|[]].
  - intros e Hfetch. unfold google_callback, try_except, bind, lift. rewrite Hfetch.
    reflexivity.
  - intros creds Hfetch Hscopes. unfold google_callback, try_except, bind, lift.
    rewrite Hfetch. cbv beta iota zeta delta [ok throw]. now rewrite Hscopes.
Qed.

(** ** Sequences of requests *)

Lemma tool_slots (raw : string) (st : state) :
  token_store (snd (book_appointment_tool X (cfg env) raw st)) = token_store st
  /\ exists new,
       booked_slots (snd (book_appointment_tool X (cfg env) raw st)) = booked_slots st ++ new
       /\ (length new <= 1)%nat
       /\ (token_store st !! "default" = None -> new = []).
Proof.
  destruct (tool_effects X (cfg env) raw st)
    as [-> | args kw _ -> | args kw appt token s e' _ Hn Ht ->
        | args kw appt token s e' cid link id _ Hn Ht -> _].
  - split; [reflexivity|]. exists []. rewrite app_nil_r. repeat split; auto with arith.
  - split; [reflexivity|]. exists []. cbn. rewrite app_nil_r. repeat split; auto with arith.
  - split; [reflexivity|]. exists []. cbn. rewrite app_nil_r. repeat split; auto with arith.
  - split; [reflexivity|]. eexists. split; [reflexivity|]. split; [cbn; auto with arith|].
    intros Hnone. congruence.
Qed.

(** What one request does to the stores of the module. *)
Lemma handle_app (r : incoming) (s : server) :
  exists new,
    booked_slots (app (snd (handle X P env r s))) = booked_slots (app s) ++ new
    /\ (length new <= tool_requests [r])%nat
    /\ (token_store (app s) !! "default" = None -> new = [])
    /\ (is_callback r = false ->
        token_store (app s) !! "default" = None ->
        token_store (app (snd (handle X P env r s))) !! "default" = None).
Proof.
  destruct r; cbn [handle is_callback].
  - unfold in_app. pose proof (callback_keeps_slots code (app s)) as Hk.
    destruct (google_callback X P env code (app s)) as [r st]. cbn [snd app] in *.
    exists []. rewrite app_nil_r. repeat split; auto with arith. discriminate.
  - exists []. rewrite app_nil_r. repeat split; auto with arith.
  - exists []. rewrite app_nil_r. unfold in_app, logout. cbn [snd app].
    destruct (token_store (app s) !! "default") eqn:E; repeat split; auto with arith.
    discriminate.
  - exists []. rewrite app_nil_r. repeat split; auto with arith.
  - unfold in_app.
    destruct (tool_slots raw_body (app s)) as (Ht & new & Hb & Hl & Hn).
    destruct (book_appointment_tool X (cfg env) raw_body (app s)) as [r st].
    cbn [snd app] in *. exists new. repeat split; auto. intros _ H. now rewrite Ht.
  - exists []. rewrite app_nil_r. repeat split; auto with arith.
  - unfold in_platform. destruct (start_call X P env (made s)) as [r l]. cbn [snd app].
    exists []. rewrite app_nil_r. repeat split; auto with arith.
  - unfold in_platform. destruct (start_phone_call X P env (made s)) as [r l]. cbn [snd app].
    exists []. rewrite app_nil_r. repeat split; auto with arith.
Qed.

Lemma tool_requests_cons (r : incoming) (rs : list incoming) :
  tool_requests (r :: rs) = (tool_requests [r] + tool_requests rs)%nat.
Proof. unfold tool_requests. cbn [List.filter]. now destruct r. Qed.

Lemma serve_slots (rs : list incoming) (s : server) :
  exists new,
    booked_slots (app (serve X P env rs s)) = booked_slots (app s) ++ new
    /\ (length new <= tool_requests rs)%nat.
Proof.
  revert s. induction rs as [|r rs IH]; intros s.
  - exists []. cbn [serve]. rewrite app_nil_r. split; [reflexivity | apply Nat.le_0_l].
  - cbn [serve]. destruct (handle_app r s) as (new1 & H1 & L1 & _).
    destruct (IH (snd (handle X P env r s))) as (new2 & H2 & L2).
    exists (new1 ++ new2). rewrite H2, H1, <- app_assoc. split; [reflexivity|].
    rewrite tool_requests_cons, length_app. now apply Nat.add_le_mono.
Qed.

Lemma serve_disconnected (rs : list incoming) (s : server) :
  forallb (fun r => negb (is_callback r)) rs = true ->
  token_store (app s) !! "default" = None ->
  booked_slots (app (serve X P env rs s)) = booked_slots (app s)
  /\ token_store (app (serve X P env rs s)) !! "default" = None.
Proof.
  revert s. induction rs as [|r rs IH]; intros s Hrs Hnone; [now split|].
  cbn [forallb] in Hrs. apply andb_prop in Hrs as [Hr Hrs]. apply negb_true_iff in Hr.
  cbn [serve]. destruct (handle_app r s) as (new & H1 & _ & Hn & Hk).
  destruct (IH (snd (handle X P env r s)) Hrs (Hk Hr Hnone)) as [H2 H3].
  split; [|exact H3]. rewrite H2, H1, (Hn Hnone). apply app_nil_r.
Qed.

(** X14. Nothing is booked while the calendar is disconnected: after
    [POST /auth/logout], whatever requests follow and whatever the libraries
    and the voice platform answer, as long as none of the requests is the
    OAuth callback, [booked_slots] stays as it was and [GET /auth/status]
    answers that the service is not authenticated. *)
Theorem nothing_is_booked_while_disconnected (rs : list incoming) (s : server) :
  forallb (fun r => negb (is_callback r)) rs = true ->
  let s' := serve X P env (POST_auth_logout :: rs) s in
  booked_slots (app s') = booked_slots (app s)
  /\ auth_status (app s') = (ok (PDict [ ("authenticated", PBool false) ]), app s').
Proof.
  intros Hrs s'. subst s'. cbn [serve].
  assert (booked_slots (app (snd (handle X P env POST_auth_logout s))) = booked_slots (app s)
          /\ token_store (app (snd (handle X P env POST_auth_logout s))) !! "default" = None)
    as [Hb Hn].
  { cbn [handle]. unfold in_app, logout. cbn [snd app].
    destruct (token_store (app s) !! "default") eqn:E; cbn [booked_slots token_store].
    - split; [reflexivity | apply lookup_delete_eq].
    - now split. }
  destruct (serve_disconnected rs _ Hrs Hn) as [H1 H2].
  split; [now rewrite H1|]. unfold auth_status, bind, read, ret. now rewrite H2.
Qed.

(** X15. The list of appointments only grows, and by at most one entry
    for each request to the tool endpoint: whatever requests are served,
    and whatever the libraries and the voice platform answer,
    [GET /appointments] afterwards reports the entries it would have
    reported before, in the same order, followed by at most as many new
    entries as there were tool requests, and the count of them all. *)
Theorem appointments_are_only_appended (rs : list incoming) (s : server) :
  exists new,
    booked_slots (app (serve X P env rs s)) = booked_slots (app s) ++ new
    /\ (length new <= tool_requests rs)%nat
    /\ fst (list_appointments (app (serve X P env rs s)))
       = ok (PDict [ ("appointments",
                      PList (map slot_value (booked_slots (app s)) ++ map slot_value new));
                     ("count",
                      PInt (Z.of_nat (length (booked_slots (app s)))
                            + Z.of_nat (length new))) ]).
Proof.
  destruct (serve_slots rs s) as (new & H & L). exists new. repeat split; try assumption.
  unfold list_appointments, bind, read, ret. cbn [fst].
  now rewrite H, map_app, length_app, Nat2Z.inj_add.
Qed.

(** ** The webhook *)

(** X16. On a body that is a JSON object with no [message], or with a
    [message] that is an object, the webhook acknowledges the event with
    [{"received": true}] and status 200 in every case but one: an event
    whose [type] is not "end-of-call-report" is acknowledged; a report
    without [cost] is acknowledged; a report with a [cost] is acknowledged
    when the cost is a float, a [bool] or an [int] that converts to a float;
    and for a report with any other [cost] ([null], a text, a list, an
    object, an [int] too large for a float) the exception of the formatting
    leaves the route and the caller gets status 500. *)
Theorem webhook_acknowledges_all_but_unpriced_reports (raw : string)
    (items message : list (string * value)) :
  json_loads X raw = ok (PDict items) ->
  assoc "message" items = Some (PDict message)
  \/ (assoc "message" items = None /\ message = []) ->
  let acknowledged :=
    vapi_webhook X raw = ok (PDict [ ("received", PBool true) ])
    /\ status_code (vapi_webhook X raw) = 200 in
  (assoc "type" message <> Some (PStr "end-of-call-report") -> acknowledged)
  /\ (assoc "type" message = Some (PStr "end-of-call-report") ->
      assoc "cost" message = None -> acknowledged)
  /\ (forall cost,
         assoc "type" message = Some (PStr "end-of-call-report") ->
         assoc "cost" message = Some cost ->
         spec_formats_as_number cost = true -> acknowledged)
  /\ (forall cost,
         assoc "type" message = Some (PStr "end-of-call-report") ->
         assoc "cost" message = Some cost ->
         spec_formats_as_number cost = false ->
         exists e,
           vapi_webhook X raw = throw e
           /\ (forall code detail, e <> HTTPException code detail)
           /\ status_code (vapi_webhook X raw) = 500).
Proof.
  intros Hloads Hmessage.
  assert (vapi_webhook X raw
          = let? logged :=
              if is_text "end-of-call-report"
                   (match assoc "type" message with Some v => v | None => PStr "unknown" end)
              then format_4f (match assoc "cost" message with
                                | Some v => v
                                | None => PInt 0
                                end)
              else ok tt in
            ok (PDict [ ("received", PBool true) ])) as ->.
  { unfold vapi_webhook. rewrite Hloads. cbn [rbind ok get].
    destruct Hmessage as [-> | [-> ->]]; reflexivity. }
  cbv zeta. split; [|split; [|split]].
  - intros Hother.
    destruct (assoc "type" message) as [t|]; [|now split].
    destruct t; try (now split). cbn [is_text].
    destruct (String.eqb_spec "end-of-call-report" s) as [<-|_]; [|now split].
    now contradict Hother.
  - intros -> ->. now split.
  - intros cost -> ->. cbn [is_text]. rewrite String.eqb_refl.
    destruct cost as [|b|z|f|s|l|d]; try discriminate; cbn [spec_formats_as_number format_4f];
      try (intros _; now split).
    unfold int_overflows_float. intros Hz. apply Z.ltb_lt in Hz.
    destruct (Z.leb_spec (2 ^ 1024 - 2 ^ 970) (Z.abs z)) as [Hle|_]; [|now split].
    exfalso. exact (Z.lt_irrefl _ (Z.le_lt_trans _ _ _ Hle Hz)).
  - intros cost -> ->. cbn [is_text]. rewrite String.eqb_refl.
    destruct cost as [|b|z|f|s|l|d]; try discriminate; cbn [spec_formats_as_number format_4f];
      try (intros _; eexists; split; [reflexivity|]; split; [discriminate | reflexivity]).
    unfold int_overflows_float. intros Hz. apply Z.ltb_ge in Hz.
    destruct (Z.leb_spec (2 ^ 1024 - 2 ^ 970) (Z.abs z)) as [_|Hlt].
    + eexists. split; [reflexivity|]. split; [discriminate | reflexivity].
    + exfalso. exact (Z.lt_irrefl _ (Z.le_lt_trans _ _ _ Hz Hlt)).
Qed.

(** ** The call routes *)

Lemma relay_cases {A : Type} (body : C A) (made0 made1 : list Request.t)
    (f : failure + A) :
  body made0 = (f, made1) ->
  exists r, relay X body made0 = (r, made1)
            /\ match f with
               | inr a => r = ok a
               | inl (HTTPStatusError response) =>
                   r = throw (HTTPException (Response.status_code response)
                                (Response.text response))
               | inl (Other e) => r = throw (HTTPException 500 (exn_str X e))
               end.
Proof.
  intros H. unfold relay. rewrite H. destruct f as [[response|e]|a]; eauto.
Qed.

(** The assistant is asked for with one request, whatever comes of it. *)
Lemma update_assistant_requests (made0 : list Request.t) :
  exists f,
    update_assistant P env (build_assistant_config P) made0
    = (f, made0 ++ [assistant_request env (build_assistant_config P)]).
Proof.
  unfold update_assistant, assistant_request.
  destruct (negb (Config.unset (VAPI_ASSISTANT_ID env))).
  - unfold cbind at 1, request at 1.
    destruct (send P made0 _) as [e|response]; cbn [other]; [eauto|].
    unfold cbind at 1, raise_for_status. destruct (Response.raises response); eauto.
  - unfold cbind at 1, request at 1.
    destruct (send P made0 _) as [e|response]; cbn [other]; [eauto|].
    unfold cbind at 1, raise_for_status at 1. destruct (Response.raises response); [eauto|].
    unfold cbind at 1, pure at 1.
    destruct (Response.json response) as [e|created]; cbn [other]; [eauto|].
    unfold pure. eauto.
Qed.

(** The web call is asked for with one request, and what the route returns
    on success names the assistant that the request names. *)
Lemma create_web_call_requests (assistant_id : value) (made1 : list Request.t) :
  exists f,
    create_web_call P env assistant_id made1
    = (f, made1 ++ [web_call_request env assistant_id])
    /\ forall v, f = inr v ->
                 exists call_id web_call_url,
                   v = PDict [ ("call_id", call_id);
                               ("assistant_id", assistant_id);
                               ("web_call_url", web_call_url) ].
Proof.
  unfold create_web_call.
  unfold cbind at 1, request at 1.
  destruct (send P made1 _) as [e|response]; cbn [other];
    [eexists; split; [reflexivity | discriminate]|].
  unfold cbind at 1, raise_for_status at 1.
  destruct (Response.raises response); [eexists; split; [reflexivity | discriminate]|].
  unfold cbind at 1, pure at 1.
  destruct (Response.json response) as [e|call_data]; cbn [other];
    [eexists; split; [reflexivity | discriminate]|].
  unfold cbind at 1, pure at 1.
  destruct (get call_data "webCallUrl" PNone) as [e|first]; cbn [other];
    [eexists; split; [reflexivity | discriminate]|].
  assert (forall (c : C value) (g : failure + value),
             c (made1 ++ [web_call_request env assistant_id])
             = (g, made1 ++ [web_call_request env assistant_id]) ->
             exists f,
               (let+ web_call_url := c in
                let+ logged := pure (get call_data "id" PNone) in
                let+ call_id := pure (get call_data "id" PNone) in
                done (PDict [ ("call_id", call_id);
                              ("assistant_id", assistant_id);
                              ("web_call_url", web_call_url) ]))
                 (made1 ++ [web_call_request env assistant_id])
               = (f, made1 ++ [web_call_request env assistant_id])
               /\ forall v, f = inr v ->
                            exists call_id web_call_url,
                              v = PDict [ ("call_id", call_id);
                                          ("assistant_id", assistant_id);
                                          ("web_call_url", web_call_url) ]) as Hrest.
  { intros c g Hc. unfold cbind at 1. rewrite Hc.
    destruct g as [f|web_call_url]; [eexists; split; [reflexivity | discriminate]|].
    unfold cbind, pure, done.
    destruct (get call_data "id" PNone) as [e|call_id]; cbn [other];
      [eexists; split; [reflexivity | discriminate]|].
    eexists. split; [reflexivity|]. intros v [= <-]. eauto. }
  destruct (truthy first).
  - now apply (Hrest (done first) (inr first)).
  - unfold cbind at 2, pure at 1.
    destruct (get call_data "transport" (PDict [])) as [e|transport]; cbn [other].
    + now apply (Hrest (fun made => (inl (Other e), made)) (inl (Other e))).
    + now apply (Hrest (pure (get transport "callUrl" PNone))
                   (other (get transport "callUrl" PNone))).
Qed.

Lemma start_call_runs (made0 : list Request.t) :
  Config.unset (Config.VAPI_API_KEY (cfg env)) = false ->
  start_call X P env made0
  = relay X (let+ assistant_id := update_assistant P env (build_assistant_config P) in
             create_web_call P env assistant_id) made0.
Proof. intros H. unfold start_call. now rewrite H. Qed.

(** The assistant request and what comes of it. *)
Lemma update_assistant_answer (made0 : list Request.t) :
  let first := assistant_request env (build_assistant_config P) in
  match spec_assistant_id env (send P made0 first) with
  | Some assistant_id =>
      update_assistant P env (build_assistant_config P) made0
      = (inr assistant_id, made0 ++ [first])
  | None =>
      exists f, update_assistant P env (build_assistant_config P) made0
                = (inl f, made0 ++ [first])
  end.
Proof.
  cbv zeta. unfold update_assistant, assistant_request, spec_assistant_id, Config.unset.
  destruct (VAPI_ASSISTANT_ID env) as [[|a id]|]; cbn [String.eqb negb format_setting of_option];
    (destruct (send P made0 _) as [e|response] eqn:Hs;
     [|destruct (Response.raises response) eqn:Hr;
       [|destruct (Response.json response) as [e|[]] eqn:Hj]]);
    unfold cbind, request, raise_for_status, pure; rewrite Hs; cbn [other];
    rewrite ?Hr; rewrite ?Hj; cbn [other get throw ok]; eauto.
Qed.

(** What a returned answer of the web call is made of. *)
Lemma create_web_call_returns (assistant_id v : value) (made1 made2 : list Request.t) :
  create_web_call P env assistant_id made1 = (inr v, made2) ->
  exists response call_data web_call_url,
    send P made1 (web_call_request env assistant_id) = ok response
    /\ Response.raises response = false
    /\ Response.json response = ok (PDict call_data)
    /\ v = PDict [ ("call_id", match assoc "id" call_data with
                               | Some id => id
                               | None => PNone
                               end);
                   ("assistant_id", assistant_id);
                   ("web_call_url", web_call_url) ].
Proof.
  unfold create_web_call. unfold cbind at 1, request at 1.
  destruct (send P made1 _) as [e|response] eqn:Hs; cbn [other]; [discriminate|].
  unfold cbind at 1, raise_for_status at 1.
  destruct (Response.raises response) eqn:Hr; [discriminate|].
  unfold cbind at 1, pure at 1.
  destruct (Response.json response) as [e|call_data] eqn:Hj; cbn [other]; [discriminate|].
  destruct call_data as [| | | | | |call_data];
    try (unfold cbind at 1, pure at 1; cbn [get other throw]; discriminate).
  unfold cbind at 1, pure at 1. cbn [get other ok].
  unfold cbind at 1.
  lazymatch goal with
  | |- match ?t with pair _ _ => _ end = _ -> _ =>
      destruct t as [[f|web_call_url] made']; [discriminate|]
  end.
  unfold cbind, pure, done. cbn [get other ok]. intros [= <- _].
  exists response, call_data, web_call_url. now repeat split.
Qed.

(** X17. [POST /call/start] asks for the assistant first and for the web
    call second, and for nothing else.  Without [VAPI_API_KEY] it makes no
    request and raises [HTTPException] with status 500.  Otherwise it makes
    the assistant request (an update of the assistant named by
    [VAPI_ASSISTANT_ID], or a creation when that is not set).  When the
    client or [raise_for_status] raises on it, or the answer to a creation
    is no JSON object, that is the only request and the route raises
    [HTTPException].  In every other case the route asks for a web call with
    [VAPI_ASSISTANT_ID] when it is set, and else with the [id] of the
    created assistant, which is [None] when the created assistant has none:
    the web call is asked for all the same.  Whatever the platform answers
    to that, nothing but an [HTTPException] leaves the route; and a returned
    answer comes from a response to the web-call request that is a JSON
    object, and holds the [id] of that object as [call_id] and, as
    [assistant_id], the identifier that the web call was asked for. *)
Theorem start_call_asks_for_the_assistant_first (made0 : list Request.t) :
  let first := assistant_request env (build_assistant_config P) in
  let r := fst (start_call X P env made0) in
  let made' := snd (start_call X P env made0) in
  (Config.unset (Config.VAPI_API_KEY (cfg env)) = true ->
   r = throw (HTTPException 500 "VAPI_API_KEY not configured") /\ made' = made0)
  /\ (Config.unset (Config.VAPI_API_KEY (cfg env)) = false ->
      match spec_assistant_id env (send P made0 first) with
      | None =>
          made' = made0 ++ [first]
          /\ exists code detail, r = throw (HTTPException code detail)
      | Some assistant_id =>
          let second := web_call_request env assistant_id in
          made' = made0 ++ [first; second]
          /\ ((exists code detail, r = throw (HTTPException code detail))
              \/ exists response call_data web_call_url,
                   send P (made0 ++ [first]) second = ok response
                   /\ Response.raises response = false
                   /\ Response.json response = ok (PDict call_data)
                   /\ r = ok (PDict [ ("call_id", match assoc "id" call_data with
                                                  | Some id => id
                                                  | None => PNone
                                                  end);
                                      ("assistant_id", assistant_id);
                                      ("web_call_url", web_call_url) ]))
      end).
Proof.
  intros first r made'. subst first r made'. split.
  - intros Hkey. unfold start_call. rewrite Hkey. now split.
  - intros Hkey. rewrite (start_call_runs made0 Hkey).
    pose proof (update_assistant_answer made0) as Hu. cbv zeta in Hu.
    destruct (spec_assistant_id env (send P made0 _)) as [assistant_id|].
    + cbv zeta.
      destruct (create_web_call P env assistant_id
                  (made0 ++ [assistant_request env (build_assistant_config P)]))
        as [f made2] eqn:Hc.
      destruct (create_web_call_requests assistant_id
                  (made0 ++ [assistant_request env (build_assistant_config P)]))
        as (f' & Hc' & _).
      rewrite Hc in Hc'. injection Hc' as <- ->.
      destruct (relay_cases
                  (let+ assistant_id := update_assistant P env (build_assistant_config P) in
                   create_web_call P env assistant_id) made0
                  ((made0 ++ [assistant_request env (build_assistant_config P)])
                   ++ [web_call_request env assistant_id]) f) as (r & -> & Hr).
      { unfold cbind. rewrite Hu. exact Hc. }
      cbn [fst snd]. rewrite <- app_assoc. split; [reflexivity|].
      destruct f as [[response|e]|v]; [left; eauto | left; eauto |].
      right. apply create_web_call_returns in Hc
        as (response & call_data & web_call_url & Hsend & Hraises & Hjson & ->).
      exists response, call_data, web_call_url. now repeat split.
    + destruct Hu as [f Hu].
      destruct (relay_cases
                  (let+ assistant_id := update_assistant P env (build_assistant_config P) in
                   create_web_call P env assistant_id) made0
                  (made0 ++ [assistant_request env (build_assistant_config P)]) (inl f))
        as (r & -> & Hr).
      { unfold cbind. now rewrite Hu. }
      cbn [fst snd]. split; [reflexivity|]. destruct f; eauto.
Qed.

(** X18. An error of the voice platform is passed on by [POST /call/start]
    with the platform's own status and text: when the platform answers the
    assistant request, or the request for the web call, with a response for
    which [raise_for_status] raises, the route raises [HTTPException] with
    the status code and the text of that response; after a refused assistant
    request the web call is not asked for.  When the HTTP client itself
    raises on the assistant request, the route raises [HTTPException] with
    status 500 and the text of the exception. *)
Theorem platform_errors_are_passed_on (made0 : list Request.t) (response : Response.t) :
  Config.unset (Config.VAPI_API_KEY (cfg env)) = false ->
  Response.raises response = true ->
  (send P made0 (assistant_request env (build_assistant_config P)) = ok response ->
   start_call X P env made0
   = (throw (HTTPException (Response.status_code response) (Response.text response)),
      made0 ++ [assistant_request env (build_assistant_config P)]))
  /\ (forall assistant_id made1,
         update_assistant P env (build_assistant_config P) made0 = (inr assistant_id, made1) ->
         send P made1 (web_call_request env assistant_id) = ok response ->
         start_call X P env made0
         = (throw (HTTPException (Response.status_code response) (Response.text response)),
            made1 ++ [web_call_request env assistant_id]))
  /\ (forall e,
         send P made0 (assistant_request env (build_assistant_config P)) = throw e ->
         start_call X P env made0
         = (throw (HTTPException 500 (exn_str X e)),
            made0 ++ [assistant_request env (build_assistant_config P)])).
Proof.
  intros Hkey Hraises. rewrite (start_call_runs made0 Hkey). split; [|split].
  - intros Hsend. unfold assistant_request in *. unfold relay. unfold cbind at 1. unfold update_assistant.
    destruct (negb (Config.unset (VAPI_ASSISTANT_ID env)));
      unfold cbind at 1, request at 1; rewrite Hsend; cbn [other ok];
      unfold cbind at 1, raise_for_status at 1; now rewrite Hraises.
  - intros assistant_id made1 Hu Hsend. unfold relay, cbind at 1. rewrite Hu.
    unfold create_web_call, cbind at 1, request at 1. rewrite Hsend. cbn [other ok].
    unfold cbind at 1, raise_for_status at 1. now rewrite Hraises.
  - intros e Hsend. unfold assistant_request in *. unfold relay. unfold cbind at 1. unfold update_assistant.
    destruct (negb (Config.unset (VAPI_ASSISTANT_ID env)));
      unfold cbind at 1, request at 1; now rewrite Hsend.
Qed.

(** X19. [POST /call/start] does not check [VAPI_API_PUBLIC_KEY], though
    it uses it: when the public key is not set and the assistant request has
    given an identifier, the route asks for the web call with the header
    [Authorization: Bearer None].  [POST /call/start_phone] in the same
    configuration makes no request and raises [HTTPException] with status
    500 and the detail "VAPI_API_PUBLIC_KEY not configured". *)
Theorem start_call_does_not_check_the_public_key (made0 made1 : list Request.t)
    (assistant_id : value) :
  Config.unset (Config.VAPI_API_KEY (cfg env)) = false ->
  Config.VAPI_API_PUBLIC_KEY (cfg env) = None ->
  update_assistant P env (build_assistant_config P) made0 = (inr assistant_id, made1) ->
  snd (start_call X P env made0) = made1 ++ [web_call_request env assistant_id]
  /\ Request.headers (web_call_request env assistant_id)
     = [ ("Authorization", "Bearer None"); ("Content-Type", "application/json") ]
  /\ start_phone_call X P env made0
     = (throw (HTTPException 500 "VAPI_API_PUBLIC_KEY not configured"), made0).
Proof.
  intros Hkey Hpublic Hu. split; [|split].
  - rewrite (start_call_runs made0 Hkey).
    destruct (create_web_call_requests assistant_id made1) as (f & Hc & _).
    destruct (relay_cases
                (let+ assistant_id := update_assistant P env (build_assistant_config P) in
                 create_web_call P env assistant_id) made0
                (made1 ++ [web_call_request env assistant_id]) f) as (r & -> & _);
      [|reflexivity].
    unfold cbind. rewrite Hu. exact Hc.
  - unfold web_call_request, bearer. cbn [Request.headers]. now rewrite Hpublic.
  - unfold start_phone_call. now rewrite Hpublic.
Qed.

(** ** From the callback to a booking *)

(** A tool call with valid arguments, a stored credential and a calendar
    that creates the event. *)
Lemma tool_books (raw : string) (st : state) (body id : value)
    (args : list (string * value)) (kw : Models.kwargs) (appt : Models.AppointmentDetails)
    (token : value) (start_dt end_dt : datetime X) (created : list (string * value)) :
  utf8_decodes X raw = true ->
  json_loads X raw = ok body ->
  identifier_found body id ->
  arguments_found X body args ->
  List.filter (spec_absent_or_empty args) required_fields = [] ->
  appointment_kwargs (cfg env) (PDict args) = ok kw ->
  Models.new X (cfg env) kw = ok appt ->
  token_store st !! "default" = Some token ->
  build_service X token = ok tt ->
  localize X (Models.timezone appt)
    (Models.date appt +:+ "T" +:+ Models.time appt +:+ ":00") = ok start_dt ->
  add_minutes X start_dt (Models.duration_minutes appt) = ok end_dt ->
  events_insert X token (event_body X (cfg env) appt start_dt end_dt) = ok (PDict created) ->
  book_appointment_tool X (cfg env) raw st
  = (ok (envelope id (PStr (booked_message (Models.email appt)))),
     {| token_store := token_store st;
        booked_slots :=
          booked_slots st ++ [slot_of X appt (default PNone (assoc "id" created))
                                (default PNone (assoc "htmlLink" created))];
        trace := trace st ++ [AppointmentDetails_call kw;
                              events_insert_call
                                (event_body X (cfg env) appt start_dt end_dt)] |}).
Proof.
  intros Hutf Hloads Hid Hargs Hmissing Hkw Hnew Htoken Hbuild Hstart Hend Hinsert.
  apply MainFacts.tool_returns with (fr := {| tool_call_id := Some id |}); [exact Hutf|].
  rewrite (MainFacts.try_body_books X (cfg env) raw st body id args Hloads Hid Hargs).
  rewrite (MainFacts.book_constructs X (cfg env) args kw appt _ st Hmissing Hkw Hnew).
  unfold bind at 1, on_snd at 1. cbn [fst snd].
  rewrite (MainFacts.insert_event_succeeds X (cfg env) appt
             {| token_store := token_store st;
                booked_slots := booked_slots st;
                trace := trace st ++ [AppointmentDetails_call kw] |}
             token start_dt end_dt created Htoken Hbuild Hstart Hend Hinsert).
  cbn [token_store booked_slots trace]. rewrite <- app_assoc. reflexivity.
Qed.

(** X20. Connecting the calendar is what enables a booking: after a
    callback whose exchange returns credentials with scopes, a tool request
    with valid arguments is booked with the calendar client built from the
    six values that the callback stored, provided the calendar creates the
    event; the answer is the confirmation, and [GET /appointments] then
    reports one entry more, the slot of this appointment, at the end. *)
Theorem connecting_enables_booking (code raw : string) (s : server)
    (creds : Credentials.t) (scopes : list value) (body id : value)
    (args : list (string * value)) (kw : Models.kwargs) (appt : Models.AppointmentDetails)
    (start_dt end_dt : datetime X) (created : list (string * value)) :
  fetch_token P (get_google_flow env) code = ok creds ->
  Credentials.scopes creds = Some scopes ->
  utf8_decodes X raw = true ->
  json_loads X raw = ok body ->
  identifier_found body id ->
  arguments_found X body args ->
  List.filter (spec_absent_or_empty args) spec_required_fields = [] ->
  appointment_kwargs (cfg env) (PDict args) = ok kw ->
  Models.new X (cfg env) kw = ok appt ->
  build_service X (token_data creds scopes) = ok tt ->
  localize X (Models.timezone appt)
    (Models.date appt +:+ "T" +:+ Models.time appt +:+ ":00") = ok start_dt ->
  add_minutes X start_dt (Models.duration_minutes appt) = ok end_dt ->
  events_insert X (token_data creds scopes) (event_body X (cfg env) appt start_dt end_dt)
  = ok (PDict created) ->
  let connected := snd (handle X P env (GET_auth_callback code) s) in
  let slot := slot_of X appt (default PNone (assoc "id" created))
                (default PNone (assoc "htmlLink" created)) in
  fst (handle X P env (POST_vapi_tool raw) connected)
  = ok (JSONResponse
          (spec_envelope id
             (PStr ("Your session is booked! A calendar invite has been sent to "
                    +:+ Models.email appt
                    +:+ ". We look forward to speaking with you!"))))
  /\ booked_slots (app (serve X P env [GET_auth_callback code; POST_vapi_tool raw] s))
     = booked_slots (app s) ++ [slot]
  /\ fst (list_appointments
            (app (serve X P env [GET_auth_callback code; POST_vapi_tool raw] s)))
     = ok (PDict [ ("appointments",
                    PList (map slot_value (booked_slots (app s)) ++ [slot_value slot]));
                   ("count", PInt (Z.of_nat (length (booked_slots (app s))) + 1)) ]).
Proof.
  intros Hfetch Hscopes Hutf Hloads Hid Hargs Hmissing Hkw Hnew Hbuild Hstart Hend Hinsert
    connected slot.
  assert (app connected
          = {| token_store := <["default" := token_data creds scopes]> (token_store (app s));
               booked_slots := booked_slots (app s);
               trace := trace (app s) |}) as Hconnected.
  { subst connected. cbn [handle]. unfold in_app.
    destruct (google_callback_cases code (app s))
      as [(e & _ & [He | (creds' & Hc & He)]) | (creds' & scopes' & Hc & Hs & ->)].
    - rewrite Hfetch in He. discriminate.
    - rewrite Hfetch in Hc. injection Hc as <-. rewrite Hscopes in He. discriminate.
    - rewrite Hfetch in Hc. injection Hc as <-. rewrite Hscopes in Hs. injection Hs as <-.
      reflexivity. }
  pose proof (tool_books raw (app connected) body id args kw appt (token_data creds scopes)
                start_dt end_dt created Hutf Hloads Hid Hargs Hmissing Hkw Hnew) as Hbook.
  rewrite Hconnected in Hbook. cbn [token_store booked_slots trace] in Hbook.
  specialize (Hbook (lookup_insert_eq _ _ _) Hbuild Hstart Hend Hinsert).
  assert (booked_slots (app (snd (handle X P env (POST_vapi_tool raw) connected)))
          = booked_slots (app s) ++ [slot]) as Hslots.
  { cbn [handle]. unfold in_app. rewrite Hconnected, Hbook. reflexivity. }
  split; [|split].
  - cbn [handle]. unfold in_app. rewrite Hconnected, Hbook. reflexivity.
  - exact Hslots.
  - cbn [serve]. fold connected. unfold list_appointments, bind, read, ret. cbn [fst].
    rewrite Hslots, map_app, length_app, Nat2Z.inj_add. reflexivity.
Qed.

(** ** The settings that the call routes need *)

Lemma start_phone_call_requests (made0 : list Request.t) :
  Config.unset (Config.VAPI_API_PUBLIC_KEY (cfg env)) = false ->
  exists r, start_phone_call X P env made0
            = (r, made0 ++ [phone_call_request env (build_assistant_config P)]).
Proof.
  intros Hkey. unfold start_phone_call. rewrite Hkey. cbv zeta.
  assert (exists f,
             (let+ response := request P (phone_call_request env (build_assistant_config P)) in
              let+ _ := raise_for_status response in
              let+ data := pure (Response.json response) in
              let+ logged := pure (get data "id" PNone) in
              let+ call_id := pure (get data "id" PNone) in
              let+ web_call_url := pure (get data "webCallUrl" PNone) in
              done (PDict [ ("call_id", call_id); ("web_call_url", web_call_url) ])) made0
             = (f, made0 ++ [phone_call_request env (build_assistant_config P)])) as [f Hf].
  { unfold cbind at 1, request at 1.
    destruct (send P made0 _) as [e|response]; cbn [other]; [eauto|].
    unfold cbind at 1, raise_for_status at 1. destruct (Response.raises response); [eauto|].
    unfold cbind at 1, pure at 1.
    destruct (Response.json response) as [e|data]; cbn [other]; [eauto|].
    unfold cbind, pure, done.
    destruct (get data "id" PNone) as [e|call_id]; cbn [other]; [eauto|].
    destruct (get data "webCallUrl" PNone) as [e|web_call_url]; cbn [other]; eauto. }
  destruct (relay_cases _ made0 _ f Hf) as (r & Hr & _). now exists r.
Qed.

Lemma required_is_set (c : Config.settings) (n : string) (v : option string) :
  Config.ENVIRONMENT c = "production" ->
  Config.validate_on_import c = ok tt ->
  In (n, v) (Config.required_vars c) ->
  Config.unset v = false.
Proof.
  intros Hprod Hvalid Hin. unfold Config.validate_on_import in Hvalid.
  rewrite ConfigFacts.validate_config_cases, Hprod in Hvalid.
  change (String.eqb "production" "") with false in Hvalid.
  rewrite String.eqb_refl in Hvalid. cbn [negb] in Hvalid.
  destruct (spec_missing_settings c) as [|m ms] eqn:Hmissing; [|discriminate].
  destruct (Config.unset v) eqn:Hv; [|reflexivity].
  assert (In n (spec_missing_settings c)) as Hn
    by (apply ConfigFacts.missing_settings_iff; now exists v).
  rewrite Hmissing in Hn. destruct Hn.
Qed.

(** X21. In production the call routes never lack their keys: when
    [ENVIRONMENT] is "production" and the import of config.py has passed its
    validation, [VAPI_API_KEY] and [VAPI_API_PUBLIC_KEY] are set and not
    empty, so that [POST /call/start] always makes its assistant request and
    [POST /call/start_phone] always makes its one request; the checks of the
    two routes for a missing key can only fire outside production. *)
Theorem production_has_the_keys (made0 : list Request.t) :
  Config.ENVIRONMENT (cfg env) = "production" ->
  Config.validate_on_import (cfg env) = ok tt ->
  Config.unset (Config.VAPI_API_KEY (cfg env)) = false
  /\ Config.unset (Config.VAPI_API_PUBLIC_KEY (cfg env)) = false
  /\ (exists rest,
         snd (start_call X P env made0)
         = made0 ++ assistant_request env (build_assistant_config P) :: rest)
  /\ snd (start_phone_call X P env made0)
     = made0 ++ [phone_call_request env (build_assistant_config P)].
Proof.
  intros Hprod Hvalid.
  assert (Config.unset (Config.VAPI_API_KEY (cfg env)) = false) as Hkey.
  { apply (required_is_set (cfg env) "VAPI_API_KEY" _ Hprod Hvalid). cbn. auto. }
  assert (Config.unset (Config.VAPI_API_PUBLIC_KEY (cfg env)) = false) as Hpublic.
  { apply (required_is_set (cfg env) "VAPI_API_PUBLIC_KEY" _ Hprod Hvalid). cbn. auto. }
  split; [exact Hkey|]. split; [exact Hpublic|]. split.
  - rewrite (start_call_runs made0 Hkey).
    destruct (update_assistant_requests made0) as [[f|assistant_id] Hu].
    + exists []. unfold relay, cbind. rewrite Hu. now destruct f.
    + destruct (create_web_call_requests assistant_id
                  (made0 ++ [assistant_request env (build_assistant_config P)]))
        as (f & Hc & _).
      exists [web_call_request env assistant_id].
      unfold relay, cbind. rewrite Hu, Hc, <- app_assoc. now destruct f as [[]|].
  - destruct (start_phone_call_requests made0 Hpublic) as [r ->]. reflexivity.
Qed.

End Facts.
End RoutesFacts.

(* ===================================================================== *)
(** * More examples                                                       *)
(* ===================================================================== *)

Module MoreExamples.
Import Lib Main Notions Views TextFacts HandlerFacts.

Lemma constructed_appointment_is_validated_witness :
  validated Sample.X Sample.john
  /\ (pytz_timezone Sample.X (Models.timezone Sample.john) = true
      \/ (Models.kw_timezone Sample.john_kwargs = None
          /\ Models.timezone Sample.john = Config.DEFAULT_TIMEZONE Sample.settings)).
Proof.
  exact (constructed_appointment_is_validated Sample.X Sample.settings Sample.john_kwargs
           Sample.john eq_refl).
Defined.



Lemma john_text_identifier : identifier_found MoreSample.john_text_body (PStr "call_1").
Proof. reflexivity. Qed.

Lemma text_arguments_are_handled_like_an_object_witness :
  book_appointment_tool MoreSample.X Sample.settings MoreSample.john_text_request
    Sample.connected
  = book_appointment_tool MoreSample.X Sample.settings Sample.john_request Sample.connected.
Proof.
  refine (text_arguments_are_handled_like_an_object MoreSample.X Sample.settings
            MoreSample.john_text_request Sample.john_request Sample.connected
            MoreSample.john_text_body Sample.john_body (PStr "call_1") MoreSample.john_text
            Sample.john_items
            eq_refl eq_refl john_text_identifier eq_refl _ eq_refl
            eq_refl eq_refl Examples.john_identifier eq_refl _).
  - apply String.eqb_neq. reflexivity.
  - discriminate.
Defined.

Lemma bad_email_identifier : identifier_found MoreSample.bad_email_body (PStr "call_5").
Proof. reflexivity. Qed.

Lemma bad_email_arguments_found :
  arguments_found MoreSample.X MoreSample.bad_email_body MoreSample.bad_email_items.
Proof. exists (PDict MoreSample.bad_email_items). repeat split. now left. Qed.

Lemma rejected_arguments_are_not_booked_witness :
  book_appointment_tool MoreSample.X Sample.settings MoreSample.bad_email_request
    Sample.connected
  = (ok (spec_envelope (PStr "call_5")
           (PStr "Invalid email address. Could you double-check your email?")),
     with_calls Sample.connected [AppointmentDetails_call MoreSample.bad_email_kwargs])
  /\ status_code (fst (book_appointment_tool MoreSample.X Sample.settings
                         MoreSample.bad_email_request Sample.connected))
     = 200.
Proof.
  exact (rejected_arguments_are_not_booked MoreSample.X Sample.settings
           MoreSample.bad_email_request Sample.connected MoreSample.bad_email_body
           (PStr "call_5") MoreSample.bad_email_items MoreSample.bad_email_kwargs
           MoreSample.bad_email_error
           eq_refl eq_refl bad_email_identifier bad_email_arguments_found
           eq_refl eq_refl eq_refl).
Defined.

Lemma provider_refusals_are_spoken_witness :
  let st' := with_calls Sample.connected
               [AppointmentDetails_call Sample.john_kwargs;
                events_insert_call
                  (event_body Sample.X_conflict Sample.settings Sample.john
                     "2026-03-15T14:00:00[America/Los_Angeles]"
                     "2026-03-15T14:00:00[America/Los_Angeles]+PT60M")] in
  book_appointment_tool Sample.X_conflict Sample.settings Sample.john_request Sample.connected
  = (ok (envelope (PStr "call_1") (PStr "Time slot conflict detected.")), st').
Proof.
  intros st'.
  refine (proj2 (proj2 (provider_refusals_are_spoken Sample.X_conflict Sample.settings
                          Sample.john_request Sample.connected st' Sample.john_body
                          (PStr "call_1") Sample.john_items Sample.john_kwargs Sample.john
                          Sample.conflict_text
                          eq_refl eq_refl Examples.john_identifier
                          (Examples.john_arguments_found Sample.X_conflict)
                          eq_refl eq_refl eq_refl _)) _ _).
  - vm_compute. reflexivity.
  - apply str_contains_false_iff. reflexivity.
  - apply str_contains_iff. reflexivity.
Defined.

Lemma two_places_identifier :
  identifier_found (PDict Sample.two_places_items) (PStr "call_a").
Proof. reflexivity. Qed.

Lemma identifier_is_sought_in_order_witness :
  spec_first_non_empty (identifier_candidates (PDict Sample.two_places_items))
  = Some (PStr "call_a").
Proof.
  exact (identifier_is_sought_in_order Sample.two_places_items (PStr "call_a")
           two_places_identifier).
Defined.

Lemma nothing_is_booked_while_disconnected_witness :
  let s' := Routes.serve Sample.X RoutesSample.P RoutesSample.env
              [Routes.POST_auth_logout; Routes.POST_vapi_tool Sample.john_request;
               Routes.GET_appointments]
              RoutesSample.connected in
  booked_slots (Routes.app s') = booked_slots (Routes.app RoutesSample.connected)
  /\ Routes.auth_status (Routes.app s')
     = (ok (PDict [ ("authenticated", PBool false) ]), Routes.app s').
Proof.
  exact (RoutesFacts.nothing_is_booked_while_disconnected Sample.X RoutesSample.P
           RoutesSample.env
           [Routes.POST_vapi_tool Sample.john_request; Routes.GET_appointments]
           RoutesSample.connected eq_refl).
Defined.

Lemma webhook_acknowledges_all_but_unpriced_reports_witness :
  status_code (Routes.vapi_webhook MoreSample.X MoreSample.report_request) = 500
  /\ Routes.vapi_webhook MoreSample.X MoreSample.text_cost_request
     = throw (ValueError "Unknown format code 'f' for object of type 'str'")
  /\ Routes.vapi_webhook MoreSample.X Sample.webhook_request
     = ok (PDict [ ("received", PBool true) ]).
Proof.
  split; [|split].
  - destruct (proj2 (proj2 (proj2
                (RoutesFacts.webhook_acknowledges_all_but_unpriced_reports MoreSample.X
                   MoreSample.report_request MoreSample.report_items
                   MoreSample.report_message eq_refl (or_introl eq_refl))))
                PNone eq_refl eq_refl eq_refl) as (e & _ & _ & Hstatus).
    exact Hstatus.
  - destruct (proj2 (proj2 (proj2
                (RoutesFacts.webhook_acknowledges_all_but_unpriced_reports MoreSample.X
                   MoreSample.text_cost_request MoreSample.text_cost_items
                   MoreSample.text_cost_message eq_refl (or_introl eq_refl))))
                (PStr "0.05") eq_refl eq_refl eq_refl) as (e & He & _ & _).
    reflexivity.
  - refine (proj1 (proj1 (RoutesFacts.webhook_acknowledges_all_but_unpriced_reports
                            MoreSample.X Sample.webhook_request
                            [ ("type", PStr "status-update");
                              ("toolCall", PDict [ ("id", PStr "call_3") ]) ]
                            [] eq_refl (or_intror (conj eq_refl eq_refl))) _)).
    discriminate.
Defined.

Lemma platform_errors_are_passed_on_witness :
  Routes.start_call Sample.X RoutesSample.P_unauthorized RoutesSample.env []
  = (throw (HTTPException 401 (Routes.Response.text RoutesSample.unauthorized)),
     [RoutesSample.post_assistant]).
Proof.
  exact (proj1 (RoutesFacts.platform_errors_are_passed_on Sample.X
                  RoutesSample.P_unauthorized RoutesSample.env [] RoutesSample.unauthorized
                  eq_refl eq_refl)
           eq_refl).
Defined.

Lemma start_call_does_not_check_the_public_key_witness :
  snd (Routes.start_call Sample.X RoutesSample.P RoutesSample.env [])
  = [RoutesSample.post_assistant;
     Routes.web_call_request RoutesSample.env (PStr "asst_1")]
  /\ Routes.Request.headers (Routes.web_call_request RoutesSample.env (PStr "asst_1"))
     = [ ("Authorization", "Bearer None"); ("Content-Type", "application/json") ]
  /\ Routes.start_phone_call Sample.X RoutesSample.P RoutesSample.env []
     = (throw (HTTPException 500 "VAPI_API_PUBLIC_KEY not configured"), []).
Proof.
  exact (RoutesFacts.start_call_does_not_check_the_public_key Sample.X RoutesSample.P
           RoutesSample.env [] [RoutesSample.post_assistant] (PStr "asst_1")
           eq_refl eq_refl eq_refl).
Defined.

Lemma connecting_enables_booking_witness :
  let connected :=
    snd (Routes.handle Sample.X RoutesSample.P RoutesSample.env
           (Routes.GET_auth_callback RoutesSample.code) RoutesSample.disconnected) in
  let slot := slot_of Sample.X Sample.john
                (default PNone (assoc "id" RoutesSample.created_items))
                (default PNone (assoc "htmlLink" RoutesSample.created_items)) in
  fst (Routes.handle Sample.X RoutesSample.P RoutesSample.env
         (Routes.POST_vapi_tool Sample.john_request) connected)
  = ok (Routes.JSONResponse
          (spec_envelope (PStr "call_1")
             (PStr "Your session is booked! A calendar invite has been sent to john@example.com. We look forward to speaking with you!")))
  /\ booked_slots
       (Routes.app
          (Routes.serve Sample.X RoutesSample.P RoutesSample.env
             [Routes.GET_auth_callback RoutesSample.code;
              Routes.POST_vapi_tool Sample.john_request] RoutesSample.disconnected))
     = booked_slots (Routes.app RoutesSample.disconnected) ++ [slot]
  /\ fst (Routes.list_appointments
            (Routes.app
               (Routes.serve Sample.X RoutesSample.P RoutesSample.env
                  [Routes.GET_auth_callback RoutesSample.code;
                   Routes.POST_vapi_tool Sample.john_request] RoutesSample.disconnected)))
     = ok (PDict [ ("appointments",
                    PList (map Routes.slot_value
                             (booked_slots (Routes.app RoutesSample.disconnected))
                           ++ [Routes.slot_value slot]));
                   ("count",
                    PInt (Z.of_nat (length (booked_slots
                                              (Routes.app RoutesSample.disconnected)))
                          + 1)) ]).
Proof.
  exact (RoutesFacts.connecting_enables_booking Sample.X RoutesSample.P RoutesSample.env
           RoutesSample.code Sample.john_request RoutesSample.disconnected
           RoutesSample.credentials RoutesSample.scopes Sample.john_body (PStr "call_1")
           Sample.john_items Sample.john_kwargs Sample.john
           "2026-03-15T14:00:00[America/Los_Angeles]"
           "2026-03-15T14:00:00[America/Los_Angeles]+PT60M"
           RoutesSample.created_items
           eq_refl eq_refl eq_refl eq_refl Examples.john_identifier
           (Examples.john_arguments_found Sample.X)
           eq_refl eq_refl eq_refl eq_refl eq_refl eq_refl eq_refl).
Defined.

Lemma production_has_the_keys_witness :
  Config.unset (Config.VAPI_API_KEY (Routes.cfg RoutesSample.production_env)) = false
  /\ Config.unset (Config.VAPI_API_PUBLIC_KEY (Routes.cfg RoutesSample.production_env)) = false
  /\ (exists rest,
         snd (Routes.start_call Sample.X RoutesSample.P RoutesSample.production_env [])
         = [] ++ Routes.assistant_request RoutesSample.production_env
                   (Routes.build_assistant_config RoutesSample.P) :: rest)
  /\ snd (Routes.start_phone_call Sample.X RoutesSample.P RoutesSample.production_env [])
     = [] ++ [Routes.phone_call_request RoutesSample.production_env
                (Routes.build_assistant_config RoutesSample.P)].
Proof.
  exact (RoutesFacts.production_has_the_keys Sample.X RoutesSample.P
           RoutesSample.production_env [] eq_refl eq_refl).
Defined.

Lemma empty_tool_call_list_is_an_error_witness :
  book_appointment_tool MoreSample.X Sample.settings MoreSample.empty_list_request
    Sample.connected
  = (ok (spec_envelope PNone (PStr "Something went wrong on our end. I'll try once more.")),
     Sample.connected).
Proof.
  exact (empty_tool_call_list_is_an_error MoreSample.X Sample.settings
           MoreSample.empty_list_request Sample.connected MoreSample.empty_list_items
           eq_refl eq_refl eq_refl eq_refl eq_refl).
Defined.

(** The body with arguments in two places; a status update with an
    identifier and no arguments; a bare empty list of tool calls. *)
Lemma arguments_are_sought_in_order_witness :
  (extract_args Sample.two_places_body = ok (PDict [ ("name", PStr "A") ])
   /\ spec_first_non_empty (spec_candidates Sample.two_places_body)
      = Some (PDict [ ("name", PStr "A") ]))
  /\ book_appointment_tool MoreSample.X Sample.settings Sample.webhook_request
       Sample.connected
     = (ok (spec_envelope (PStr "call_3")
              (PStr "I had trouble reading the booking details. Could you try again?")),
        Sample.connected)
  /\ (spec_first_non_empty (spec_candidates (PDict MoreSample.bare_list_items)) = None
      /\ book_appointment_tool MoreSample.X Sample.settings MoreSample.bare_list_request
           Sample.connected
         = (ok (spec_envelope PNone
                  (PStr "Something went wrong on our end. I'll try once more.")),
            Sample.connected)).
Proof.
  destruct (SearchFacts.arguments_are_sought_in_order MoreSample.X Sample.settings)
    as (Hreturns & Hsettled & Hasks & Hfails).
  split; [|split].
  - split; [reflexivity|].
    exact (Hsettled Sample.two_places_items (PDict [ ("name", PStr "A") ]) eq_refl).
  - destruct (Hasks Sample.webhook_request Sample.connected
                [ ("type", PStr "status-update");
                  ("toolCall", PDict [ ("id", PStr "call_3") ]) ]
                eq_refl eq_refl eq_refl eq_refl) as (id & Hid & Hanswer).
    destruct (truthy id) eqn:Ht; [|discriminate Hid].
    injection Hid as <-. exact Hanswer.
  - split; [reflexivity|].
    exact (Hfails MoreSample.bare_list_request Sample.connected MoreSample.bare_list_items
             eq_refl eq_refl eq_refl eq_refl eq_refl).
Defined.

(** C8, as stated, fails: the arguments of this tool call are the empty
    object, which lacks all five fields; the handler does not list them, it
    asks the caller to try again (lines 395-397). *)
Lemma empty_arguments_are_not_listed :
  let answer := book_appointment_tool MoreSample.X Sample.settings
                  MoreSample.empty_args_request Sample.disconnected in
  json_loads MoreSample.X MoreSample.empty_args_request = ok MoreSample.empty_args_body
  /\ extract_args MoreSample.empty_args_body = ok (PDict [])
  /\ List.filter (spec_absent_or_empty []) spec_required_fields
     = [ "name"; "phone"; "email"; "date"; "time" ]
  /\ answer
     = (ok (spec_envelope (PStr "call_6")
              (PStr "I had trouble reading the booking details. Could you try again?")),
        Sample.disconnected)
  /\ answer
     <> (ok (spec_envelope (PStr "call_6")
               (PStr "I'm missing name, phone, email, date, time. Could you provide those?")),
         Sample.disconnected).
Proof.
  assert (book_appointment_tool MoreSample.X Sample.settings
            MoreSample.empty_args_request Sample.disconnected
          = (ok (spec_envelope (PStr "call_6")
                   (PStr "I had trouble reading the booking details. Could you try again?")),
             Sample.disconnected)) as H.
  { exact (MainFacts.empty_search_asks_again MoreSample.X Sample.settings
             MoreSample.empty_args_request Sample.disconnected MoreSample.empty_args_body
             (PStr "call_6") (PDict []) eq_refl eq_refl eq_refl eq_refl eq_refl). }
  cbv zeta. rewrite H. repeat split. discriminate.
Qed.


(** The exchange of the code that the platform knows, and of another one. *)
Lemma callback_connects_or_changes_nothing_witness :
  Routes.google_callback Sample.X RoutesSample.P RoutesSample.env RoutesSample.code
    Sample.disconnected
  = (ok (Routes.RedirectResponse "http://localhost:4200"),
     {| token_store :=
          <["default" := PDict [ ("token", PStr "ya29.token");
                                 ("refresh_token", PStr "1//refresh");
                                 ("token_uri", PStr "https://oauth2.googleapis.com/token");
                                 ("client_id", PStr "client");
                                 ("client_secret", PStr "secret");
                                 ("scopes",
                                  PList [ PStr "https://www.googleapis.com/auth/calendar" ]) ]]>
            ∅;
        booked_slots := [];
        trace := [] |})
  /\ Routes.google_callback Sample.X RoutesSample.P RoutesSample.env "4/expired"
       Sample.connected
     = (throw (HTTPException 400 "(invalid_grant) Bad Request"), Sample.connected).
Proof.
  split.
  - exact (proj1 (proj1 (RoutesFacts.callback_connects_or_changes_nothing Sample.X
                           RoutesSample.P RoutesSample.env RoutesSample.code
                           Sample.disconnected)
                    RoutesSample.credentials RoutesSample.scopes eq_refl eq_refl)).
  - exact (proj1 (proj2 (RoutesFacts.callback_connects_or_changes_nothing Sample.X
                           RoutesSample.P RoutesSample.env "4/expired" Sample.connected))
             (OtherError "InvalidGrantError" "(invalid_grant) Bad Request") eq_refl).
Defined.

(** The platform creates the assistant and the web call; and a service
    without the private key. *)
Lemma start_call_asks_for_the_assistant_first_witness :
  snd (Routes.start_call Sample.X RoutesSample.P RoutesSample.env [])
  = [ RoutesSample.post_assistant;
      Routes.web_call_request RoutesSample.env (PStr "asst_1") ]
  /\ Routes.start_call Sample.X RoutesSample.P RoutesSample.env []
     = (ok (PDict [ ("call_id", PStr "call_9");
                    ("assistant_id", PStr "asst_1");
                    ("web_call_url", PStr "https://vapi.daily.co/room") ]),
        [ RoutesSample.post_assistant;
          Routes.web_call_request RoutesSample.env (PStr "asst_1") ])
  /\ Routes.start_call Sample.X RoutesSample.P ∅ [ RoutesSample.post_assistant ]
     = (throw (HTTPException 500 "VAPI_API_KEY not configured"),
        [ RoutesSample.post_assistant ]).
Proof.
  split; [|split].
  - exact (proj1 (proj2 (RoutesFacts.start_call_asks_for_the_assistant_first Sample.X
                           RoutesSample.P RoutesSample.env []) eq_refl)).
  - reflexivity.
  - reflexivity.
Defined.

End MoreExamples.
